(** * Yuki medication reminders: the reminder lifecycle engine

    A shallow embedding of the scheduling, reminder generation, pending
    store and trigger code of the repository, and the properties of the
    specification proved (or refuted) against it.

    Conventions of the embedding
    - a JavaScript [Date] is its time value: milliseconds since the epoch,
      an integer ([Instant]);
    - [Date.now()] is an explicit argument [now] of every operation that
      reads the clock;
    - a time zone is its UTC offset in minutes, a function of the instant;
      the zone the process runs in also has the offset it takes for a
      wall-clock reading, which [new Date(year, month, day, hours)] needs;
      that constructor is modelled for the days it builds as they are
      given, of years other than 0 to 99 and in the range of [Date], and
      what is proved of calendar days and day numbers is proved for such
      days;
    - a thrown exception is the result [None];
    - a lookup [object[name]] on a plain object finds the properties the
      object has and, failing that, the members of [Object.prototype];
    - the key-value store (Upstash Redis) is a finite map from keys to
      values with an optional expiry instant; the in-memory fallback is the
      record [memoryStore] of the source;
    - [async] functions are run to completion in program order: every
      function returns its result together with the new store;
    - of the several copies of a module the sources hold, the scheduler is
      the asynchronous one (custom schedules, six slots), the store the one
      with custom schedules, and the trigger endpoint the one that claims the
      slot and sends through [sendNotification].

    The properties of the specification come first; they are followed by
    further properties of the same code and of the functions around it:
    confirmation marks, custom schedules and upkeep of the store, the
    combined and past-due views of the scheduler, and the trigger endpoint
    from the request to the answer. *)

From stdpp Require Import gmap strings list pretty.
From Stdlib Require Import ZArith Lia Bool Ascii.

Open Scope Z_scope.

(** ** Dates and time zones *)

Module DateTime.

(** The time value of a [Date]: milliseconds since 1970-01-01T00:00Z. *)
Definition Instant := Z.

(** The largest time value a [Date] holds, and the smallest negated. *)
Definition MAX_TIME : Z := 8640000000000000.

Definition MS_PER_MINUTE : Z := 60 * 1000.
Definition MS_PER_DAY : Z := 1000 * 60 * 60 * 24.
Definition MINUTES_PER_DAY : Z := 24 * 60.

(** Days since the epoch to (year, month, day) in the proleptic Gregorian
    calendar, as [Date] does for its calendar fields. *)
Definition civil_from_days (days : Z) : Z * Z * Z :=
  let z := days + 719468 in
  let era := z / 146097 in
  let doe := z - era * 146097 in
  let yoe := (doe - doe / 1460 + doe / 36524 - doe / 146096) / 365 in
  let doy := doe - (365 * yoe + yoe / 4 - yoe / 100) in
  let mp := (5 * doy + 2) / 153 in
  let d := doy - (153 * mp + 2) / 5 + 1 in
  let m := if mp <? 10 then mp + 3 else mp - 9 in
  let y := yoe + era * 400 + (if m <=? 2 then 1 else 0) in
  (y, m, d).

(** [String(n).padStart(w, '0')] for a non-negative [n]. *)
Fixpoint zeros (n : nat) : string :=
  match n with
  | O => ""%string
  | S k => "0" +:+ zeros k
  end.

Definition padStart0 (w : nat) (s : string) : string :=
  zeros (w - String.length s) +:+ s.

Definition pad2 (n : Z) : string := padStart0 2 (pretty n).
Definition pad4 (n : Z) : string := padStart0 4 (pretty n).

(** The text [yyyy-MM-dd] of a day number (years 0000 to 9999). *)
Definition formatDate (days : Z) : string :=
  let '(y, m, d) := civil_from_days days in
  pad4 y +:+ "-" +:+ pad2 m +:+ "-" +:+ pad2 d.

(** Calendar day of an instant in UTC. *)
Definition utcDay (t : Instant) : Z := t / MS_PER_DAY.

(** [date.toISOString().split('T')[0]] *)
Definition toISODate (t : Instant) : string := formatDate (utcDay t).

Section Zoned.
(** The UTC offset, in minutes, that a time zone has at an instant
    (-480 for PST, -420 for PDT). *)
Variable offsetMin : Instant -> Z.

(** Wall-clock minutes since the epoch in the zone. *)
Definition zonedMinutes (t : Instant) : Z := t / MS_PER_MINUTE + offsetMin t.

Definition zonedDay (t : Instant) : Z := zonedMinutes t / MINUTES_PER_DAY.

Definition zonedMinuteOfDay (t : Instant) : Z := zonedMinutes t mod MINUTES_PER_DAY.

(** [toZonedTime(date, tz).getHours()] and [.getMinutes()] *)
Definition getHours (t : Instant) : Z := zonedMinuteOfDay t / 60.
Definition getMinutes (t : Instant) : Z := zonedMinuteOfDay t mod 60.

(** [formatInTimeZone(date, tz, 'yyyy-MM-dd')] *)
Definition formatInTimeZone (t : Instant) : string := formatDate (zonedDay t).
End Zoned.

(** The time zone the process runs in, as [Date] uses it: the UTC offset, in
    minutes, in force at an instant (for [getFullYear], [getMonth] and
    [getDate]), and the offset taken for a wall-clock reading, in minutes
    since the epoch on the clock of the zone (for
    [new Date(year, month, day, hours)]).  Where daylight time starts or
    ends the two do not agree. *)
Record Zone := {
  offsetAt : Instant -> Z;
  offsetOfWall : Z -> Z
}.

(** A zone without daylight time. *)
Definition fixedZone (offset : Z) : Zone :=
  {| offsetAt := fun _ => offset; offsetOfWall := fun _ => offset |}.

(** [Math.round(a / b)] for [b > 0]: the nearest integer, halves up. *)
Definition Math_round_div (a b : Z) : Z := (2 * a + b) / (2 * b).

(** The instant at [hh]:[mm] UTC of the day number [days]. *)
Definition ofCivil (days hh mm : Z) : Instant :=
  days * MS_PER_DAY + hh * 60 * MS_PER_MINUTE + mm * MS_PER_MINUTE.

End DateTime.

Import DateTime.

(** ** Data model *)

(** The day-indexed slot table of a tapering medication. *)
Record Tapering := {
  day1 : list string;
  day2 : list string;
  day3plus : list string
}.

(** A catalog entry of [medications.json] after loading: the date fields
    are [Date] objects, absent or [null] fields are [None]. *)
Record Medication := {
  med_id : string;
  med_name : string;
  dose : string;
  frequency : string;
  location : string;
  notes : option string;
  startDate : option Instant;
  endDate : option Instant;
  active : option bool;
  asNeeded : bool;
  tapering : option Tapering
}.

(** A property of a stored JSON object: not there, [null], or a value. *)
Inductive Field (A : Type) :=
| Absent
| Null
| Given (a : A).

Arguments Absent {A}.
Arguments Null {A}.
Arguments Given {A} a.

(** A custom schedule as [PUT /api/medications] stores it: only the fields
    given in the request are present, and a field given as [null] is stored
    as [null].  The values are typed as the dashboard sends them: the
    frequency is a string (another value reads the frequency table under
    its text), the active flag a boolean, the time slots an array of slot
    names. *)
Record ScheduleOverride := {
  ov_frequency : Field string;
  ov_timeSlots : Field (list string);
  ov_active : Field bool;
  ov_notes : Field string;
  updatedAt : Instant
}.

(** A reminder instance of [getIndividualReminders]. *)
Record Reminder := {
  rem_id : string;
  medicationId : string;
  medication : Medication;
  rem_slot : string;
  dayNumber : Z;
  scheduledTime : string;
  message : string;
  confirmed : bool;
  sentAt : option Instant
}.

(** [!r.sentAt]: [null] and [0] are falsy. *)
Definition truthy_time (t : option Instant) : bool :=
  match t with
  | Some v => negb (v =? 0)
  | None => false
  end.

(** ** Property lookup on plain objects *)

Module PlainObject.

(** The names of the members of [Object.prototype], which every object
    literal and every object of [JSON.parse] inherits: eleven functions and
    the accessor [__proto__], whose value is [Object.prototype] itself.  All
    twelve values are truthy, and none has a method [includes] or [push]. *)
Definition prototypeNames : list string :=
  [ "constructor"; "__defineGetter__"; "__defineSetter__"; "hasOwnProperty";
    "__lookupGetter__"; "__lookupSetter__"; "isPrototypeOf"; "propertyIsEnumerable";
    "toString"; "valueOf"; "__proto__"; "toLocaleString" ].

Definition inherited (name : string) : bool :=
  existsb (String.eqb name) prototypeNames.

(** What [object[name]] finds. *)
Inductive Property (A : Type) :=
| Own (a : A)
| Inherited
| Missing.

Arguments Own {A} a.
Arguments Inherited {A}.
Arguments Missing {A}.

(** [object[name]] for an object whose own properties are [object]. *)
Definition getProperty {A : Type} (object : gmap string A) (name : string) : Property A :=
  match object !! name with
  | Some a => Own a
  | None => if inherited name then Inherited else Missing
  end.

End PlainObject.

(** ** The pending store ([src/lib/storage.js]) *)

Module Storage.

Definition PENDING_KEY : string := "yuki:pending".
Definition CONFIRMED_PREFIX : string := "yuki:confirmed:".
Definition SCHEDULE_PREFIX : string := "yuki:schedule:".
Definition SENT_PREFIX : string := "yuki:sent:".

(** The [medication] of a confirmation record: the snapshot of the
    reminder, or the object [{ name: medicationId }]. *)
Inductive MedicationInfo :=
| Snapshot (m : Medication)
| NameOnly (n : string).

Record ConfirmationData := {
  cd_confirmedAt : Instant;
  cd_medicationId : string;
  cd_slot : string;
  cd_medication : MedicationInfo;
  cd_early : bool
}.

(** *** The key-value service *)

Inductive RedisValue :=
| VPending (l : list Reminder)
| VConfirmation (c : ConfirmationData)
| VNumber (n : Z)
| VSchedule (o : ScheduleOverride).

Record RedisEntry := {
  value : RedisValue;
  expireAt : option Instant
}.

Abbreviation Redis := (gmap string RedisEntry).

Definition expired (e : RedisEntry) (now : Instant) : bool :=
  match expireAt e with
  | Some t => t <=? now
  | None => false
  end.

(** GET *)
Definition redis_get (db : Redis) (now : Instant) (key : string) : option RedisValue :=
  match db !! key with
  | Some e => if expired e now then None else Some (value e)
  | None => None
  end.

(** SET key value [EX seconds] *)
Definition redis_set (db : Redis) (now : Instant) (key : string) (v : RedisValue)
    (ex : option Z) : Redis :=
  <[key := {| value := v; expireAt := (fun s => now + s * 1000) <$> ex |}]> db.

(** SETNX: 1 when the key was set, 0 when it existed. *)
Definition redis_setnx (db : Redis) (now : Instant) (key : string) (v : RedisValue)
    : Z * Redis :=
  match redis_get db now key with
  | Some _ => (0, db)
  | None => (1, <[key := {| value := v; expireAt := None |}]> db)
  end.

(** EXPIRE key seconds *)
Definition redis_expire (db : Redis) (now : Instant) (key : string) (seconds : Z) : Redis :=
  match redis_get db now key with
  | Some v => <[key := {| value := v; expireAt := Some (now + seconds * 1000) |}]> db
  | None => db
  end.

(** DEL *)
Definition redis_del (db : Redis) (key : string) : Redis := delete key db.

(** *** The in-memory fallback *)

Record MemoryStore := {
  pending : list Reminder;
  mem_confirmed : gset string;
  sentSlots : option (gset string);
  schedules : option (gmap string ScheduleOverride)
}.

(** The state the module works on: [getRedis()] is [None] without the
    Upstash credentials. *)
Record Store := {
  client : option Redis;
  memoryStore : MemoryStore
}.

Definition with_client (st : Store) (db : Redis) : Store :=
  {| client := Some db; memoryStore := memoryStore st |}.

Definition with_memory (st : Store) (m : MemoryStore) : Store :=
  {| client := client st; memoryStore := m |}.

Definition set_pending (m : MemoryStore) (l : list Reminder) : MemoryStore :=
  {| pending := l; mem_confirmed := mem_confirmed m;
     sentSlots := sentSlots m; schedules := schedules m |}.

Definition add_confirmed (m : MemoryStore) (key : string) : MemoryStore :=
  {| pending := pending m; mem_confirmed := {[key]} ∪ mem_confirmed m;
     sentSlots := sentSlots m; schedules := schedules m |}.

Definition set_sentSlots (m : MemoryStore) (s : gset string) : MemoryStore :=
  {| pending := pending m; mem_confirmed := mem_confirmed m;
     sentSlots := Some s; schedules := schedules m |}.

Definition emptyMemory : MemoryStore :=
  {| pending := []; mem_confirmed := ∅; sentSlots := None; schedules := None |}.

(** The object a confirm operation answers with; absent properties are
    [None]. *)
Record ConfirmResult := {
  res_confirmed : bool;
  res_medication : option string;
  res_remaining : option nat;
  res_confirmedAt : option Instant;
  res_message : option string
}.

Section Operations.
(** UTC offset of America/Los_Angeles at an instant, in minutes. *)
Variable pacific : Instant -> Z.

Definition getTodayDateString (date : Instant) : string :=
  formatInTimeZone pacific date.

Definition getPendingReminders (st : Store) (now : Instant) : list Reminder :=
  match client st with
  | Some db =>
      match redis_get db now PENDING_KEY with
      | Some (VPending l) => l
      | _ => []
      end
  | None => pending (memoryStore st)
  end.

(** [new Set(existing.map(r => r.id))] *)
Definition idSet (l : list Reminder) : gset string := list_to_set (rem_id <$> l).

Definition addPendingReminders (st : Store) (now : Instant) (reminders : list Reminder)
    : list Reminder * Store :=
  match client st with
  | Some db =>
      let existing := getPendingReminders st now in
      let existingIds := idSet existing in
      let newReminders :=
        List.filter (fun r => negb (bool_decide (rem_id r ∈ existingIds))) reminders in
      if (length newReminders =? 0)%nat then (existing, st)
      else
        let updated := existing ++ newReminders in
        (updated, with_client st (redis_set db now PENDING_KEY (VPending updated) (Some 86400)))
  | None =>
      let existingIds := idSet (pending (memoryStore st)) in
      let newReminders :=
        List.filter (fun r => negb (bool_decide (rem_id r ∈ existingIds))) reminders in
      let updated := pending (memoryStore st) ++ newReminders in
      (updated, with_memory st (set_pending (memoryStore st) updated))
  end.

(** [r.medicationId === medicationId && r.slot === slot] *)
Definition matches (medId slot : string) (r : Reminder) : bool :=
  String.eqb (medicationId r) medId && String.eqb (rem_slot r) slot.

Definition confirmMedication (st : Store) (now : Instant) (medId slot : string)
    (med : option Medication) : ConfirmResult * Store :=
  let key := slot +:+ "-" +:+ medId in
  let confirmedAt := now in
  match client st with
  | Some db =>
      let pending := getPendingReminders st now in
      let reminder := List.find (matches medId slot) pending in
      let updated := List.filter (fun r => negb (matches medId slot r)) pending in
      let db1 := redis_set db now PENDING_KEY (VPending updated) (Some 86400) in
      let today := getTodayDateString now in
      let confirmationData :=
        {| cd_confirmedAt := confirmedAt;
           cd_medicationId := medId;
           cd_slot := slot;
           cd_medication :=
             match med with
             | Some m => Snapshot m
             | None =>
                 match reminder with
                 | Some r => Snapshot (medication r)
                 | None => NameOnly medId
                 end
             end;
           cd_early := false |} in
      let db2 := redis_set db1 now (CONFIRMED_PREFIX +:+ today +:+ ":" +:+ key)
                   (VConfirmation confirmationData) (Some 86400) in
      ({| res_confirmed := true; res_medication := None;
          res_remaining := Some (length updated);
          res_confirmedAt := Some confirmedAt; res_message := None |},
       with_client st db2)
  | None =>
      let updated :=
        List.filter (fun r => negb (matches medId slot r)) (pending (memoryStore st)) in
      let m := add_confirmed (set_pending (memoryStore st) updated) key in
      ({| res_confirmed := true; res_medication := None;
          res_remaining := Some (length updated);
          res_confirmedAt := Some confirmedAt; res_message := None |},
       with_memory st m)
  end.

Definition confirmLatestPending (st : Store) (now : Instant) : ConfirmResult * Store :=
  match getPendingReminders st now with
  | [] =>
      ({| res_confirmed := false; res_medication := None; res_remaining := None;
          res_confirmedAt := None;
          res_message := Some "No pending medications to confirm" |}, st)
  | oldest :: _ =>
      let '(result, st') := confirmMedication st now (medicationId oldest) (rem_slot oldest) None in
      ({| res_confirmed := true;
          res_medication := Some (med_name (medication oldest));
          res_remaining := res_remaining result;
          res_confirmedAt := None; res_message := None |}, st')
  end.

Definition confirmById (st : Store) (now : Instant) (reminderId : string)
    : ConfirmResult * Store :=
  let pending := getPendingReminders st now in
  match List.find (fun r => String.eqb (rem_id r) reminderId) pending with
  | None =>
      ({| res_confirmed := false; res_medication := None; res_remaining := None;
          res_confirmedAt := None;
          res_message := Some ("Reminder " +:+ reminderId +:+ " not found") |}, st)
  | Some reminder =>
      let updated := List.filter (fun r => negb (String.eqb (rem_id r) reminderId)) pending in
      let confirmedAt := now in
      let st' :=
        match client st with
        | Some db =>
            let db1 := redis_set db now PENDING_KEY (VPending updated) (Some 86400) in
            let today := getTodayDateString now in
            let key := rem_slot reminder +:+ "-" +:+ medicationId reminder in
            let confirmationData :=
              {| cd_confirmedAt := confirmedAt;
                 cd_medicationId := medicationId reminder;
                 cd_slot := rem_slot reminder;
                 cd_medication := Snapshot (medication reminder);
                 cd_early := false |} in
            with_client st
              (redis_set db1 now (CONFIRMED_PREFIX +:+ today +:+ ":" +:+ key)
                 (VConfirmation confirmationData) (Some 86400))
        | None =>
            with_memory st
              (add_confirmed (set_pending (memoryStore st) updated)
                 (rem_slot reminder +:+ "-" +:+ medicationId reminder))
        end in
      ({| res_confirmed := true;
          res_medication := Some (med_name (medication reminder));
          res_remaining := Some (length updated);
          res_confirmedAt := Some confirmedAt; res_message := None |}, st')
  end.

(** The filter of [getRemindersToResend]. *)
Definition needsResend (now threshold : Z) (r : Reminder) : bool :=
  if negb (truthy_time (sentAt r)) then false
  else
    match sentAt r with
    | Some t => threshold <=? now - t
    | None => false
    end.

Definition getRemindersToResend (st : Store) (now : Instant) (minutesThreshold : Z)
    : list Reminder :=
  let pending := getPendingReminders st now in
  let threshold := minutesThreshold * 60 * 1000 in
  List.filter (needsResend now threshold) pending.

Definition DEFAULT_RESEND_MINUTES : Z := 30.

Definition claimKey (slot : string) (date : Instant) : string :=
  SENT_PREFIX +:+ getTodayDateString date +:+ ":" +:+ slot.

Definition claimSlot (st : Store) (now : Instant) (slot : string) (date : Instant)
    : bool * Store :=
  let key := claimKey slot date in
  match client st with
  | Some db =>
      let '(claimed, db1) := redis_setnx db now key (VNumber now) in
      let db2 := if negb (claimed =? 0) then redis_expire db1 now key 7200 else db1 in
      (claimed =? 1, with_client st db2)
  | None =>
      let slots := default ∅ (sentSlots (memoryStore st)) in
      if bool_decide (key ∈ slots)
      then (false, with_memory st (set_sentSlots (memoryStore st) slots))
      else (true, with_memory st (set_sentSlots (memoryStore st) ({[key]} ∪ slots)))
  end.

Definition clearPending (st : Store) : Store :=
  {| client := (fun db => redis_del db PENDING_KEY) <$> client st;
     memoryStore :=
       {| pending := []; mem_confirmed := ∅;
          sentSlots := sentSlots (memoryStore st);
          schedules := schedules (memoryStore st) |} |}.

Definition markRemindersSent (st : Store) (now : Instant) (reminderIds : list string)
    : list Reminder * Store :=
  let pending := getPendingReminders st now in
  let updated :=
    List.map (fun r =>
      if existsb (String.eqb (rem_id r)) reminderIds
      then {| rem_id := rem_id r; medicationId := medicationId r;
              medication := medication r; rem_slot := rem_slot r;
              dayNumber := dayNumber r; scheduledTime := scheduledTime r;
              message := message r; confirmed := confirmed r;
              sentAt := Some now |}
      else r) pending in
  match client st with
  | Some db =>
      (updated, with_client st (redis_set db now PENDING_KEY (VPending updated) (Some 86400)))
  | None => (updated, with_memory st (set_pending (memoryStore st) updated))
  end.

Definition getMedicationSchedule (st : Store) (now : Instant) (medId : string)
    : option ScheduleOverride * Store :=
  match client st with
  | Some db =>
      match redis_get db now (SCHEDULE_PREFIX +:+ medId) with
      | Some (VSchedule o) => (Some o, st)
      | _ => (None, st)
      end
  | None =>
      let m := memoryStore st in
      let sch := default ∅ (schedules m) in
      (sch !! medId,
       with_memory st
         {| pending := pending m; mem_confirmed := mem_confirmed m;
            sentSlots := sentSlots m; schedules := Some sch |})
  end.

End Operations.

End Storage.

(** ** The medication catalog ([src/config/medications.js]) *)

Module Medications.

(** The parsed and validated [medications.json]. *)
Record Config := {
  surgeryDate : Instant;
  timeSlots : gmap string string;
  frequencySlots : gmap string (list string);
  leftEye : list Medication;
  rightEye : list Medication;
  oral : list Medication
}.

Section Catalog.
Variable cfg : Config.
(** The time zone the process runs in: the zone of [getFullYear],
    [getMonth], [getDate] and of [new Date(y, m, d, ...)]. *)
Variable zone : Zone.

Definition SURGERY_DATE : Instant := surgeryDate cfg.
Definition TIME_SLOTS : gmap string string := timeSlots cfg.
Definition FREQUENCY_SLOTS : gmap string (list string) := frequencySlots cfg.

Definition getAllMedications : list Medication :=
  leftEye cfg ++ rightEye cfg ++ oral cfg.

(** The calendar day [getFullYear()/getMonth()/getDate()] denote. *)
Definition localDay (t : Instant) : Z := zonedDay (offsetAt zone) t.

(** [new Date(year, month, day, hours, 0, 0)] for the calendar day
    [day] of the process zone: the instant at which the clock of the zone
    reads that day and hour.  This is the date the constructor builds for a
    day of a year other than 0 to 99, which it takes for 1900 to 1999, and
    for an instant in the range of [Date]; the properties below are stated
    for such days. *)
Definition localDate (day hours : Z) : Instant :=
  let wall := day * MINUTES_PER_DAY + hours * 60 in
  (wall - offsetOfWall zone wall) * MS_PER_MINUTE.

Definition getDayNumber (date : Instant) : Z :=
  let surgeryNoon := localDate (localDay SURGERY_DATE) 12 in
  let checkNoon := localDate (localDay date) 12 in
  let diffTime := checkNoon - surgeryNoon in
  let diffDays := Math_round_div diffTime (1000 * 60 * 60 * 24) in
  diffDays + 1.

Definition getAtropineSlots (date : Instant) : list string :=
  let dayNum := getDayNumber date in
  match List.find (fun m => String.eqb (med_id m) "atropine") (leftEye cfg) with
  | None => []
  | Some atropine =>
      match tapering atropine with
      | None => []
      | Some t =>
          if dayNum =? 1 then day1 t
          else if dayNum =? 2 then day2 t
          else day3plus t
      end
  end.
End Catalog.

End Medications.

(** ** Schedule resolution and reminder generation ([src/lib/scheduler.js]) *)

Module Scheduler.
Import PlainObject Medications Storage.

Definition EYE_DROP_STAGGER_MINUTES : Z := 6.
Definition CACHE_TTL : Z := 5 * 60 * 1000.

(** [scheduleCache]: medication id to [{ data, timestamp }]. *)
Abbreviation ScheduleCache := (gmap string (option ScheduleOverride * Instant)).

(** [haystack.includes(needle)] *)
Fixpoint includes (needle haystack : string) : bool :=
  String.prefix needle haystack ||
  match haystack with
  | EmptyString => false
  | String _ rest => includes needle rest
  end.

(** [array.includes(s)] on an array of strings. *)
Definition arrayIncludes (slots : list string) (s : string) : bool :=
  existsb (String.eqb s) slots.

Definition nl : string := String "010"%char EmptyString.
Definition dquote : string := String "034"%char EmptyString.

Record StaggeredTime := {
  hours : Z;
  minutes : Z;
  formatted : string
}.

Definition formatTime (hours minutes : Z) : string :=
  let period := if 12 <=? hours then "PM" else "AM" in
  let displayHours := if hours mod 12 =? 0 then 12 else hours mod 12 in
  let displayMinutes := pad2 minutes in
  pretty displayHours +:+ ":" +:+ displayMinutes +:+ " " +:+ period.

(** The table [baseTimes] as (hours, minutes). *)
Definition baseTimes (slotName : string) : option (Z * Z) :=
  if String.eqb slotName "MORNING" then Some (8, 30)
  else if String.eqb slotName "LATE_MORNING" then Some (11, 0)
  else if String.eqb slotName "MIDDAY" then Some (14, 0)
  else if String.eqb slotName "EVENING" then Some (19, 0)
  else if String.eqb slotName "LATE_NIGHT" then Some (22, 30)
  else if String.eqb slotName "NIGHT" then Some (0, 0)
  else None.

(** [None] is the [TypeError] of reading [base.hours] for a name that is
    not in [baseTimes]. *)
Definition getStaggeredTime (slotName : string) (staggerIndex : Z) : option StaggeredTime :=
  match baseTimes slotName with
  | None => None
  | Some (bh, bm) =>
      let totalMinutes := bh * 60 + bm + staggerIndex * EYE_DROP_STAGGER_MINUTES in
      let hours := (totalMinutes / 60) mod 24 in
      let minutes := totalMinutes mod 60 in
      Some {| hours := hours; minutes := minutes; formatted := formatTime hours minutes |}
  end.

Definition locationEmoji (loc : string) : option string :=
  if String.eqb loc "LEFT eye" then Some "👁️ LEFT"
  else if String.eqb loc "RIGHT eye" then Some "👁️ RIGHT"
  else if String.eqb loc "ORAL" then Some "💊 ORAL"
  else None.

Definition formatIndividualMessage (med : Medication) (timeStr : string) (dayNumber : Z)
    : string :=
  let msg := "⏰ " +:+ timeStr +:+ " - Day " +:+ pretty dayNumber +:+ nl +:+ nl in
  let msg := msg +:+ default (location med) (locationEmoji (location med)) +:+ nl in
  let msg := msg +:+ med_name med +:+ nl in
  let msg := msg +:+ "Dose: " +:+ dose med +:+ nl in
  let msg :=
    match notes med with
    | Some n => if String.eqb n "" then msg else msg +:+ nl +:+ n +:+ nl
    | None => msg
    end in
  msg +:+ nl +:+ "✅ Reply " +:+ dquote +:+ "done" +:+ dquote +:+ " to confirm".

(** The slot table of [getCurrentTimeSlot], in minutes of the day. *)
Definition slotWindows : list (string * Z) :=
  [ ("MORNING", 8 * 60 + 30);
    ("LATE_MORNING", 11 * 60);
    ("MIDDAY", 14 * 60);
    ("EVENING", 19 * 60);
    ("LATE_NIGHT", 22 * 60 + 30);
    ("NIGHT", 24 * 60) ].

Definition locationOrder : list string := ["LEFT eye"; "RIGHT eye"; "ORAL"].

(** What [getIndividualReminders] returns. *)
Record Generated := {
  g_slot : option string;
  g_slotTime : option string;
  g_dayNumber : option Z;
  g_reminders : list Reminder
}.

(** The object [{ ...med, ...(customSchedule || {}) }] of [isMedicationDue].
    [None] is [null] or a property the object does not have; the two are
    alike to every test the code makes. *)
Record EffectiveSchedule := {
  es_id : string;
  es_name : string;
  es_dose : string;
  es_frequency : option string;
  es_location : string;
  es_notes : option string;
  es_startDate : option Instant;
  es_endDate : option Instant;
  es_active : option bool;
  es_asNeeded : bool;
  es_tapering : option Tapering;
  es_timeSlots : option (list string);
  es_updatedAt : option Instant
}.

(** One property of the spread [{ ...med, ...custom }]: that of [custom]
    when it has the property, [null] included, else that of [med]. *)
Definition spread {A : Type} (own : option A) (custom : Field A) : option A :=
  match custom with
  | Absent => own
  | Null => None
  | Given a => Some a
  end.

(** The property a custom schedule has, if there is a custom schedule. *)
Definition customField {A : Type} (customSchedule : option ScheduleOverride)
    (field : ScheduleOverride -> Field A) : Field A :=
  match customSchedule with
  | Some o => field o
  | None => Absent
  end.

(** The key [object[value]] reads for a string or [null]. *)
Definition propertyKey (value : option string) : string := default "null" value.

(** The loop that fills [byLocation] (lines 165 to 172) raises a TypeError
    when the location of a due medication names a member of
    [Object.prototype]: [byLocation[loc]] is then that member, no array is
    stored, and the member has no [push]. *)
Definition groupingRaises (dueMeds : list Medication) : bool :=
  existsb (fun med => inherited (location med)) dueMeds.

Section Resolver.
Variable cfg : Config.
Variable zone : Zone.
Variable pacific : Instant -> Z.

Definition getMedicationScheduleWithCache (cache : ScheduleCache) (st : Store)
    (now : Instant) (medId : string)
    : option ScheduleOverride * ScheduleCache * Store :=
  let fetch :=
    let '(schedule, st') := getMedicationSchedule st now medId in
    (schedule, <[medId := (schedule, now)]> cache, st') in
  match cache !! medId with
  | Some (data, timestamp) =>
      if now - timestamp <? CACHE_TTL then (data, cache, st) else fetch
  | None => fetch
  end.

Definition getCurrentTimeSlot (date : Instant) : option string :=
  let hours := getHours pacific date in
  let minutes := getMinutes pacific date in
  let currentTime := hours * 60 + minutes in
  match List.find (fun slot => (snd slot <=? currentTime) && (currentTime <? snd slot + 15))
          slotWindows with
  | Some slot => Some (fst slot)
  | None =>
      if (0 <=? currentTime) && (currentTime <? 15) then Some "NIGHT" else None
  end.

(** [toDateOnly]: midnight of the calendar day, in the process zone. *)
Definition toDateOnly (d : Instant) : Instant :=
  localDate zone (localDay zone d) 0.

(** [{ ...med, ...(customSchedule || {}) }]: the properties a custom
    schedule has replace those of the catalog entry, also where the custom
    schedule holds [null]; [timeSlots] and [updatedAt] are properties of the
    custom schedule only. *)
Definition effectiveSchedule (med : Medication) (customSchedule : option ScheduleOverride)
    : EffectiveSchedule :=
  {| es_id := med_id med;
     es_name := med_name med;
     es_dose := dose med;
     es_frequency := spread (Some (frequency med)) (customField customSchedule ov_frequency);
     es_location := location med;
     es_notes := spread (notes med) (customField customSchedule ov_notes);
     es_startDate := startDate med;
     es_endDate := endDate med;
     es_active := spread (active med) (customField customSchedule ov_active);
     es_asNeeded := asNeeded med;
     es_tapering := tapering med;
     es_timeSlots := spread None (customField customSchedule ov_timeSlots);
     es_updatedAt := updatedAt <$> customSchedule |}.

(** The checks of [isMedicationDue] on the merged schedule.  [None] is the
    TypeError of [slots.includes] when [FREQUENCY_SLOTS[frequency]] is a
    member of [Object.prototype]. *)
Definition dueBySchedule (eff : EffectiveSchedule) (slot : string) (date : Instant)
    : option bool :=
  if bool_decide (es_active eff = Some false) then Some false
  else
    let checkDate := toDateOnly date in
    if match es_startDate eff with
       | Some s => checkDate <? toDateOnly s
       | None => false
       end then Some false
    else if match es_endDate eff with
            | Some e => toDateOnly e <? checkDate
            | None => false
            end then Some false
    else if es_asNeeded eff then Some false
    else if String.eqb (es_id eff) "atropine" then
      Some (arrayIncludes (getAtropineSlots cfg zone date) slot)
    else
      match getProperty (FREQUENCY_SLOTS cfg) (propertyKey (es_frequency eff)) with
      | Missing => Some false
      | Own slots => Some (arrayIncludes slots slot)
      | Inherited => None
      end.

Definition isMedicationDue (cache : ScheduleCache) (st : Store) (now : Instant)
    (med : Medication) (slot : string) (date : Instant)
    : option bool * ScheduleCache * Store :=
  let '(customSchedule, cache', st') :=
    getMedicationScheduleWithCache cache st now (med_id med) in
  (dueBySchedule (effectiveSchedule med customSchedule) slot date, cache', st').

(** [med.active && await isMedicationDue(med, slot, date)] for every
    catalog entry under [Promise.all], keeping the due ones: every check is
    made, and the whole is [None] when one of them raises. *)
Fixpoint dueMedications (cache : ScheduleCache) (st : Store) (now : Instant)
    (meds : list Medication) (slot : string) (date : Instant)
    : option (list Medication) * ScheduleCache * Store :=
  match meds with
  | [] => (Some [], cache, st)
  | med :: rest =>
      let '(isDue, cache1, st1) :=
        if bool_decide (active med = Some true)
        then isMedicationDue cache st now med slot date
        else (Some false, cache, st) in
      let '(due, cache2, st2) := dueMedications cache1 st1 now rest slot date in
      (match isDue, due with
       | Some true, Some due => Some (med :: due)
       | Some false, Some due => Some due
       | _, _ => None
       end, cache2, st2)
  end.

(** [byLocation[location] || []] for a location that names no member of
    [Object.prototype], after the loop that fills [byLocation]: the due
    medications of the location, in their order. *)
Definition byLocation (dueMeds : list Medication) (loc : string) : list Medication :=
  List.filter (fun m => String.eqb (location m) loc) dueMeds.

(** The object literal [reminder] of the generator. *)
Definition makeReminder (dateStr slot : string) (dayNum : Z) (time : StaggeredTime)
    (med : Medication) : Reminder :=
  {| rem_id := dateStr +:+ "-" +:+ slot +:+ "-" +:+ med_id med;
     medicationId := med_id med;
     medication := med;
     rem_slot := slot;
     dayNumber := dayNum;
     scheduledTime := formatted time;
     message := formatIndividualMessage med (formatted time) dayNum;
     confirmed := false;
     sentAt := None |}.

(** The inner loop of the generator over the medications of one
    location; [None] when [getStaggeredTime] throws. *)
Fixpoint remindersFor (dateStr slot : string) (dayNum : Z) (loc : string)
    (meds : list Medication) (globalStaggerIndex : Z)
    : option (list Reminder * Z) :=
  match meds with
  | [] => Some ([], globalStaggerIndex)
  | med :: rest =>
      let isEyeDrop := includes "eye" loc in
      let staggerIndex := if isEyeDrop then globalStaggerIndex else 0 in
      match getStaggeredTime slot staggerIndex with
      | None => None
      | Some time =>
          let next := if isEyeDrop then globalStaggerIndex + 1 else globalStaggerIndex in
          let reminder := makeReminder dateStr slot dayNum time med in
          match remindersFor dateStr slot dayNum loc rest next with
          | None => None
          | Some (rs, final) => Some (reminder :: rs, final)
          end
      end
  end.

(** The outer loop over [locationOrder]. *)
Fixpoint remindersByLocation (dateStr slot : string) (dayNum : Z)
    (dueMeds : list Medication) (locs : list string) (globalStaggerIndex : Z)
    : option (list Reminder) :=
  match locs with
  | [] => Some []
  | loc :: rest =>
      match remindersFor dateStr slot dayNum loc (byLocation dueMeds loc) globalStaggerIndex with
      | None => None
      | Some (rs, next) =>
          match remindersByLocation dateStr slot dayNum dueMeds rest next with
          | None => None
          | Some rs' => Some (rs ++ rs')
          end
      end
  end.

(** [getIndividualReminders(date)], called at [now]; [None] is a thrown
    exception. *)
Definition getIndividualReminders (cache : ScheduleCache) (st : Store) (now : Instant)
    (date : Instant) : option Generated * ScheduleCache * Store :=
  match getCurrentTimeSlot date with
  | None =>
      (Some {| g_slot := None; g_slotTime := None; g_dayNumber := None;
               g_reminders := [] |}, cache, st)
  | Some slot =>
      let allMeds := getAllMedications cfg in
      let '(dueChecks, cache', st') := dueMedications cache st now allMeds slot date in
      let dayNum := getDayNumber cfg zone date in
      let dateStr := toISODate date in
      (match dueChecks with
       | None => None
       | Some dueMeds =>
           if groupingRaises dueMeds then None
           else
             match remindersByLocation dateStr slot dayNum dueMeds locationOrder 0 with
             | None => None
             | Some reminders =>
                 Some {| g_slot := Some slot;
                         g_slotTime := TIME_SLOTS cfg !! slot;
                         g_dayNumber := Some dayNum;
                         g_reminders := reminders |}
             end
       end, cache', st')
  end.

End Resolver.

End Scheduler.

(** ** Outbound notification ([src/lib/twilio.js], [src/lib/notifications.js]) *)

Module Notify.

(** One entry of the array [sendWhatsApp] returns. *)
Record SendResult := {
  to : string;
  success : bool;
  sid : option string;
  error : option string
}.

(** The object [sendNotification] returns. *)
Record ChannelResults := {
  whatsapp : list SendResult;
  messenger : list SendResult;
  summary_sent : nat;
  summary_failed : nat
}.

(** What awaiting a send call gives the caller. *)
Inductive Dispatch :=
| Thrown (reason : string)
| Results (results : list SendResult)
| Channels (results : ChannelResults).

(** The answer of [twilioClient.messages.create]. *)
Inductive TwilioReply :=
| Created (sid status to : string)
| Rejected (message : string).

Definition RECIPIENT_NUMBERS : list string := ["+18573008938"; "+13014615385"].

Section Twilio.
(** Whether [TWILIO_ACCOUNT_SID] and [TWILIO_AUTH_TOKEN] are set. *)
Variable credentials : bool.
(** The messaging service: recipient number and body to its answer. *)
Variable create : string -> string -> TwilioReply.

Definition sendWhatsApp (message : string) : Dispatch :=
  if negb credentials then Thrown "Missing TWILIO_ACCOUNT_SID or TWILIO_AUTH_TOKEN"
  else
    Results
      (List.map
         (fun number =>
            match create number message with
            | Created sid status to_ =>
                {| to := to_; success := true; sid := Some sid; error := None |}
            | Rejected msg =>
                {| to := number; success := false; sid := None; error := Some msg |}
            end)
         RECIPIENT_NUMBERS).

Definition successCount (rs : list SendResult) : nat :=
  length (List.filter success rs).

(** [sendNotification]: both channels, every error caught. *)
Definition sendNotification (messengerConfigured : bool)
    (sendMessenger : string -> Dispatch) (message : string) : Dispatch :=
  let wa :=
    match sendWhatsApp message with
    | Results rs => rs
    | _ => []
    end in
  let ms :=
    if messengerConfigured then
      match sendMessenger message with
      | Results rs => rs
      | _ => []
      end
    else [] in
  Channels
    {| whatsapp := wa;
       messenger := ms;
       summary_sent := successCount wa + successCount ms;
       summary_failed := (length wa - successCount wa) + (length ms - successCount ms) |}.
End Twilio.

End Notify.

(** ** The trigger endpoint ([api/cron.js]) *)

Module Cron.
Import Storage Notify.

Definition markSent (r : Reminder) (t : Instant) : Reminder :=
  {| rem_id := rem_id r; medicationId := medicationId r; medication := medication r;
     rem_slot := rem_slot r; dayNumber := dayNumber r; scheduledTime := scheduledTime r;
     message := message r; confirmed := confirmed r; sentAt := Some t |}.

(** The body of one [try] block: [true] when control reaches
    [reminder.sentAt = Date.now()].  Awaiting a rejected call, and
    [for (const result of sendResults)] over a value that is not
    iterable, both transfer to [catch]. *)
Definition delivered (d : Dispatch) : bool :=
  match d with
  | Results _ => true
  | Thrown _ => false
  | Channels _ => false
  end.

Section Handler.
(** The send call of the [i]-th iteration, and [Date.now()] after it. *)
Variable send : nat -> string -> Dispatch.
Variable clock : nat -> Instant.

(** The loop [for (const reminder of reminders)]: the reminders as the
    loop leaves them, and [sentIds]. *)
Fixpoint sendAll (i : nat) (reminders : list Reminder) : list Reminder * list string :=
  match reminders with
  | [] => ([], [])
  | reminder :: rest =>
      let '(rs, ids) := sendAll (S i) rest in
      if delivered (send i (message reminder))
      then (markSent reminder (clock i) :: rs, rem_id reminder :: ids)
      else (reminder :: rs, ids)
  end.

(** [sentReminders]: the reminders, as the loop leaves them, whose id is in
    [sentIds]. *)
Definition sentReminders (reminders : list Reminder) : list Reminder :=
  let '(reminders', sentIds) := sendAll 0 reminders in
  List.filter (fun r => existsb (String.eqb (rem_id r)) sentIds) reminders'.

(** Lines 106 to 137 of the handler: send every generated reminder, then
    store [sentReminders]. *)
Definition handler_dispatch (st : Store) (now : Instant) (reminders : list Reminder)
    : list Reminder * Store :=
  addPendingReminders st now (sentReminders reminders).
End Handler.

End Cron.

(** ** The catalog of [src/config/medications.js], for the examples *)

Module Sample.
Import Medications Storage.

(** 2026-01-12T12:00:00-08:00 *)
Definition surgery : Instant := ofCivil 20465 20 0.

Definition eyeDrop (id name freq loc : string) (note : option string)
    (t : option Tapering) : Medication :=
  {| med_id := id; med_name := name; dose := "1 drop"; frequency := freq;
     location := loc; notes := note; startDate := Some surgery; endDate := None;
     active := Some true; asNeeded := false; tapering := t |}.

Definition oralMed (id name dose_ freq : string) (note : string) (start : Instant)
    : Medication :=
  {| med_id := id; med_name := name; dose := dose_; frequency := freq;
     location := "ORAL"; notes := Some note; startDate := Some start; endDate := None;
     active := Some true; asNeeded := false; tapering := None |}.

Definition atropineTable : Tapering :=
  {| day1 := ["MORNING"; "MIDDAY"; "EVENING"];
     day2 := ["MORNING"; "EVENING"];
     day3plus := ["MORNING"] |}.

Definition ofloxacin := eyeDrop "ofloxacin" "Ofloxacin 0.3%" "4x_daily" "LEFT eye" None None.
Definition plasma :=
  eyeDrop "plasma" "Homologous plasma" "4x_daily" "LEFT eye" (Some "❄️ Refrigerated") None.
Definition amniotic :=
  eyeDrop "amniotic" "Amniotic eye drops" "2x_daily" "LEFT eye" (Some "❄️ Refrigerated") None.
Definition atropine :=
  eyeDrop "atropine" "Atropine 1%" "tapering" "LEFT eye" (Some "⚠️ May cause drooling")
    (Some atropineTable).
Definition prednisoloneEye :=
  eyeDrop "prednisolone-eye" "Prednisolone acetate 1%" "2x_daily" "RIGHT eye"
    (Some "🛑 If squinting, STOP & call vet (650-551-1115)") None.
Definition tacrolimus :=
  eyeDrop "tacrolimus-cyclosporine" "Tacrolimus 0.03% + Cyclosporine 2%" "2x_daily"
    "RIGHT eye" (Some "🧤 Wash hands after. 🔁 Lifelong med") None.
Definition prednisoloneOral :=
  oralMed "prednisolone-oral" "Prednisolone 5mg tablet" "½ tablet" "1x_daily"
    "⚠️ Do NOT stop abruptly. May increase hunger/thirst/urination" (ofCivil 20468 20 0).
Definition amoxicillin :=
  oralMed "amoxicillin" "Amoxicillin/Clavulanate liquid" "1 mL" "12h"
    "🍽️ Give with food. ❄️ Refrigerate" (ofCivil 20466 20 0).
Definition gabapentin :=
  oralMed "gabapentin" "Gabapentin 50mg" "1 tablet" "12h_11"
    "💊 For pain. May cause sedation" surgery.

Definition config : Config :=
  {| surgeryDate := surgery;
     timeSlots :=
       list_to_map
         [ ("MORNING", "08:30"); ("LATE_MORNING", "11:00"); ("MIDDAY", "14:00");
           ("EVENING", "19:00"); ("LATE_NIGHT", "23:00"); ("NIGHT", "00:00") ];
     frequencySlots :=
       list_to_map
         [ ("4x_daily", ["MORNING"; "MIDDAY"; "EVENING"; "NIGHT"]);
           ("2x_daily", ["MORNING"; "EVENING"]);
           ("1x_daily", ["MORNING"]);
           ("12h", ["MORNING"; "EVENING"]);
           ("12h_11", ["LATE_MORNING"; "LATE_NIGHT"]) ];
     leftEye := [ofloxacin; plasma; amniotic; atropine];
     rightEye := [prednisoloneEye; tacrolimus];
     oral := [prednisoloneOral; amoxicillin; gabapentin] |}.

(** A second tapering eye drop, with a table of its own. *)
Definition dexamethasone :=
  eyeDrop "dexamethasone" "Dexamethasone 0.1%" "tapering" "RIGHT eye" None
    (Some atropineTable).

(** Pacific Standard Time all year, and a process running in UTC. *)
Definition pst : Instant -> Z := fun _ => -480.
Definition utc : Zone := fixedZone 0.

(** A process running in America/Los_Angeles in 2026: daylight time from
    2026-03-08, 02:00 PST (10:00 UTC), to 2026-11-01, 02:00 PDT (09:00 UTC).
    A wall-clock reading of the hour skipped in March takes the offset
    of before the change, one of the hour repeated in November the
    earlier of its two instants. *)
Definition losAngeles : Zone :=
  {| offsetAt := fun t =>
       if (ofCivil 20520 10 0 <=? t) && (t <? ofCivil 20758 9 0) then -420 else -480;
     offsetOfWall := fun wall =>
       if (20520 * MINUTES_PER_DAY + 3 * 60 <=? wall)
          && (wall <? 20758 * MINUTES_PER_DAY + 2 * 60)
       then -420 else -480 |}.

Definition memoryOnly (l : list Reminder) : Store :=
  {| client := None;
     memoryStore := {| pending := l; mem_confirmed := ∅; sentSlots := None;
                       schedules := None |} |}.

Definition upstash (l : list Reminder) : Store :=
  {| client := Some {[ PENDING_KEY := {| value := VPending l; expireAt := None |} ]};
     memoryStore := emptyMemory |}.

(** A reminder as the tests of the storage module build them. *)
Definition reminder (id : string) (m : Medication) (slot : string)
    (sent : option Instant) : Reminder :=
  {| rem_id := id; medicationId := med_id m; medication := m; rem_slot := slot;
     dayNumber := 2; scheduledTime := "8:30 AM"; message := med_name m;
     confirmed := false; sentAt := sent |}.

(** Four pending reminders in the order they were sent. *)
Definition rA := reminder "2026-01-13-MORNING-atropine" atropine "MORNING" (Some 1000).
Definition rB :=
  reminder "2026-01-13-MORNING-prednisolone-eye" prednisoloneEye "MORNING" (Some 2000).
Definition rC :=
  reminder "2026-01-13-MORNING-tacrolimus-cyclosporine" tacrolimus "MORNING" (Some 3000).
Definition rD := reminder "2026-01-13-MORNING-amoxicillin" amoxicillin "MORNING" (Some 4000).

(** The atropine reminder of the next morning. *)
Definition rA' := reminder "2026-01-14-MORNING-atropine" atropine "MORNING" (Some 9000).

(** 2026-01-13, 08:30 and 19:05 Pacific Standard Time. *)
Definition morning13 : Instant := ofCivil 20466 16 30.
Definition evening13 : Instant := ofCivil 20467 3 5.

(** A request that switches a medication off and changes nothing else. *)
Definition switchOff : ScheduleOverride :=
  {| ov_frequency := Absent; ov_timeSlots := Absent; ov_active := Given false;
     ov_notes := Absent; updatedAt := 0 |}.

(** The schedule cache as it was filled four minutes before the morning
    trigger of 2026-01-13, when ofloxacin was switched off and plasma had no
    custom schedule. *)
Definition staleCache : Scheduler.ScheduleCache :=
  {[ "ofloxacin"%string := (Some switchOff, morning13 - 4 * MS_PER_MINUTE);
     "plasma"%string := (None, morning13 - 4 * MS_PER_MINUTE) ]}.

(** The store three minutes before that trigger: the custom schedule of
    ofloxacin has been reset, and plasma has been switched off. *)
Definition changedStore : Store :=
  {| client := None;
     memoryStore :=
       {| pending := []; mem_confirmed := ∅; sentSlots := None;
          schedules :=
            Some {[ "plasma"%string :=
                      {| ov_frequency := Absent; ov_timeSlots := Absent;
                         ov_active := Given false; ov_notes := Absent;
                         updatedAt := morning13 - 3 * MS_PER_MINUTE |} ]} |} |}.

End Sample.

(** ** Definitions used to state the properties *)

Module Statements.
Import PlainObject Storage Medications Scheduler Notify Cron.

(** The reminders [addPendingReminders] appends: those of the batch whose
    id is not in the pending list it read. *)
Definition fresh (existing reminders : list Reminder) : list Reminder :=
  List.filter (fun r => negb (bool_decide (rem_id r ∈ idSet existing))) reminders.

(** The selection of resend candidates in the words of the specification:
    sent-at is not null and the age exceeds the threshold. *)
Definition exceedsThreshold (now minutesThreshold : Z) (r : Reminder) : bool :=
  match sentAt r with
  | Some t => minutesThreshold * 60 * 1000 <? now - t
  | None => false
  end.

(** [{ confirmed: false, message }] *)
Definition notConfirmed (msg : string) : ConfirmResult :=
  {| res_confirmed := false; res_medication := None; res_remaining := None;
     res_confirmedAt := None; res_message := Some msg |}.

Definition nothingPending : ConfirmResult :=
  notConfirmed "No pending medications to confirm".

(** One call [claimSlot(slot, date)] made at the instant [call_now]. *)
Record ClaimCall := {
  call_now : Instant;
  call_slot : string;
  call_date : Instant
}.

(** A sequence of [claimSlot] calls, one after the other. *)
Fixpoint claimAll (pacific : Instant -> Z) (st : Store) (calls : list ClaimCall)
    : list bool * Store :=
  match calls with
  | [] => ([], st)
  | c :: rest =>
      let '(won, st1) := claimSlot pacific st (call_now c) (call_slot c) (call_date c) in
      let '(wins, st2) := claimAll pacific st1 rest in
      (won :: wins, st2)
  end.

(** A claim of [key] made at [t] is held in the store: on Redis the key is
    present with an expiry no earlier than two hours after [t], in memory
    the key is in [sentSlots]. *)
Definition held (key : string) (t : Instant) (st : Store) : Prop :=
  match client st with
  | Some db =>
      exists v e, db !! key = Some {| value := v; expireAt := Some e |}
                  /\ t + 7200 * 1000 <= e
  | None => exists s, sentSlots (memoryStore st) = Some s /\ key ∈ s
  end.

(** The slot set of a tapering table for a day number. *)
Definition taperingSlots (t : Tapering) (dayNum : Z) : list string :=
  if dayNum =? 1 then day1 t
  else if dayNum =? 2 then day2 t
  else day3plus t.

(** The slot set, for a day number, of the table of the left-eye catalog
    entry whose id is atropine; empty without such an entry or table. *)
Definition catalogTaperingSlots (cfg : Config) (dayNum : Z) : list string :=
  match List.find (fun m => String.eqb (med_id m) "atropine") (leftEye cfg) with
  | Some a =>
      match tapering a with
      | Some t => taperingSlots t dayNum
      | None => []
      end
  | None => []
  end.

(** The day number since the anchor date, by calendar days. *)
Definition dayNumberSince (cfg : Config) (zone : Zone) (date : Instant) : Z :=
  localDay zone date - localDay zone (surgeryDate cfg) + 1.

(** An instant whose calendar day, in the zone, [new Date(year, month, day,
    hours)] builds as [localDate] has it: the instant is in the range of
    [Date], the year is not one of 0 to 99, and the midnight and the noon of
    the day are in the range of [Date]. *)
Definition plain (zone : Zone) (t : Instant) : Prop :=
  let day := localDay zone t in
  Z.abs t <= MAX_TIME
  /\ (let '(year, _, _) := civil_from_days day in year < 0 \/ 99 < year)
  /\ Z.abs (localDate zone day 0) <= MAX_TIME
  /\ Z.abs (localDate zone day 12) <= MAX_TIME.

(** The dates a due check of a medication reads are [plain]: the check
    date, the surgery date, and the start and end date of the medication. *)
Definition plainDates (cfg : Config) (zone : Zone) (med : Medication) (date : Instant)
    : Prop :=
  plain zone date /\ plain zone (surgeryDate cfg)
  /\ (forall s, startDate med = Some s -> plain zone s)
  /\ (forall e, endDate med = Some e -> plain zone e).

(** From one wall-clock reading to another the offset of the zone changes
    by less than twelve hours. *)
Definition steady (zone : Zone) : Prop :=
  forall wall wall', Z.abs (offsetOfWall zone wall - offsetOfWall zone wall') < 12 * 60.

(** [isMedicationDue] in the words of the specification: the merged
    schedule is checked for the active flag, the start and end calendar
    dates and the as-needed mark; then a medication of the tapering kind,
    that is of frequency class tapering, is due when the slot is in the set
    its own table gives the day number, and any other medication when the
    slot is in the slot set of its frequency. *)
Definition isMedicationDue_spec (cfg : Config) (zone : Zone) (med : Medication)
    (customSchedule : option ScheduleOverride) (slot : string) (date : Instant) : bool :=
  let eff := effectiveSchedule med customSchedule in
  if bool_decide (es_active eff = Some false) then false
  else if match es_startDate eff with
          | Some s => localDay zone date <? localDay zone s
          | None => false
          end then false
  else if match es_endDate eff with
          | Some e => localDay zone e <? localDay zone date
          | None => false
          end then false
  else if es_asNeeded eff then false
  else if bool_decide (es_frequency eff = Some "tapering"%string) then
    match es_tapering eff with
    | Some t => arrayIncludes (taperingSlots t (dayNumberSince cfg zone date)) slot
    | None => false
    end
  else
    match FREQUENCY_SLOTS cfg !! propertyKey (es_frequency eff) with
    | Some slots => arrayIncludes slots slot
    | None => false
    end.

(** The four checks that come before the slot sets, on the merged schedule:
    the active flag is not [false], no start date lies on a later calendar
    day than the check date and no end date on an earlier one, and the
    medication is not as-needed. *)
Definition inCourse (zone : Zone) (eff : EffectiveSchedule) (date : Instant) : Prop :=
  es_active eff <> Some false
  /\ (forall s, es_startDate eff = Some s -> localDay zone s <= localDay zone date)
  /\ (forall e, es_endDate eff = Some e -> localDay zone date <= localDay zone e)
  /\ es_asNeeded eff = false.

(** The custom schedule the store holds for a medication at an instant. *)
Definition scheduleOf (st : Store) (now : Instant) (medId : string)
    : option ScheduleOverride :=
  fst (getMedicationSchedule st now medId).

(** The custom schedule a due check made at [now] reads for a medication:
    the cached one while the cache entry is younger than five minutes, else
    the stored one. *)
Definition scheduleRead (cache : ScheduleCache) (st : Store) (now : Instant)
    (medId : string) : option ScheduleOverride :=
  fst (fst (getMedicationScheduleWithCache cache st now medId)).

(** Over this cache and store, the due checks made at [now] read the custom
    schedules [ref]. *)
Definition reads (ref : string -> option ScheduleOverride) (cache : ScheduleCache)
    (st : Store) (now : Instant) : Prop :=
  forall medId, scheduleRead cache st now medId = ref medId.

(** Every cached custom schedule is the one [ref] names. *)
Definition cacheAgrees (ref : string -> option ScheduleOverride) (cache : ScheduleCache)
    : Prop :=
  forall medId data timestamp, cache !! medId = Some (data, timestamp) -> data = ref medId.

(** At [now] the store holds the custom schedules [ref] names. *)
Definition storeAgrees (ref : string -> option ScheduleOverride) (st : Store)
    (now : Instant) : Prop :=
  forall medId, scheduleOf st now medId = ref medId.

(** Whether a catalog entry is due under the custom schedules [ref];
    [None] when the check raises. *)
Definition dueUnder (cfg : Config) (zone : Zone) (ref : string -> option ScheduleOverride)
    (slot : string) (date : Instant) (med : Medication) : option bool :=
  if bool_decide (active med = Some true)
  then dueBySchedule cfg zone (effectiveSchedule med (ref (med_id med))) slot date
  else Some false.

(** Under the custom schedules [ref], generating for [slot] and [date]
    raises no TypeError: no due check of a catalog entry meets a member of
    [Object.prototype] under the frequency, and no entry that is due has a
    location that names one. *)
Definition raisesNothing (cfg : Config) (zone : Zone) (ref : string -> option ScheduleOverride)
    (slot : string) (date : Instant) : Prop :=
  forall med, In med (getAllMedications cfg) ->
    dueUnder cfg zone ref slot date med <> None
    /\ (dueUnder cfg zone ref slot date med = Some true -> inherited (location med) = false).

(** The entries of a catalog that are due under the custom schedules
    [ref]. *)
Definition dueAmong (cfg : Config) (zone : Zone) (ref : string -> option ScheduleOverride)
    (slot : string) (date : Instant) (meds : list Medication) : list Medication :=
  List.filter (fun med => bool_decide (dueUnder cfg zone ref slot date med = Some true)) meds.

(** The id the specification gives a reminder. *)
Definition reminderId (dateStr slot : string) (med : Medication) : string :=
  dateStr +:+ "-" +:+ slot +:+ "-" +:+ med_id med.

(** The medications of a batch, in the order of their reminders. *)
Definition batchOrder (due : list Medication) : list Medication :=
  byLocation due "LEFT eye" ++ byLocation due "RIGHT eye" ++ byLocation due "ORAL".

(** The results of all recipients of a dispatch: of a send call that
    threw, none. *)
Definition recipientResults (d : Dispatch) : list SendResult :=
  match d with
  | Thrown _ => []
  | Results results => results
  | Channels results => whatsapp results ++ messenger results
  end.

(** The dispatch failed for every recipient: no recipient in the send
    results has success. *)
Definition failedForAll (d : Dispatch) : Prop :=
  Forall (fun result => success result = false) (recipientResults d).

(** The generator run twice on one date, the second run after the first,
    in the words of the specification: both runs give a reminder list, the
    ids of the two lists are equal one by one, and adding the first list and
    then the second to a pending set leaves no more entries than the set had
    and one list has. *)
Definition idempotentOn (cfg : Config) (zone : Zone) (pacific : Instant -> Z)
    (cache : ScheduleCache) (st : Store) (now1 now2 date : Instant) : Prop :=
  let run1 := getIndividualReminders cfg zone pacific cache st now1 date in
  let run2 := getIndividualReminders cfg zone pacific (snd (fst run1)) (snd run1) now2 date in
  exists g1 g2,
    fst (fst run1) = Some g1 /\ fst (fst run2) = Some g2
    /\ List.map rem_id (g_reminders g1) = List.map rem_id (g_reminders g2)
    /\ forall pending a1 a2,
         a1 <= a2 ->
         (length (fst (addPendingReminders
                         (snd (addPendingReminders pending a1 (g_reminders g1)))
                         a2 (g_reminders g2)))
          <= length (getPendingReminders pending a1) + length (g_reminders g1))%nat.

(** The display time the specification gives a stagger index: the base time
    of the slot plus the index times six minutes, wrapped modulo 24 hours,
    in minutes of the day. *)
Definition displayMinute (bh bm staggerIndex : Z) : Z :=
  (bh * 60 + bm + staggerIndex * 6) mod (24 * 60).

Definition displayTime (bh bm staggerIndex : Z) : StaggeredTime :=
  let m := displayMinute bh bm staggerIndex in
  {| hours := m / 60; minutes := m mod 60; formatted := formatTime (m / 60) (m mod 60) |}.

End Statements.

(** ** The pending store, continued: confirmation marks, custom schedules
    and upkeep ([src/lib/storage.js]) *)

Module StorageExt.
Import Storage.

(** [!!data] for a value read from the key-value service: arrays and
    objects are truthy, of the numbers only [0] is not. *)
Definition truthy_value (v : RedisValue) : bool :=
  match v with
  | VNumber n => negb (n =? 0)
  | VPending _ | VConfirmation _ | VSchedule _ => true
  end.

(** [{ confirmed: true, early: true, confirmedAt, medicationId, slot }] *)
Record EarlyResult := {
  er_confirmed : bool;
  er_early : bool;
  er_confirmedAt : Instant;
  er_medicationId : string;
  er_slot : string
}.

(** [{ updated: true, medicationId, schedule }] *)
Record UpdateResult := {
  upd_updated : bool;
  upd_medicationId : string;
  upd_schedule : ScheduleOverride
}.

(** [{ reset: true, medicationId }] *)
Record ResetResult := {
  rst_reset : bool;
  rst_medicationId : string
}.

(** [{ before, after, removed }] *)
Record UpkeepResult := {
  up_before : nat;
  up_after : nat;
  up_removed : Z
}.

(** [{ ...scheduleUpdate, updatedAt: Date.now() }] *)
Definition stamped (scheduleUpdate : ScheduleOverride) (now : Instant) : ScheduleOverride :=
  {| ov_frequency := ov_frequency scheduleUpdate;
     ov_timeSlots := ov_timeSlots scheduleUpdate;
     ov_active := ov_active scheduleUpdate;
     ov_notes := ov_notes scheduleUpdate;
     updatedAt := now |}.

Definition set_schedules (m : MemoryStore) (s : gmap string ScheduleOverride) : MemoryStore :=
  {| pending := pending m; mem_confirmed := mem_confirmed m;
     sentSlots := sentSlots m; schedules := Some s |}.

(** The [Map] [seen] of [dedupePendingReminders], in insertion order. *)
Abbreviation Seen := (list (string * Reminder)).

(** [seen.get(key)] *)
Fixpoint seen_get (seen : Seen) (key : string) : option Reminder :=
  match seen with
  | [] => None
  | (k, v) :: rest => if String.eqb k key then Some v else seen_get rest key
  end.

(** [seen.set(key, reminder)]: a key that is present keeps its place. *)
Fixpoint seen_set (seen : Seen) (key : string) (reminder : Reminder) : Seen :=
  match seen with
  | [] => [(key, reminder)]
  | (k, v) :: rest =>
      if String.eqb k key then (k, reminder) :: rest
      else (k, v) :: seen_set rest key reminder
  end.

(** [`${reminder.slot}-${reminder.medicationId}`] *)
Definition dedupeKey (reminder : Reminder) : string :=
  rem_slot reminder +:+ "-" +:+ medicationId reminder.

(** [reminder.sentAt && (!existing.sentAt || reminder.sentAt > existing.sentAt)] *)
Definition replaces (reminder existing : Reminder) : bool :=
  truthy_time (sentAt reminder)
  && (negb (truthy_time (sentAt existing))
      || match sentAt reminder, sentAt existing with
         | Some a, Some b => b <? a
         | _, _ => false
         end).

(** The body of the loop over [pending]. *)
Definition dedupeStep (seen : Seen) (reminder : Reminder) : Seen :=
  let key := dedupeKey reminder in
  match seen_get seen key with
  | None => seen_set seen key reminder
  | Some existing =>
      if replaces reminder existing then seen_set seen key reminder else seen
  end.

(** [Array.from(seen.values())] after the loop. *)
Definition dedupeAll (pending : list Reminder) : list Reminder :=
  List.map snd (fold_left dedupeStep pending []).

(** [key.split('-')] *)
Fixpoint splitHyphen (key : string) : list string :=
  match key with
  | EmptyString => [EmptyString]
  | String c rest =>
      if Ascii.eqb c "-" then EmptyString :: splitHyphen rest
      else
        match splitHyphen rest with
        | first :: more => String c first :: more
        | [] => [String c EmptyString]
        end
  end.

(** [parts.join('-')] *)
Fixpoint joinHyphen (parts : list string) : string :=
  match parts with
  | [] => EmptyString
  | part :: rest =>
      match rest with
      | [] => part
      | _ :: _ => part +:+ "-" +:+ joinHyphen rest
      end
  end.

(** The entry the in-memory fallback of [getConfirmationHistory] builds
    from one key of [memoryStore.confirmed], at the instant [now]. *)
Definition historyEntry (now : Instant) (key : string) : ConfirmationData :=
  {| cd_confirmedAt := now;
     cd_medicationId := joinHyphen (tail (splitHyphen key));
     cd_slot := default EmptyString (head (splitHyphen key));
     cd_medication := NameOnly (joinHyphen (tail (splitHyphen key)));
     cd_early := false |}.

Section Operations.
(** UTC offset of America/Los_Angeles at an instant, in minutes. *)
Variable pacific : Instant -> Z.

Definition isAlreadyConfirmed (st : Store) (now : Instant) (medId slot : string)
    (date : Instant) : bool :=
  let dateStr := getTodayDateString pacific date in
  let key := CONFIRMED_PREFIX +:+ dateStr +:+ ":" +:+ slot +:+ "-" +:+ medId in
  match client st with
  | Some db =>
      match redis_get db now key with
      | Some data => truthy_value data
      | None => false
      end
  | None => bool_decide (slot +:+ "-" +:+ medId ∈ mem_confirmed (memoryStore st))
  end.

Definition confirmEarly (st : Store) (now : Instant) (medId slot : string)
    (med : option Medication) (date : Instant) : EarlyResult * Store :=
  let confirmedAt := now in
  let dateStr := getTodayDateString pacific date in
  let key := slot +:+ "-" +:+ medId in
  let confirmationData :=
    {| cd_confirmedAt := confirmedAt;
       cd_medicationId := medId;
       cd_slot := slot;
       cd_medication :=
         match med with
         | Some m => Snapshot m
         | None => NameOnly medId
         end;
       cd_early := true |} in
  let st' :=
    match client st with
    | Some db =>
        with_client st
          (redis_set db now (CONFIRMED_PREFIX +:+ dateStr +:+ ":" +:+ key)
             (VConfirmation confirmationData) (Some 86400))
    | None => with_memory st (add_confirmed (memoryStore st) key)
    end in
  ({| er_confirmed := true; er_early := true; er_confirmedAt := confirmedAt;
      er_medicationId := medId; er_slot := slot |}, st').

Definition updateMedicationSchedule (st : Store) (now : Instant) (medId : string)
    (scheduleUpdate : ScheduleOverride) : UpdateResult * Store :=
  let key := SCHEDULE_PREFIX +:+ medId in
  let scheduleData := stamped scheduleUpdate now in
  let result :=
    {| upd_updated := true; upd_medicationId := medId; upd_schedule := scheduleData |} in
  match client st with
  | Some db => (result, with_client st (redis_set db now key (VSchedule scheduleData) None))
  | None =>
      let m := memoryStore st in
      let sch := default ∅ (schedules m) in
      (result, with_memory st (set_schedules m (<[medId := scheduleData]> sch)))
  end.

Definition resetMedicationSchedule (st : Store) (medId : string) : ResetResult * Store :=
  let key := SCHEDULE_PREFIX +:+ medId in
  let result := {| rst_reset := true; rst_medicationId := medId |} in
  match client st with
  | Some db => (result, with_client st (redis_del db key))
  | None =>
      let m := memoryStore st in
      match schedules m with
      | Some sch => (result, with_memory st (set_schedules m (delete medId sch)))
      | None => (result, st)
      end
  end.

(** The write of the list that is left, to the store in use. *)
Definition storePending (st : Store) (now : Instant) (l : list Reminder) : Store :=
  match client st with
  | Some db => with_client st (redis_set db now PENDING_KEY (VPending l) (Some 86400))
  | None => with_memory st (set_pending (memoryStore st) l)
  end.

Definition dedupePendingReminders (st : Store) (now : Instant) : UpkeepResult * Store :=
  let pending := getPendingReminders st now in
  let deduped := dedupeAll pending in
  let removed := Z.of_nat (length pending) - Z.of_nat (length deduped) in
  ({| up_before := length pending; up_after := length deduped; up_removed := removed |},
   if 0 <? removed then storePending st now deduped else st).

End Operations.

End StorageExt.

(** ** Schedule resolution, continued: the combined view and the past-due
    view ([src/lib/scheduler.js]) *)

Module SchedulerExt.
Import Medications Storage StorageExt Scheduler.

(** The slot table of [getPastTimeSlots], in minutes of the day. *)
Definition pastSlotWindows : list (string * Z) :=
  [ ("MORNING", 8 * 60 + 30);
    ("LATE_MORNING", 11 * 60);
    ("MIDDAY", 14 * 60);
    ("EVENING", 19 * 60);
    ("LATE_NIGHT", 22 * 60 + 30) ].

(** What [getMedicationsDue] returns. *)
Record DueInfo := {
  due_slot : option string;
  due_slotTime : option string;
  due_dayNumber : option Z;
  due_medications : list Medication
}.

(** One entry of [getPastDueMedications]. *)
Record PastDue := {
  pd_id : string;
  pd_medicationId : string;
  pd_medication : Medication;
  pd_slot : string;
  pd_dayNumber : Z;
  pd_scheduledTime : option string;
  pd_pastDue : bool
}.

Section Resolver.
Variable cfg : Config.
Variable zone : Zone.
Variable pacific : Instant -> Z.

(** [None] is the TypeError of a due check, here and below. *)
Definition getMedicationsForSlot (cache : ScheduleCache) (st : Store) (now : Instant)
    (slot : string) (date : Instant) : option (list Medication) * ScheduleCache * Store :=
  let allMeds := getAllMedications cfg in
  dueMedications cfg zone cache st now allMeds slot date.

Definition getMedicationsDue (cache : ScheduleCache) (st : Store) (now : Instant)
    (date : Instant) : option DueInfo * ScheduleCache * Store :=
  match getCurrentTimeSlot pacific date with
  | None =>
      (Some {| due_slot := None; due_slotTime := None; due_dayNumber := None;
               due_medications := [] |}, cache, st)
  | Some slot =>
      let allMeds := getAllMedications cfg in
      let '(dueChecks, cache', st') := dueMedications cfg zone cache st now allMeds slot date in
      ((fun dueMeds =>
          {| due_slot := Some slot;
             due_slotTime := TIME_SLOTS cfg !! slot;
             due_dayNumber := Some (getDayNumber cfg zone date);
             due_medications := dueMeds |}) <$> dueChecks, cache', st')
  end.

Definition getPastTimeSlots (date : Instant) : list string :=
  let hours := getHours pacific date in
  let minutes := getMinutes pacific date in
  let currentTime := hours * 60 + minutes in
  List.map fst (List.filter (fun slot => snd slot + 15 <=? currentTime) pastSlotWindows).

(** The object pushed on [pastDue]. *)
Definition pastDueEntry (dateStr slot : string) (dayNum : Z) (med : Medication) : PastDue :=
  {| pd_id := dateStr +:+ "-" +:+ slot +:+ "-" +:+ med_id med;
     pd_medicationId := med_id med;
     pd_medication := med;
     pd_slot := slot;
     pd_dayNumber := dayNum;
     pd_scheduledTime := TIME_SLOTS cfg !! slot;
     pd_pastDue := true |}.

(** The loop [for (const slot of pastSlots)]: when the due checks of a slot
    raise, the slots after it are not looked at. *)
Fixpoint pastDueOf (cache : ScheduleCache) (st : Store) (now : Instant)
    (pastSlots : list string) (dateStr : string) (dayNum : Z) (date : Instant)
    : option (list PastDue) * ScheduleCache * Store :=
  match pastSlots with
  | [] => (Some [], cache, st)
  | slot :: rest =>
      let '(dueChecks, cache1, st1) :=
        dueMedications cfg zone cache st now (getAllMedications cfg) slot date in
      match dueChecks with
      | None => (None, cache1, st1)
      | Some dueMeds =>
          let '(more, cache2, st2) := pastDueOf cache1 st1 now rest dateStr dayNum date in
          (app (List.map (pastDueEntry dateStr slot dayNum) dueMeds) <$> more, cache2, st2)
      end
  end.

Definition getPastDueMedications (cache : ScheduleCache) (st : Store) (now : Instant)
    (date : Instant) : option (list PastDue) * ScheduleCache * Store :=
  let pastSlots := getPastTimeSlots date in
  let dayNum := getDayNumber cfg zone date in
  let dateStr := toISODate date in
  pastDueOf cache st now pastSlots dateStr dayNum date.

Definition getPastDueUnconfirmed (cache : ScheduleCache) (st : Store) (now : Instant)
    (date : Instant) : option (list PastDue) * ScheduleCache * Store :=
  let '(pastDue, cache', st') := getPastDueMedications cache st now date in
  (List.filter
     (fun med =>
        negb (isAlreadyConfirmed pacific st' now (pd_medicationId med) (pd_slot med) date))
   <$> pastDue,
   cache', st').

End Resolver.

End SchedulerExt.

(** ** The catalog, continued ([src/config/medications.js]) *)

Module MedicationsExt.
Import Medications Scheduler.

(** [getConflictingMeds]: [conflictGroups] is the object
    [MEDICATION_DEPENDENCIES.conflictGroups], as the list of its entries in
    enumeration order. *)
Definition getConflictingMeds (conflictGroups : list (string * list string))
    (medicationId : string) : list string :=
  match List.find (fun entry => arrayIncludes (snd entry) medicationId) conflictGroups with
  | Some (_, meds) => List.filter (fun m => negb (String.eqb m medicationId)) meds
  | None => []
  end.

End MedicationsExt.

(** ** The trigger endpoint, from the request to the answer ([api/cron.js]) *)

Module Trigger.
Import Storage Scheduler Notify Cron.

(** How an invocation of the handler ends: with one of its JSON answers, or
    with the exception its promise is rejected with. *)
Inductive Response :=
| Unauthorized
| ReRemind (count : nat)
| NoActiveSlot (pendingCount : nat)
| AlreadyClaimed (slot : string)
| NothingDue (slot : string)
| Sent (slot : string) (dayNum : option Z) (count : nat) (reminders : list (string * string))
| Raised (error : string).

(** The check of [CRON_SECRET] against the [authorization] header; an unset
    or empty secret switches the check off. *)
Definition authorized (cronSecret authHeader : option string) : bool :=
  match cronSecret with
  | None => true
  | Some secret =>
      if String.eqb secret "" then true
      else bool_decide (authHeader = Some ("Bearer " +:+ secret))
  end.

Definition reRemindMsg (reminder : Reminder) : string :=
  "⏰ REMINDER: " +:+ med_name (medication reminder) +:+ " not yet confirmed!" +:+ nl +:+ nl
  +:+ message reminder +:+ nl +:+ nl
  +:+ "⚠️ Please reply " +:+ dquote +:+ "done" +:+ dquote +:+ " when taken".

Section Handler.
Variable cfg : Medications.Config.
(** The time zone the process runs in. *)
Variable zone : Zone.
(** UTC offset of America/Los_Angeles at an instant, in minutes. *)
Variable pacific : Instant -> Z.
(** The send call of the [i]-th loop iteration of the invocation, and
    [Date.now()] after it. *)
Variable send : nat -> string -> Dispatch.
Variable clock : nat -> Instant.

(** The loop [for (const reminder of toResend)]: the store it leaves and
    the messages it passed to the send call. *)
Fixpoint reRemind (i : nat) (st : Store) (toResend : list Reminder) : Store * list string :=
  match toResend with
  | [] => (st, [])
  | reminder :: rest =>
      let msg := reRemindMsg reminder in
      let st1 :=
        if delivered (send i msg)
        then snd (markRemindersSent st (clock i) [rem_id reminder])
        else st in
      let '(st2, sent) := reRemind (S i) st1 rest in
      (st2, msg :: sent)
  end.

(** Lines 97 to 149, for the values that line 95 binds to [reminders] and
    [dayNumber]; [None] is [undefined], and reading [reminders.length] of it
    raises a TypeError. *)
Definition sendBatch (slot : string) (reminders : option (list Reminder))
    (dayNumber : option Z) (st : Store) (now : Instant) : Response * Store * list string :=
  match reminders with
  | None =>
      (Raised "TypeError: Cannot read properties of undefined (reading 'length')", st, [])
  | Some reminders =>
      if (length reminders =? 0)%nat then (NothingDue slot, st, [])
      else
        let sentIds := snd (sendAll send clock 0 reminders) in
        let sentReminders := sentReminders send clock reminders in
        let st' := snd (handler_dispatch send clock st now reminders) in
        (Sent slot dayNumber (length sentIds)
           (List.map (fun r => (med_name (medication r), scheduledTime r)) sentReminders),
         st', List.map message reminders)
  end.

(** The handler, invoked at [now] with the schedule cache [cache]: how it
    ends, the store it leaves and the messages it passed to the send call.
    Line 95 destructures what [getIndividualReminders(now)] returns without
    awaiting it: the value is the promise of the asynchronous generator,
    which has neither a property [reminders] nor [dayNumber].  The
    generator runs all the same, and leaves the store as it does when
    awaited. *)
Definition handler (cronSecret authHeader : option string) (cache : ScheduleCache)
    (st : Store) (now : Instant) : Response * Store * list string :=
  if negb (authorized cronSecret authHeader) then (Unauthorized, st, [])
  else
    let toResend := getRemindersToResend st now 30 in
    if (0 <? length toResend)%nat then
      let '(st', sent) := reRemind 0 st toResend in
      (ReRemind (length toResend), st', sent)
    else
      match getCurrentTimeSlot pacific now with
      | None => (NoActiveSlot (length (getPendingReminders st now)), st, [])
      | Some slot =>
          let '(claimed, st1) := claimSlot pacific st now slot now in
          if negb claimed then (AlreadyClaimed slot, st1, [])
          else
            let st2 := snd (getIndividualReminders cfg zone pacific cache st1 now now) in
            sendBatch slot None None st2 now
      end.

End Handler.

End Trigger.

(** ** The schedule endpoint ([api/schedule.js]) *)

Module Api.
Import Medications.

(** [new Date('2026-01-12T12:00:00-08:00')] *)
Definition ANCHOR : Instant := ofCivil 20465 20 0.

Section Endpoint.
Variable cfg : Config.
(** The time zone the process runs in. *)
Variable zone : Zone.

(** [date.setDate(date.getDate() + days)]: the instant at which the clock
    of the zone reads the same time of day, [days] calendar days on.
    [None] is the Invalid Date of a time value out of the range of
    [Date]. *)
Definition setDateBy (date : Instant) (days : Z) : option Instant :=
  let wall :=
    (localDay zone date + days) * MINUTES_PER_DAY + zonedMinuteOfDay (offsetAt zone) date in
  let t := (wall - offsetOfWall zone wall) * MS_PER_MINUTE + date mod MS_PER_MINUTE in
  if Z.abs t <=? MAX_TIME then Some t else None.

(** The date the endpoint answers for: [day] is
    [req.query.day ? parseInt(req.query.day) : null], the integer
    [parseInt] returns, with [None] for [null] and for [NaN]. *)
Definition requestedDate (day : option Z) (now : Instant) : option Instant :=
  match day with
  | Some d => if d =? 0 then Some now else setDateBy ANCHOR (d - 1)
  | None => Some now
  end.

(** The [dayNumber] of the answer; [None] is [NaN], the day number of an
    Invalid Date. *)
Definition answeredDayNumber (day : option Z) (now : Instant) : option Z :=
  getDayNumber cfg zone <$> requestedDate day now.

End Endpoint.

End Api.

(** ** Further values for the examples *)

Module Scenario.
Import Storage StorageExt Medications Scheduler Notify Sample.

(** 2026-01-13, 10:00 Pacific Standard Time: the morning slot is past. *)
Definition midMorning13 : Instant := ofCivil 20466 18 0.

(** The generator over the catalog, with no custom schedule stored. *)
Definition generated (now : Instant) : Generated :=
  default {| g_slot := None; g_slotTime := None; g_dayNumber := None; g_reminders := [] |}
    (fst (fst (getIndividualReminders config utc pst ∅ (memoryOnly []) now now))).

(** The send call of [api/cron.js], with a messaging service that accepts
    every message and Messenger not configured. *)
Definition notifying : nat -> string -> Dispatch :=
  fun _ =>
    sendNotification true (fun number _ => Created "SM1" "queued" number) false
      (fun _ => Results []).

(** The conflict groups of the catalog. *)
Definition conflictGroups : list (string * list string) :=
  [ ("leftEye", ["ofloxacin"; "plasma"; "amniotic"; "atropine"]);
    ("rightEye", ["prednisolone-eye"; "tacrolimus-cyclosporine"]) ]%string.

End Scenario.

(** ** Definitions used to state the further properties *)

Module Notions.
Import Storage StorageExt.

(** The kept entry [v] was sent no earlier than [r]: [r] has no sent-at, or
    both have one and that of [v] is not the smaller. *)
Definition notOlder (v r : Reminder) : bool :=
  negb (truthy_time (sentAt r))
  || (truthy_time (sentAt v) && (default 0 (sentAt r) <=? default 0 (sentAt v))).

(** No hyphen occurs in the name. *)
Fixpoint hyphenFree (name : string) : bool :=
  match name with
  | EmptyString => true
  | String c rest => negb (Ascii.eqb c "-") && hyphenFree rest
  end.

(** No medication id is in two conflict groups. *)
Fixpoint disjointGroups (groups : list (string * list string)) : bool :=
  match groups with
  | [] => true
  | group :: rest =>
      forallb (fun other =>
                 forallb (fun m => negb (Scheduler.arrayIncludes (snd other) m)) (snd group))
        rest
      && disjointGroups rest
  end.

(** The lifetime of the pending list on the key-value service. *)
Definition PENDING_TTL_MS : Z := 86400 * 1000.

(** At the instant the zone gives the wall-clock reading [wall], its clock
    reads [wall]: the reading is not one of an hour that is skipped where
    daylight time starts. *)
Definition readsBack (zone : Zone) (wall : Z) : Prop :=
  offsetAt zone ((wall - offsetOfWall zone wall) * MS_PER_MINUTE) = offsetOfWall zone wall.

(** The invariant of the loop of [dedupePendingReminders] after the
    reminders [done]: the keys of [seen] are distinct, every value is one of
    the reminders done and has the key it is stored under, and every
    reminder done has, under its key, a value that is not older. *)
Definition seenInv (seen : Seen) (done : list Reminder) : Prop :=
  NoDup (List.map fst seen)
  /\ (forall k v, In (k, v) seen -> dedupeKey v = k /\ In v done)
  /\ (forall r, In r done ->
        exists v, seen_get seen (dedupeKey r) = Some v /\ notOlder v r = true).

(** The stores that differ at most in the custom schedules of the
    in-memory fallback. *)
Definition sameButSchedules (st st' : Store) : Prop :=
  client st' = client st
  /\ pending (memoryStore st') = pending (memoryStore st)
  /\ mem_confirmed (memoryStore st') = mem_confirmed (memoryStore st)
  /\ sentSlots (memoryStore st') = sentSlots (memoryStore st).

End Notions.

(** * Properties of the pending store *)

Module StorageFacts.
Import Storage Sample Statements.

(** Closes [NoDup l] for an explicit list of strings. *)
Ltac nodup_strings :=
  repeat (apply NoDup_cons_2;
          [rewrite list_elem_of_In; simpl; intuition discriminate|]);
  apply NoDup_nil_2.

Lemma redis_get_set (db : Redis) now key v secs :
  0 < secs -> redis_get (redis_set db now key v (Some secs)) now key = Some v.
Proof.
  intros Hs. unfold redis_get, redis_set. rewrite lookup_insert_eq. simpl.
  unfold expired. simpl.
  destruct (now + secs * 1000 <=? now) eqn:E; [lia | reflexivity].
Qed.

Lemma redis_get_set_ne (db : Redis) now now' key key' v ex :
  key <> key' -> redis_get (redis_set db now key v ex) now' key' = redis_get db now' key'.
Proof.
  intros Hne. unfold redis_get, redis_set. by rewrite lookup_insert_ne.
Qed.

Lemma elem_idSet (l : list Reminder) (i : string) :
  i ∈ idSet l <-> In i (List.map rem_id l).
Proof.
  unfold idSet. rewrite elem_of_list_to_set, list_elem_of_In. reflexivity.
Qed.

(** Reading the pending list back after a write of the same instant. *)
Lemma getPending_with_client st db now l :
  getPendingReminders
    (with_client st (redis_set db now PENDING_KEY (VPending l) (Some 86400))) now = l.
Proof.
  unfold getPendingReminders. simpl. rewrite redis_get_set by lia. reflexivity.
Qed.

Lemma getPending_with_memory st m :
  client st = None -> getPendingReminders (with_memory st m) = fun _ => pending m.
Proof.
  intros Hc. unfold getPendingReminders. simpl. rewrite Hc. reflexivity.
Qed.

Lemma NoDup_map_filter {A B : Type} (f : A -> B) (p : A -> bool) (l : list A) :
  NoDup (List.map f l) -> NoDup (List.map f (List.filter p l)).
Proof.
  induction l as [|a l IH]; simpl; intros Hnd; [constructor|].
  inversion Hnd as [|? ? Hnotin Hrest]; subst.
  destruct (p a); simpl; [|auto].
  constructor; [|auto].
  intros Hin. apply Hnotin.
  apply list_elem_of_In in Hin. apply list_elem_of_In.
  apply in_map_iff in Hin as (x & Hx & Hxin).
  apply filter_In in Hxin as [Hxin _].
  apply in_map_iff. eauto.
Qed.

Lemma addPendingReminders_result st now reminders :
  fst (addPendingReminders st now reminders)
  = getPendingReminders st now ++ fresh (getPendingReminders st now) reminders.
Proof.
  unfold addPendingReminders, fresh.
  destruct (client st) as [db|] eqn:Hc.
  - destruct (_ =? _)%nat eqn:E; simpl; [|reflexivity].
    apply Nat.eqb_eq in E. apply length_zero_iff_nil in E. rewrite E.
    by rewrite app_nil_r.
  - simpl. unfold getPendingReminders. rewrite Hc. reflexivity.
Qed.

Lemma addPendingReminders_stored st now reminders :
  getPendingReminders (snd (addPendingReminders st now reminders)) now
  = fst (addPendingReminders st now reminders).
Proof.
  unfold addPendingReminders.
  destruct (client st) as [db|] eqn:Hc.
  - destruct (_ =? _)%nat eqn:E; simpl; [reflexivity|].
    apply getPending_with_client.
  - simpl. rewrite getPending_with_memory by done. reflexivity.
Qed.

(** C2 as amended: [addPendingReminders] appends, in batch order, exactly the
    reminders of the batch whose id is not in the pending list it reads;
    ids already pending are dropped, ids repeated inside the batch are
    not; the list it returns is the list stored; and when neither the
    pending list nor the batch repeats an id, the result repeats none. *)
Theorem addPendingReminders_dedupes_against_existing st now reminders :
  let existing := getPendingReminders st now in
  let result := fst (addPendingReminders st now reminders) in
  result = existing ++ fresh existing reminders
  /\ (forall r, In r (fresh existing reminders) <->
                In r reminders /\ ~ In (rem_id r) (List.map rem_id existing))
  /\ getPendingReminders (snd (addPendingReminders st now reminders)) now = result
  /\ (NoDup (List.map rem_id existing) -> NoDup (List.map rem_id reminders) ->
      NoDup (List.map rem_id result)).
Proof.
  intros existing result. subst result existing.
  assert (Hfresh : forall r, In r (fresh (getPendingReminders st now) reminders) <->
            In r reminders /\ ~ In (rem_id r) (List.map rem_id (getPendingReminders st now))).
  { intros r. unfold fresh. rewrite filter_In, negb_true_iff, bool_decide_eq_false.
    rewrite elem_idSet. reflexivity. }
  split; [apply addPendingReminders_result|].
  split; [exact Hfresh|].
  split; [apply addPendingReminders_stored|].
  intros Hex Hnew. rewrite addPendingReminders_result, map_app.
  apply NoDup_app. split; [exact Hex|]. split.
  - intros i Hi Hi'. apply list_elem_of_In in Hi, Hi'.
    apply in_map_iff in Hi' as (r & <- & Hr). apply Hfresh in Hr as [_ Hr]. auto.
  - apply NoDup_map_filter. exact Hnew.
Qed.

(** C2, witness: adding a batch of two new ids to one pending reminder. *)
Lemma addPendingReminders_dedupes_witness :
  NoDup (List.map rem_id
           (fst (addPendingReminders
                   (memoryOnly [reminder "2026-01-13-MORNING-ofloxacin" ofloxacin "MORNING" None]) 0
                   [reminder "2026-01-13-MORNING-ofloxacin" ofloxacin "MORNING" None;
                    reminder "2026-01-13-MORNING-plasma" plasma "MORNING" None]))).
Proof.
  apply (addPendingReminders_dedupes_against_existing
           (memoryOnly [reminder "2026-01-13-MORNING-ofloxacin" ofloxacin "MORNING" None]) 0
           [reminder "2026-01-13-MORNING-ofloxacin" ofloxacin "MORNING" None;
            reminder "2026-01-13-MORNING-plasma" plasma "MORNING" None]).
  - vm_compute. nodup_strings.
  - vm_compute. nodup_strings.
Defined.

(** C2, counterexample: a batch that repeats an id leaves two pending
    entries with that id. *)
Lemma addPendingReminders_keeps_batch_duplicates :
  ~ NoDup (List.map rem_id
             (fst (addPendingReminders (memoryOnly []) 0
                     [reminder "2026-01-13-MORNING-ofloxacin" ofloxacin "MORNING" None;
                      reminder "2026-01-13-MORNING-ofloxacin" ofloxacin "MORNING" (Some 5)]))).
Proof.
  vm_compute. intros H. inversion H as [|? ? Hnotin _]; subst.
  apply Hnotin. left.
Qed.

Lemma filter_id {A : Type} (p : A -> bool) (l : list A) :
  (forall x, In x l -> p x = true) -> List.filter p l = l.
Proof.
  induction l as [|a l IH]; simpl; intros H; [reflexivity|].
  rewrite (H a) by auto. f_equal. apply IH. auto.
Qed.

Lemma find_skip {A : Type} (p : A -> bool) (l k : list A) :
  (forall x, In x l -> p x = false) -> List.find p (l ++ k) = List.find p k.
Proof.
  induction l as [|a l IH]; simpl; intros H; [reflexivity|].
  rewrite (H a) by auto. apply IH. auto.
Qed.

(** In a list without repeated ids, the entries around the one with a given
    id all have another id. *)
Lemma unique_id_split (before after : list Reminder) (r : Reminder) :
  NoDup (List.map rem_id (before ++ r :: after)) ->
  forall x, In x (before ++ after) -> String.eqb (rem_id x) (rem_id r) = false.
Proof.
  intros Hnd x Hx. apply String.eqb_neq. intros Heq.
  rewrite map_app in Hnd. simpl in Hnd.
  apply NoDup_app in Hnd as (_ & Hdisj & Hr).
  apply in_app_or in Hx as [Hx|Hx].
  - apply (Hdisj (rem_id x)).
    + apply list_elem_of_In, in_map. exact Hx.
    + rewrite Heq. apply list_elem_of_In. left. reflexivity.
  - inversion Hr as [|? ? Hnotin _]; subst. apply Hnotin, list_elem_of_In.
    rewrite <- Heq. apply in_map. exact Hx.
Qed.

Lemma confirmed_key_not_pending (suffix : string) :
  PENDING_KEY <> CONFIRMED_PREFIX +:+ suffix.
Proof. unfold PENDING_KEY, CONFIRMED_PREFIX. simpl. discriminate. Qed.

Section Confirmation.
Variable pacific : Instant -> Z.

Lemma confirmById_pending st now reminderId r :
  List.find (fun x => String.eqb (rem_id x) reminderId) (getPendingReminders st now) = Some r ->
  getPendingReminders (snd (confirmById pacific st now reminderId)) now
  = List.filter (fun x => negb (String.eqb (rem_id x) reminderId)) (getPendingReminders st now).
Proof.
  intros Hfind. unfold confirmById. rewrite Hfind. simpl.
  destruct (client st) as [db|] eqn:Hc.
  - unfold getPendingReminders at 1. simpl.
    rewrite redis_get_set_ne by (intros E; symmetry in E; revert E; apply confirmed_key_not_pending).
    rewrite redis_get_set by lia. reflexivity.
  - rewrite getPending_with_memory by done. reflexivity.
Qed.

(** C6: for a pending list without repeated ids and an id in it,
    [confirmById] leaves exactly the other entries pending, in their order,
    and answers with the name of the medication, the number of entries left
    and the instant of the confirmation; whatever the list, the entries
    left are those with another id, in their order; for an id that is not
    pending it answers not-found and changes nothing.  The function is
    total: no case raises. *)
Theorem confirmById_removes_exactly_that_entry st now reminderId :
  let pending := getPendingReminders st now in
  let result := fst (confirmById pacific st now reminderId) in
  let st' := snd (confirmById pacific st now reminderId) in
  (forall before r after,
     pending = before ++ r :: after -> rem_id r = reminderId ->
     NoDup (List.map rem_id pending) ->
     getPendingReminders st' now = before ++ after
     /\ result = {| res_confirmed := true;
                    res_medication := Some (med_name (medication r));
                    res_remaining := Some (length (before ++ after));
                    res_confirmedAt := Some now;
                    res_message := None |})
  /\ (In reminderId (List.map rem_id pending) ->
      getPendingReminders st' now
      = List.filter (fun x => negb (String.eqb (rem_id x) reminderId)) pending
      /\ res_confirmed result = true)
  /\ (~ In reminderId (List.map rem_id pending) ->
      result = notConfirmed ("Reminder " +:+ reminderId +:+ " not found") /\ st' = st).
Proof.
  intros pending result st'. subst pending result st'.
  split; [|split].
  - intros before r after Hsplit Hid Hnd. rewrite Hsplit in Hnd.
    pose proof (unique_id_split _ _ _ Hnd) as Hother.
    assert (Hfind : List.find (fun x => String.eqb (rem_id x) reminderId)
                      (getPendingReminders st now) = Some r).
    { rewrite Hsplit, find_skip.
      - simpl. rewrite Hid, String.eqb_refl. reflexivity.
      - intros x Hx. rewrite <- Hid. apply Hother. apply in_or_app. auto. }
    assert (Hrest : List.filter (fun x => negb (String.eqb (rem_id x) reminderId))
                      (getPendingReminders st now) = before ++ after).
    { rewrite Hsplit, List.filter_app. simpl.
      rewrite Hid, String.eqb_refl. simpl.
      rewrite !filter_id; [reflexivity| |];
        intros x Hx; rewrite <- Hid, Hother; auto using in_or_app. }
    split.
    + rewrite (confirmById_pending _ _ _ _ Hfind). exact Hrest.
    + unfold confirmById. rewrite Hfind. simpl. rewrite Hrest. reflexivity.
  - intros Hin.
    destruct (List.find (fun x => String.eqb (rem_id x) reminderId)
                (getPendingReminders st now)) as [r|] eqn:Hfind.
    + split; [apply (confirmById_pending _ _ _ _ Hfind)|].
      unfold confirmById. rewrite Hfind. reflexivity.
    + apply in_map_iff in Hin as (x & Hx & Hin).
      pose proof (find_none _ _ Hfind x Hin) as Hno. simpl in Hno.
      rewrite Hx, String.eqb_refl in Hno. discriminate.
  - intros Hnotin. unfold confirmById.
    destruct (List.find _ _) as [r|] eqn:Hfind; [|split; reflexivity].
    apply find_some in Hfind as [Hin Heq]. apply String.eqb_eq in Heq.
    exfalso. apply Hnotin. rewrite <- Heq. apply in_map. exact Hin.
Qed.

Lemma confirmMedication_pending st now medId slot med :
  getPendingReminders (snd (confirmMedication pacific st now medId slot med)) now
  = List.filter (fun r => negb (matches medId slot r)) (getPendingReminders st now).
Proof.
  unfold confirmMedication.
  destruct (client st) as [db|] eqn:Hc; simpl.
  - unfold getPendingReminders at 1. simpl.
    rewrite redis_get_set_ne
      by (intros E; symmetry in E; revert E; apply confirmed_key_not_pending).
    rewrite redis_get_set by lia. reflexivity.
  - rewrite getPending_with_memory by done. simpl.
    unfold getPendingReminders. rewrite Hc. reflexivity.
Qed.

Lemma matches_refl (r : Reminder) : matches (medicationId r) (rem_slot r) r = true.
Proof. unfold matches. by rewrite !String.eqb_refl. Qed.

(** C7 as amended: [confirmLatestPending] takes the first pending entry and
    removes every pending entry with the medication id and slot of that
    entry; it answers with the name of its medication and the number of
    entries left, without a confirmed-at.  When no other pending entry has
    that medication id and slot, or that id, the entries left are the other
    entries in their order and the store is the one [confirmById] leaves for
    the id of the first entry.  On an empty pending list it answers
    nothing-pending and changes nothing. *)
Theorem confirmLatestPending_confirms_first_by_pair st now :
  let pending := getPendingReminders st now in
  let result := fst (confirmLatestPending pacific st now) in
  let st' := snd (confirmLatestPending pacific st now) in
  (pending = [] -> result = nothingPending /\ st' = st)
  /\ (forall oldest rest,
        pending = oldest :: rest ->
        getPendingReminders st' now
        = List.filter (fun r => negb (matches (medicationId oldest) (rem_slot oldest) r)) rest
        /\ result = {| res_confirmed := true;
                       res_medication := Some (med_name (medication oldest));
                       res_remaining := Some (length (getPendingReminders st' now));
                       res_confirmedAt := None;
                       res_message := None |}
        /\ ((forall r, In r rest ->
               matches (medicationId oldest) (rem_slot oldest) r = false
               /\ rem_id r <> rem_id oldest) ->
            getPendingReminders st' now = rest
            /\ st' = snd (confirmById pacific st now (rem_id oldest)))).
Proof.
  intros pending result st'. subst pending result st'. split.
  - intros Hempty. unfold confirmLatestPending. rewrite Hempty. split; reflexivity.
  - intros oldest rest Hpending.
    assert (Hst : snd (confirmLatestPending pacific st now)
                  = snd (confirmMedication pacific st now
                           (medicationId oldest) (rem_slot oldest) None)).
    { unfold confirmLatestPending. rewrite Hpending.
      destruct (confirmMedication _ _ _ _ _ _); reflexivity. }
    assert (Hleft : getPendingReminders (snd (confirmLatestPending pacific st now)) now
                    = List.filter
                        (fun r => negb (matches (medicationId oldest) (rem_slot oldest) r)) rest).
    { rewrite Hst, confirmMedication_pending, Hpending. simpl.
      rewrite matches_refl. reflexivity. }
    split; [exact Hleft|]. split.
    + rewrite Hleft. unfold confirmLatestPending. rewrite Hpending.
      unfold confirmMedication.
      destruct (client st) as [db|] eqn:Hc; simpl.
      * rewrite Hpending. simpl. rewrite matches_refl. reflexivity.
      * unfold getPendingReminders in Hpending. rewrite Hc in Hpending.
        rewrite Hpending. simpl. rewrite matches_refl. reflexivity.
    + intros Hunique.
      assert (Hm : List.filter
                     (fun r => negb (matches (medicationId oldest) (rem_slot oldest) r)) rest
                   = rest).
      { apply filter_id. intros r Hr. destruct (Hunique r Hr) as [-> _]. reflexivity. }
      assert (Hi : List.filter (fun r => negb (String.eqb (rem_id r) (rem_id oldest))) rest
                   = rest).
      { apply filter_id. intros r Hr. destruct (Hunique r Hr) as [_ Hne].
        apply String.eqb_neq in Hne. rewrite Hne. reflexivity. }
      split; [rewrite Hleft; exact Hm|].
      rewrite Hst. unfold confirmMedication, confirmById.
      destruct (client st) as [db|] eqn:Hc; simpl.
      * rewrite Hpending. simpl. rewrite matches_refl, String.eqb_refl. simpl.
        rewrite ?Hc, Hm, Hi. reflexivity.
      * rewrite Hpending. simpl. rewrite String.eqb_refl. simpl. rewrite ?Hc.
        unfold getPendingReminders in Hpending. rewrite Hc in Hpending.
        rewrite Hpending. simpl. rewrite matches_refl. simpl.
        rewrite Hm, Hi. reflexivity.
Qed.

End Confirmation.

(** C6, witness: of [A; B; C; D], confirming the id of [D] leaves
    [A; B; C]. *)
Lemma confirmById_witness :
  getPendingReminders
    (snd (confirmById pst (memoryOnly [rA; rB; rC; rD]) 5000 (rem_id rD))) 5000
  = [rA; rB; rC].
Proof.
  destruct (confirmById_removes_exactly_that_entry pst
              (memoryOnly [rA; rB; rC; rD]) 5000 (rem_id rD)) as [Hpresent _].
  destruct (Hpresent [rA; rB; rC] rD []) as [Hleft _].
  - reflexivity.
  - reflexivity.
  - vm_compute. nodup_strings.
  - exact Hleft.
Defined.

(** C7, witness: of [A; B; C; D], confirm-oldest leaves [B; C; D]. *)
Lemma confirmLatestPending_witness :
  getPendingReminders
    (snd (confirmLatestPending pst (upstash [rA; rB; rC; rD]) 5000)) 5000
  = [rB; rC; rD].
Proof.
  destruct (confirmLatestPending_confirms_first_by_pair pst
              (upstash [rA; rB; rC; rD]) 5000) as [_ Hfirst].
  destruct (Hfirst rA [rB; rC; rD]) as (_ & _ & Hsame).
  - reflexivity.
  - destruct Hsame as [Hleft _].
    + intros r [<-|[<-|[<-|[]]]]; split; solve [reflexivity | discriminate].
    + exact Hleft.
Defined.


(** C7, counterexample: with yesterday's and today's morning atropine both
    pending, confirm-oldest removes both, while confirming the id of the
    first removes one. *)
Lemma confirmLatestPending_differs_from_confirmById :
  getPendingReminders (snd (confirmLatestPending pst (memoryOnly [rA; rA'; rB]) 9500)) 9500
  <> getPendingReminders
       (snd (confirmById pst (memoryOnly [rA; rA'; rB]) 9500 (rem_id rA))) 9500.
Proof. vm_compute. discriminate. Qed.

Example confirmLatestPending_removes_both :
  getPendingReminders (snd (confirmLatestPending pst (memoryOnly [rA; rA'; rB]) 9500)) 9500
  = [rB].
Proof. reflexivity. Qed.

Example confirmById_removes_one :
  getPendingReminders
    (snd (confirmById pst (memoryOnly [rA; rA'; rB]) 9500 (rem_id rA))) 9500
  = [rA'; rB].
Proof. reflexivity. Qed.

(** *** Resend candidates *)

Lemma needsResend_spec now threshold r :
  needsResend now threshold r = true <->
  exists t, sentAt r = Some t /\ t <> 0 /\ threshold <= now - t.
Proof.
  unfold needsResend, truthy_time. destruct (sentAt r) as [t|]; simpl.
  - destruct (t =? 0) eqn:E; simpl.
    + apply Z.eqb_eq in E. split; [discriminate|].
      intros (t' & Ht & Hne & _). congruence.
    + apply Z.eqb_neq in E. rewrite Z.leb_le. split.
      * intros H. exists t. auto.
      * intros (t' & Ht & _ & Hle). congruence.
  - split; [discriminate|]. intros (t & Ht & _). discriminate.
Qed.

Lemma filter_sublist {A : Type} (p : A -> bool) (l : list A) :
  sublist (List.filter p l) l.
Proof.
  induction l as [|a l IH]; simpl; [constructor|].
  destruct (p a); by constructor.
Qed.

(** What [getRemindersToResend] returns: in their order, the pending
    entries with a truthy sent-at whose age is at least the threshold; under
    the default threshold of 30 minutes an entry sent 31 minutes ago is
    returned, an entry sent 29 minutes ago is not, and an entry with a null
    sent-at is returned under no threshold. *)
Theorem getRemindersToResend_at_least_threshold st now minutes :
  let pending := getPendingReminders st now in
  (forall r, In r (getRemindersToResend st now minutes) <->
             In r pending /\
             exists t, sentAt r = Some t /\ t <> 0 /\ minutes * 60 * 1000 <= now - t)
  /\ sublist (getRemindersToResend st now minutes) pending
  /\ (forall r, In r pending -> sentAt r = Some (now - 31 * 60 * 1000) ->
                 now - 31 * 60 * 1000 <> 0 ->
                 In r (getRemindersToResend st now DEFAULT_RESEND_MINUTES))
  /\ (forall r, sentAt r = Some (now - 29 * 60 * 1000) ->
                 ~ In r (getRemindersToResend st now DEFAULT_RESEND_MINUTES))
  /\ (forall r m, sentAt r = None -> ~ In r (getRemindersToResend st now m)).
Proof.
  intros pending. subst pending.
  assert (Hiff : forall m r, In r (getRemindersToResend st now m) <->
             In r (getPendingReminders st now) /\
             exists t, sentAt r = Some t /\ t <> 0 /\ m * 60 * 1000 <= now - t).
  { intros m r. unfold getRemindersToResend. rewrite filter_In, needsResend_spec.
    reflexivity. }
  split; [apply Hiff|]. split; [apply filter_sublist|]. split; [|split].
  - intros r Hin Hsent Hne. apply Hiff. split; [exact Hin|].
    exists (now - 31 * 60 * 1000). unfold DEFAULT_RESEND_MINUTES. repeat split; auto; lia.
  - intros r Hsent Hin. apply Hiff in Hin as (_ & t & Ht & _ & Hle).
    unfold DEFAULT_RESEND_MINUTES in Hle. rewrite Hsent in Ht. injection Ht as <-. lia.
  - intros r m Hsent Hin. apply Hiff in Hin as (_ & t & Ht & _). congruence.
Qed.

(** The pending reminders sent 31 and 29 minutes before. *)
Lemma getRemindersToResend_witness :
  In (reminder "2026-01-13-MORNING-plasma" plasma "MORNING" (Some (2000000 - 31 * 60 * 1000)))
     (getRemindersToResend
        (memoryOnly
           [reminder "2026-01-13-MORNING-plasma" plasma "MORNING"
              (Some (2000000 - 31 * 60 * 1000));
            reminder "2026-01-13-MORNING-ofloxacin" ofloxacin "MORNING"
              (Some (2000000 - 29 * 60 * 1000))])
        2000000 DEFAULT_RESEND_MINUTES).
Proof.
  apply (getRemindersToResend_at_least_threshold
           (memoryOnly
              [reminder "2026-01-13-MORNING-plasma" plasma "MORNING"
                 (Some (2000000 - 31 * 60 * 1000));
               reminder "2026-01-13-MORNING-ofloxacin" ofloxacin "MORNING"
                 (Some (2000000 - 29 * 60 * 1000))])
           2000000 DEFAULT_RESEND_MINUTES).
  - left. reflexivity.
  - reflexivity.
  - lia.
Defined.

(** C9, the code at the failing input: a pending entry sent exactly 30
    minutes before the call.  Its age does not exceed the threshold of 30
    minutes, so the selection of the specification, which is also that of
    the comment on the function (sent more than 30 minutes ago), leaves it
    out; [getRemindersToResend] compares with [>=] and returns it. *)
Lemma getRemindersToResend_includes_boundary :
  let entry := reminder "2026-01-13-MORNING-plasma" plasma "MORNING" (Some 200000) in
  let now := 200000 + 30 * 60 * 1000 in
  List.filter (exceedsThreshold now 30) (getPendingReminders (memoryOnly [entry]) now) = []
  /\ getRemindersToResend (memoryOnly [entry]) now 30 = [entry].
Proof. split; vm_compute; reflexivity. Qed.


(** *** Adding the same ids twice *)

(** As time passes the pending list stays as it is or expires. *)
Lemma getPending_later st a1 a2 :
  a1 <= a2 ->
  getPendingReminders st a2 = getPendingReminders st a1 \/ getPendingReminders st a2 = [].
Proof.
  intros Hle. unfold getPendingReminders.
  destruct (client st) as [db|]; [|left; reflexivity].
  unfold redis_get. destruct (db !! PENDING_KEY) as [e|]; [|left; reflexivity].
  unfold expired. destruct (expireAt e) as [t|]; [|left; reflexivity].
  destruct (t <=? a2) eqn:E2; [right; reflexivity|].
  destruct (t <=? a1) eqn:E1; [|left; reflexivity].
  apply Z.leb_le in E1. apply Z.leb_gt in E2. lia.
Qed.

Lemma fresh_nil (reminders : list Reminder) : fresh [] reminders = reminders.
Proof.
  unfold fresh. apply filter_id. intros r _.
  apply negb_true_iff, bool_decide_eq_false. rewrite elem_idSet. simpl. tauto.
Qed.

Lemma fresh_none existing reminders :
  (forall r, In r reminders -> In (rem_id r) (List.map rem_id existing)) ->
  fresh existing reminders = [].
Proof.
  intros Hall. unfold fresh.
  induction reminders as [|r rest IH]; simpl; [reflexivity|].
  rewrite bool_decide_eq_true_2 by (apply elem_idSet, Hall; left; reflexivity).
  simpl. apply IH. intros x Hx. apply Hall. right. exact Hx.
Qed.

Lemma fresh_length existing reminders :
  (length (fresh existing reminders) <= length reminders)%nat.
Proof. apply filter_length_le. Qed.

(** Two batches with the same ids, added one after the other, add no more
    than one batch. *)
Lemma addPendingReminders_twice st a1 a2 (batch1 batch2 : list Reminder) :
  a1 <= a2 ->
  List.map rem_id batch1 = List.map rem_id batch2 ->
  (length (fst (addPendingReminders (snd (addPendingReminders st a1 batch1)) a2 batch2))
   <= length (getPendingReminders st a1) + length batch1)%nat.
Proof.
  intros Hle Hids.
  set (st1 := snd (addPendingReminders st a1 batch1)).
  assert (Hstored : getPendingReminders st1 a1
                    = getPendingReminders st a1 ++ fresh (getPendingReminders st a1) batch1).
  { unfold st1. rewrite addPendingReminders_stored. apply addPendingReminders_result. }
  rewrite addPendingReminders_result.
  destruct (getPending_later st1 a1 a2 Hle) as [Hsame|Hgone].
  - assert (Hnone : fresh (getPendingReminders st1 a1) batch2 = []).
    { apply fresh_none. intros r Hr. rewrite Hstored, map_app. apply in_or_app.
      assert (Hin1 : In (rem_id r) (List.map rem_id batch1))
        by (rewrite Hids; apply in_map; exact Hr).
      apply in_map_iff in Hin1 as (r1 & Hid & Hr1).
      destruct (In_dec String.string_dec (rem_id r) (List.map rem_id (getPendingReminders st a1)))
        as [Hold|Hnew]; [left; exact Hold|right].
      rewrite <- Hid. apply in_map. unfold fresh. apply filter_In. split; [exact Hr1|].
      apply negb_true_iff, bool_decide_eq_false. rewrite elem_idSet, Hid. exact Hnew. }
    rewrite Hsame, Hnone, app_nil_r, Hstored, length_app.
    pose proof (fresh_length (getPendingReminders st a1) batch1). lia.
  - rewrite Hgone, fresh_nil. simpl.
    assert (Hlen : length batch2 = length batch1).
    { rewrite <- (length_map rem_id batch2), <- Hids. apply length_map. }
    lia.
Qed.

(** *** Slot claims *)

Section Claims.
Variable pacific : Instant -> Z.

Lemma claimAll_cons st c rest :
  claimAll pacific st (c :: rest)
  = (fst (claimSlot pacific st (call_now c) (call_slot c) (call_date c))
       :: fst (claimAll pacific
                 (snd (claimSlot pacific st (call_now c) (call_slot c) (call_date c))) rest),
     snd (claimAll pacific
            (snd (claimSlot pacific st (call_now c) (call_slot c) (call_date c))) rest)).
Proof.
  simpl. destruct (claimSlot _ _ _ _ _) as [won st1]. simpl.
  destruct (claimAll _ _ _) as [wins st2]. reflexivity.
Qed.

Lemma claimSlot_client st now slot date :
  is_Some (client (snd (claimSlot pacific st now slot date))) <-> is_Some (client st).
Proof.
  unfold claimSlot. destruct (client st) as [db|] eqn:Hc.
  - destruct (redis_setnx _ _ _ _) as [claimed db1]. simpl. split; eauto.
  - destruct (bool_decide _); simpl; rewrite Hc; reflexivity.
Qed.

(** What a successful claim writes. *)
Lemma claimSlot_records st now slot date :
  fst (claimSlot pacific st now slot date) = true ->
  match client st with
  | Some _ =>
      exists db', client (snd (claimSlot pacific st now slot date)) = Some db'
        /\ db' !! claimKey pacific slot date
            = Some {| value := VNumber now; expireAt := Some (now + 7200 * 1000) |}
  | None =>
      sentSlots (memoryStore (snd (claimSlot pacific st now slot date)))
      = Some ({[claimKey pacific slot date]} ∪ default ∅ (sentSlots (memoryStore st)))
  end.
Proof.
  unfold claimSlot. destruct (client st) as [db|] eqn:Hc.
  - unfold redis_setnx. destruct (redis_get db now _) as [v|] eqn:Hget; simpl.
    + discriminate.
    + intros _. eexists. split; [reflexivity|].
      unfold redis_expire, redis_get. rewrite lookup_insert_eq. simpl.
      rewrite lookup_insert_eq. reflexivity.
  - destruct (bool_decide _); simpl; [discriminate|]. reflexivity.
Qed.

Lemma claimSlot_win_held st now slot date :
  fst (claimSlot pacific st now slot date) = true ->
  held (claimKey pacific slot date) now (snd (claimSlot pacific st now slot date)).
Proof.
  intros Hwin. pose proof (claimSlot_records _ _ _ _ Hwin) as Hrec.
  unfold held. destruct (client st) as [db|] eqn:Hc.
  - destruct Hrec as (db' & -> & Hkey). exists (VNumber now), (now + 7200 * 1000).
    split; [exact Hkey|lia].
  - assert (Hnone : client (snd (claimSlot pacific st now slot date)) = None).
    { destruct (client (snd _)) eqn:E; [|reflexivity].
      assert (Hsome : is_Some (client st)) by (eapply claimSlot_client; rewrite E; eauto).
      destruct Hsome as [? ?]. congruence. }
    rewrite Hnone. eexists. split; [exact Hrec|]. set_solver.
Qed.

Lemma claimSlot_keeps_held key t st now slot date :
  held key t st -> t <= now ->
  held key t (snd (claimSlot pacific st now slot date)).
Proof.
  unfold held, claimSlot. destruct (client st) as [db|] eqn:Hc.
  - intros (v & e & Hkey & He) Hle.
    unfold redis_setnx. destruct (redis_get db now _) as [w|] eqn:Hget; simpl.
    + eauto.
    + unfold redis_expire, redis_get. rewrite lookup_insert_eq. simpl.
      destruct (decide (claimKey pacific slot date = key)) as [<-|Hne].
      * rewrite lookup_insert_eq. eexists _, _. split; [reflexivity|lia].
      * rewrite lookup_insert_ne by done. rewrite lookup_insert_ne by done. eauto.
  - intros (s & Hs & Hin) _. rewrite Hs. simpl.
    destruct (bool_decide _); simpl; rewrite Hc; eexists; split; try reflexivity; set_solver.
Qed.

Lemma claimSlot_blocked key t st now slot date :
  held key t st -> claimKey pacific slot date = key ->
  fst (claimSlot pacific st now slot date) = true ->
  is_Some (client st) /\ t + 7200 * 1000 <= now.
Proof.
  unfold held, claimSlot. intros Hheld <-. destruct (client st) as [db|] eqn:Hc.
  - destruct Hheld as (v & e & Hkey & He).
    unfold redis_setnx, redis_get. rewrite Hkey. unfold expired. simpl.
    destruct (e <=? now) eqn:E; simpl; [|discriminate].
    intros _. split; [eauto|lia].
  - destruct Hheld as (s & Hs & Hin). rewrite Hs. simpl.
    rewrite bool_decide_eq_true_2 by done. discriminate.
Qed.

(** While a claim is held, no later call for its key wins before the claim
    has expired. *)
Lemma claimAll_held key t calls : forall st,
  held key t st ->
  (forall j cj, calls !! j = Some cj -> t <= call_now cj) ->
  forall j cj, calls !! j = Some cj ->
    claimKey pacific (call_slot cj) (call_date cj) = key ->
    fst (claimAll pacific st calls) !! j = Some true ->
    is_Some (client st) /\ t + 7200 * 1000 <= call_now cj.
Proof.
  induction calls as [|c rest IH]; intros st Hheld Hlater j cj Hj Hkey Hwin.
  - rewrite lookup_nil in Hj. discriminate.
  - rewrite claimAll_cons in Hwin. simpl in Hwin. destruct j as [|j]; simpl in Hj, Hwin.
    + injection Hj as ->. injection Hwin as Hwin.
      eapply claimSlot_blocked; eauto.
    + destruct (IH (snd (claimSlot pacific st (call_now c) (call_slot c) (call_date c))))
        with (j := j) (cj := cj) as [Hclient Hle]; auto.
      * apply claimSlot_keeps_held; [exact Hheld|]. apply (Hlater 0%nat c). reflexivity.
      * intros j' cj' Hj'. apply (Hlater (S j') cj'). exact Hj'.
      * split; [|exact Hle]. apply claimSlot_client in Hclient. exact Hclient.
Qed.

(** C3 as amended: in a sequence of [claimSlot] calls made at non-decreasing
    instants, two calls for the same date string and slot both return true
    only on the Redis store and only when the later call is made at least two
    hours after the earlier: while a claim lives, every later call for its
    pair returns false.  A true return on Redis leaves the key with an
    expiry of 7200 seconds after the call; a true return on the in-memory
    store adds the key to [sentSlots], with no expiry, so that there no later
    call for the pair returns true. *)
Theorem claimSlot_single_winner_while_claim_lives st calls :
  (forall i j ci cj, (i < j)%nat -> calls !! i = Some ci -> calls !! j = Some cj ->
     call_now ci <= call_now cj) ->
  let wins := fst (claimAll pacific st calls) in
  (forall i j ci cj,
     (i < j)%nat -> calls !! i = Some ci -> calls !! j = Some cj ->
     claimKey pacific (call_slot ci) (call_date ci)
     = claimKey pacific (call_slot cj) (call_date cj) ->
     wins !! i = Some true -> wins !! j = Some true ->
     is_Some (client st) /\ call_now ci + 7200 * 1000 <= call_now cj)
  /\ (forall now slot date,
        fst (claimSlot pacific st now slot date) = true ->
        match client st with
        | Some _ =>
            exists db', client (snd (claimSlot pacific st now slot date)) = Some db'
              /\ db' !! claimKey pacific slot date
                  = Some {| value := VNumber now; expireAt := Some (now + 7200 * 1000) |}
        | None =>
            sentSlots (memoryStore (snd (claimSlot pacific st now slot date)))
            = Some ({[claimKey pacific slot date]} ∪ default ∅ (sentSlots (memoryStore st)))
        end).
Proof.
  intros Hsorted wins. subst wins. split; [|apply claimSlot_records].
  revert st Hsorted. induction calls as [|c rest IH]; intros st Hsorted i j ci cj Hij Hi Hj Hkey Hwi Hwj.
  - rewrite lookup_nil in Hi. discriminate.
  - rewrite claimAll_cons in Hwi, Hwj. simpl in Hwi, Hwj.
    destruct j as [|j]; [lia|]. simpl in Hj, Hwj.
    destruct i as [|i]; simpl in Hi, Hwi.
    + injection Hi as ->. injection Hwi as Hwi.
      destruct (claimAll_held (claimKey pacific (call_slot ci) (call_date ci)) (call_now ci) rest
                  (snd (claimSlot pacific st (call_now ci) (call_slot ci) (call_date ci))))
        with (j := j) (cj := cj) as [Hclient Hle]; auto.
      * apply claimSlot_win_held. exact Hwi.
      * intros j' cj' Hj'. apply (Hsorted 0%nat (S j') ci cj'); [lia|reflexivity|exact Hj'].
      * split; [|exact Hle]. apply claimSlot_client in Hclient. exact Hclient.
    + destruct (IH (snd (claimSlot pacific st (call_now c) (call_slot c) (call_date c))))
        with (i := i) (j := j) (ci := ci) (cj := cj) as [Hclient Hle]; auto.
      * intros i' j' ci' cj' Hlt Hi' Hj'.
        apply (Hsorted (S i') (S j') ci' cj'); [lia|exact Hi'|exact Hj'].
      * lia.
      * split; [|exact Hle]. apply claimSlot_client in Hclient. exact Hclient.
Qed.

End Claims.

(** C3, witness: two triggers of the same evening slot, one minute apart;
    the second does not win. *)
Lemma claimSlot_single_winner_witness :
  fst (claimAll pst (upstash [])
         [ {| call_now := evening13; call_slot := "EVENING"; call_date := evening13 |};
           {| call_now := evening13 + 60000; call_slot := "EVENING";
              call_date := evening13 + 60000 |} ])
  = [true; false].
Proof.
  pose proof (claimSlot_single_winner_while_claim_lives pst (upstash [])
         [ {| call_now := evening13; call_slot := "EVENING"; call_date := evening13 |};
           {| call_now := evening13 + 60000; call_slot := "EVENING";
              call_date := evening13 + 60000 |} ]) as Hthm.
  destruct Hthm as [Hone _].
  - intros [|[|i]] [|[|j]] ci cj Hij Hi Hj; try lia; simpl in Hi, Hj;
      try discriminate.
    injection Hi as <-. injection Hj as <-. simpl. lia.
  - destruct (fst (claimAll pst (upstash []) _)) as [|w1 [|w2 [|w3 ws]]] eqn:E;
      try (vm_compute in E; discriminate).
    assert (Hw1 : w1 = true) by (vm_compute in E; congruence).
    destruct w2; [|rewrite Hw1; reflexivity].
    exfalso.
    destruct (Hone 0%nat 1%nat _ _ ltac:(lia) eq_refl eq_refl) as [_ Hlate].
    + vm_compute. reflexivity.
    + simpl. rewrite Hw1. reflexivity.
    + reflexivity.
    + simpl in Hlate. lia.
Defined.

(** C3, counterexample: the same date and slot claimed again two hours after
    the first claim: both calls return true. *)
Lemma claimSlot_wins_again_after_expiry :
  fst (claimAll pst (upstash [])
         [ {| call_now := evening13; call_slot := "EVENING"; call_date := evening13 |};
           {| call_now := evening13 + 7200 * 1000; call_slot := "EVENING";
              call_date := evening13 |} ])
  = [true; true].
Proof. vm_compute. reflexivity. Qed.

(** The in-memory store records no expiry at all. *)
Example claimSlot_memory_has_no_expiry :
  snd (claimSlot pst (memoryOnly []) evening13 "EVENING" evening13)
  = {| client := None;
       memoryStore :=
         {| pending := []; mem_confirmed := ∅;
            sentSlots := Some {["yuki:sent:2026-01-13:EVENING"]};
            schedules := None |} |}.
Proof. vm_compute. reflexivity. Qed.

End StorageFacts.

(** * Properties of schedule resolution and generation *)

Module SchedulerFacts.
Import PlainObject Storage Medications Scheduler Sample Statements StorageFacts.

Example formatDate_epoch : formatDate 0 = "1970-01-01"%string.
Proof. reflexivity. Qed.

Example formatDate_surgery : formatDate 20465 = "2026-01-12"%string.
Proof. vm_compute. reflexivity. Qed.

Example formatDate_leap : formatDate 19782 = "2024-02-29"%string.
Proof. vm_compute. reflexivity. Qed.

(** *** Due checks *)

(** Settles [plain] for a concrete zone and instant by evaluation. *)
Ltac plain_at :=
  cbv beta zeta delta [plain]; repeat split;
  first [ vm_compute; right; reflexivity
        | vm_compute; let H := fresh in intros H; discriminate H ].

Lemma steady_fixed offset : steady (fixedZone offset).
Proof. intros wall wall'. simpl. rewrite Z.sub_diag. simpl. lia. Qed.

Lemma steady_losAngeles : steady losAngeles.
Proof.
  intros wall wall'. unfold losAngeles. simpl.
  repeat match goal with |- context [if ?c then _ else _] => destruct c end; simpl; lia.
Qed.

Lemma arrayIncludes_In slots slot : arrayIncludes slots slot = true <-> In slot slots.
Proof.
  unfold arrayIncludes. rewrite existsb_exists. split.
  - intros (x & Hx & Heq). apply String.eqb_eq in Heq. by subst.
  - intros Hin. exists slot. split; [exact Hin|apply String.eqb_refl].
Qed.

Section Due.
Variable cfg : Config.
Variable zone : Zone.

(** Two midnights compare as their calendar days do. *)
Lemma toDateOnly_lt a b :
  steady zone ->
  (toDateOnly zone a <? toDateOnly zone b) = (localDay zone a <? localDay zone b).
Proof.
  intros Hsteady. unfold toDateOnly, localDate. cbv zeta.
  set (da := localDay zone a). set (db := localDay zone b).
  pose proof (Hsteady (da * MINUTES_PER_DAY + 0 * 60) (db * MINUTES_PER_DAY + 0 * 60)) as Hoff.
  destruct (Z.eq_dec da db) as [Heq|Hne].
  - rewrite Heq. rewrite !Z.ltb_irrefl. reflexivity.
  - unfold MINUTES_PER_DAY, MS_PER_MINUTE in *.
    destruct (da <? db) eqn:E.
    + apply Z.ltb_lt in E. apply Z.ltb_lt. lia.
    + apply Z.ltb_ge in E. apply Z.ltb_ge. lia.
Qed.

(** [Math.round] of the difference of two noons is the difference of the
    calendar days: the noons are whole days apart but for the change of
    offset between them. *)
Lemma getDayNumber_days date :
  steady zone -> getDayNumber cfg zone date = dayNumberSince cfg zone date.
Proof.
  intros Hsteady.
  unfold getDayNumber, dayNumberSince, SURGERY_DATE, localDate, Math_round_div. cbv zeta.
  set (d := localDay zone date). set (d0 := localDay zone (surgeryDate cfg)).
  pose proof (Hsteady (d * MINUTES_PER_DAY + 12 * 60) (d0 * MINUTES_PER_DAY + 12 * 60)) as Hoff.
  revert Hoff.
  generalize (offsetOfWall zone (d * MINUTES_PER_DAY + 12 * 60)).
  generalize (offsetOfWall zone (d0 * MINUTES_PER_DAY + 12 * 60)).
  intros o0 o Hoff. unfold MINUTES_PER_DAY, MS_PER_MINUTE.
  f_equal. symmetry.
  apply Z.div_unique with (r := 1000 * 60 * 60 * 24 - 2 * (60 * 1000) * (o - o0)); lia.
Qed.

Lemma getAtropineSlots_day date :
  getAtropineSlots cfg zone date = catalogTaperingSlots cfg (getDayNumber cfg zone date).
Proof. reflexivity. Qed.

Lemma getAtropineSlots_table date :
  steady zone ->
  getAtropineSlots cfg zone date = catalogTaperingSlots cfg (dayNumberSince cfg zone date).
Proof.
  intros Hsteady. rewrite getAtropineSlots_day, getDayNumber_days by exact Hsteady.
  reflexivity.
Qed.

(** The start check passes exactly when no start date lies on a later
    calendar day than the check date. *)
Lemma started_spec eff date :
  steady zone ->
  match es_startDate eff with
  | Some s => toDateOnly zone date <? toDateOnly zone s
  | None => false
  end = false
  <-> forall s, es_startDate eff = Some s -> localDay zone s <= localDay zone date.
Proof.
  intros Hsteady. destruct (es_startDate eff) as [s|].
  - rewrite toDateOnly_lt, Z.ltb_ge by exact Hsteady. split.
    + intros Hle s' [= <-]. exact Hle.
    + intros Hall. apply Hall. reflexivity.
  - split; [discriminate|reflexivity].
Qed.

Lemma ended_spec eff date :
  steady zone ->
  match es_endDate eff with
  | Some e => toDateOnly zone e <? toDateOnly zone date
  | None => false
  end = false
  <-> forall e, es_endDate eff = Some e -> localDay zone date <= localDay zone e.
Proof.
  intros Hsteady. destruct (es_endDate eff) as [e|].
  - rewrite toDateOnly_lt, Z.ltb_ge by exact Hsteady. split.
    + intros Hle e' [= <-]. exact Hle.
    + intros Hall. apply Hall. reflexivity.
  - split; [discriminate|reflexivity].
Qed.

(** The answer of the checks, case by case. *)
Lemma dueBySchedule_cases eff slot date :
  steady zone ->
  (~ inCourse zone eff date /\ dueBySchedule cfg zone eff slot date = Some false)
  \/ (inCourse zone eff date
      /\ dueBySchedule cfg zone eff slot date
         = if String.eqb (es_id eff) "atropine"
           then Some (arrayIncludes
                        (catalogTaperingSlots cfg (dayNumberSince cfg zone date)) slot)
           else match getProperty (FREQUENCY_SLOTS cfg) (propertyKey (es_frequency eff)) with
                | Missing => Some false
                | Own slots => Some (arrayIncludes slots slot)
                | Inherited => None
                end).
Proof.
  intros Hsteady. unfold dueBySchedule, inCourse.
  rewrite getAtropineSlots_table by exact Hsteady.
  pose proof (started_spec eff date Hsteady) as Hs.
  pose proof (ended_spec eff date Hsteady) as He.
  destruct (bool_decide (es_active eff = Some false)) eqn:Hact.
  { apply bool_decide_eq_true in Hact. left. split; [|reflexivity]. intros [H _]. contradiction. }
  apply bool_decide_eq_false in Hact. cbv zeta.
  match goal with |- context [if ?c then Some false else _] => destruct c eqn:Estart end.
  { left. split; [|reflexivity]. intros (_ & H & _). apply Hs in H. discriminate. }
  match goal with |- context [if ?c then Some false else _] => destruct c eqn:Eend end.
  { left. split; [|reflexivity]. intros (_ & _ & H & _). apply He in H. discriminate. }
  destruct (es_asNeeded eff) eqn:Easneeded.
  { left. split; [|reflexivity]. intros (_ & _ & _ & H). discriminate. }
  right. split; [|reflexivity].
  split; [exact Hact|]. split; [apply Hs; reflexivity|]. split; [apply He|]; reflexivity.
Qed.

Lemma dueBySchedule_spec eff slot date :
  steady zone ->
  (dueBySchedule cfg zone eff slot date = Some true <->
   inCourse zone eff date
   /\ (if decide (es_id eff = "atropine"%string)
       then In slot (catalogTaperingSlots cfg (dayNumberSince cfg zone date))
       else exists slots,
              getProperty (FREQUENCY_SLOTS cfg) (propertyKey (es_frequency eff)) = Own slots
              /\ In slot slots))
  /\ (dueBySchedule cfg zone eff slot date = None <->
      inCourse zone eff date
      /\ es_id eff <> "atropine"%string
      /\ getProperty (FREQUENCY_SLOTS cfg) (propertyKey (es_frequency eff)) = Inherited).
Proof.
  intros Hsteady.
  destruct (dueBySchedule_cases eff slot date Hsteady) as [[Hout ->]|[Hin ->]].
  { split; (split; [discriminate|]); intros [H _]; contradiction. }
  destruct (decide (es_id eff = "atropine"%string)) as [Hid|Hid].
  - rewrite (proj2 (String.eqb_eq _ _) Hid). split.
    + split.
      * intros [= H]. split; [assumption|]. apply arrayIncludes_In. exact H.
      * intros [_ H]. apply arrayIncludes_In in H. rewrite H. reflexivity.
    + split; [discriminate|]. intros (_ & H & _). contradiction.
  - rewrite (proj2 (String.eqb_neq _ _) Hid).
    destruct (getProperty (FREQUENCY_SLOTS cfg) (propertyKey (es_frequency eff)))
      as [slots| |]; split.
    + split.
      * intros [= H]. split; [assumption|]. exists slots. split; [reflexivity|].
        apply arrayIncludes_In. exact H.
      * intros (_ & slots' & [= <-] & H). apply arrayIncludes_In in H. rewrite H. reflexivity.
    + split; [discriminate|]. intros (_ & _ & H). discriminate H.
    + split; [discriminate|]. intros (_ & slots' & H & _). discriminate H.
    + split; [intros _|reflexivity]. split; [assumption|]. split; [assumption|reflexivity].
    + split; [discriminate|]. intros (_ & slots' & H & _). discriminate H.
    + split; [discriminate|]. intros (_ & _ & H). discriminate H.
Qed.

(** C5 as amended: [isMedicationDue] merges the custom schedule it looks up
    over the catalog entry, the frequency, active flag and notes that the
    custom schedule holds (a [null] also) replacing those of the entry and
    every other field kept.  Unless the merged active flag is [false], a
    start date lies after the check date or an end date before it, both
    compared by calendar day, or the medication is as-needed, in which
    cases it is not due, the medication is due exactly: when its id is
    atropine, if the slot is in the day-1, day-2 or day-3-plus set that
    the day number selects in the table of the catalog's atropine entry;
    otherwise, whatever its frequency class, if the slot is in the slot set
    that the frequency table holds under its frequency.  The check answers
    in every case but one: it raises when the earlier checks pass, the id
    is not atropine and the frequency, missing from the table, names a
    member of [Object.prototype].  Calendar days are those of the zone of
    the process, whose offset varies by less than twelve hours; the dates
    are ones that [new Date(year, month, day)] builds as they are given, of
    years other than 0 to 99 and in the range of [Date]. *)
Theorem isMedicationDue_checks cache st now med slot date :
  steady zone ->
  plainDates cfg zone med date ->
  let custom := fst (fst (getMedicationScheduleWithCache cache st now (med_id med))) in
  let eff := effectiveSchedule med custom in
  let answer := fst (fst (isMedicationDue cfg zone cache st now med slot date)) in
  (es_frequency eff = spread (Some (frequency med)) (customField custom ov_frequency)
   /\ es_active eff = spread (active med) (customField custom ov_active)
   /\ es_notes eff = spread (notes med) (customField custom ov_notes)
   /\ es_id eff = med_id med /\ es_startDate eff = startDate med
   /\ es_endDate eff = endDate med /\ es_asNeeded eff = asNeeded med
   /\ es_tapering eff = tapering med)
  /\ (answer = Some true <->
      es_active eff <> Some false
      /\ (forall s, es_startDate eff = Some s -> localDay zone s <= localDay zone date)
      /\ (forall e, es_endDate eff = Some e -> localDay zone date <= localDay zone e)
      /\ es_asNeeded eff = false
      /\ (if decide (es_id eff = "atropine"%string)
          then In slot (catalogTaperingSlots cfg (dayNumberSince cfg zone date))
          else exists slots,
                 getProperty (FREQUENCY_SLOTS cfg) (propertyKey (es_frequency eff)) = Own slots
                 /\ In slot slots))
  /\ (answer = None <->
      es_active eff <> Some false
      /\ (forall s, es_startDate eff = Some s -> localDay zone s <= localDay zone date)
      /\ (forall e, es_endDate eff = Some e -> localDay zone date <= localDay zone e)
      /\ es_asNeeded eff = false
      /\ es_id eff <> "atropine"%string
      /\ getProperty (FREQUENCY_SLOTS cfg) (propertyKey (es_frequency eff)) = Inherited).
Proof.
  intros Hsteady _ custom eff answer. split.
  - subst eff. repeat split; reflexivity.
  - assert (Hanswer : answer = dueBySchedule cfg zone eff slot date).
    { subst answer eff custom. unfold isMedicationDue.
      destruct (getMedicationScheduleWithCache cache st now (med_id med)) as [[c cache'] st'].
      reflexivity. }
    rewrite Hanswer.
    destruct (dueBySchedule_spec eff slot date Hsteady) as [Htrue Hnone].
    unfold inCourse in Htrue, Hnone. split.
    + rewrite Htrue. tauto.
    + rewrite Hnone. tauto.
Qed.

End Due.

(** C5, witness: atropine on the anchor date, day 1, at midday. *)
Lemma isMedicationDue_witness :
  fst (fst (isMedicationDue config utc ∅ (memoryOnly []) surgery atropine "MIDDAY" surgery))
  = Some true.
Proof.
  destruct (isMedicationDue_checks config utc ∅ (memoryOnly []) surgery atropine "MIDDAY"
              surgery (steady_fixed 0)) as (_ & Hdue & _).
  { split; [plain_at|]. split; [plain_at|]. split.
    - intros s Hs. vm_compute in Hs. injection Hs as <-. plain_at.
    - intros e He. vm_compute in He. discriminate He. }
  apply Hdue. split; [|split; [|split; [|split]]].
  - vm_compute. discriminate.
  - intros s Hs. vm_compute in Hs. injection Hs as <-. vm_compute. discriminate.
  - intros e He. vm_compute in He. discriminate.
  - vm_compute. reflexivity.
  - vm_compute. right. left. reflexivity.
Defined.

(** The scenario of the specification: day 3 at midday and in the morning. *)
Example atropine_day3_midday :
  fst (fst (isMedicationDue config utc ∅ (memoryOnly []) surgery atropine "MIDDAY"
              (surgery + 2 * MS_PER_DAY))) = Some false.
Proof. vm_compute. reflexivity. Qed.

Example atropine_day3_morning :
  fst (fst (isMedicationDue config utc ∅ (memoryOnly []) surgery atropine "MORNING"
              (surgery + 2 * MS_PER_DAY))) = Some true.
Proof. vm_compute. reflexivity. Qed.

(** A custom schedule whose frequency is [null] replaces the frequency of
    the catalog entry: the table is read under the key [null], and the
    medication is not due. *)
Example null_frequency_is_not_due :
  dueBySchedule config utc
    (effectiveSchedule ofloxacin
       (Some {| ov_frequency := Null; ov_timeSlots := Absent; ov_active := Absent;
                ov_notes := Absent; updatedAt := 0 |}))
    "MORNING" morning13
  = Some false.
Proof. vm_compute. reflexivity. Qed.

(** A custom schedule whose frequency names a member of [Object.prototype]
    makes the check raise. *)
Example inherited_frequency_raises :
  dueBySchedule config utc
    (effectiveSchedule ofloxacin
       (Some {| ov_frequency := Given "constructor"%string; ov_timeSlots := Absent;
                ov_active := Absent; ov_notes := Absent; updatedAt := 0 |}))
    "MORNING" morning13
  = None.
Proof. vm_compute. reflexivity. Qed.

(** C5, counterexample: a medication of frequency class tapering whose id is
    not atropine is never due, whatever its own table says. *)
Lemma isMedicationDue_tapering_kind_by_id_only :
  fst (fst (isMedicationDue config utc ∅ (memoryOnly []) surgery dexamethasone "MIDDAY"
              surgery))
  <> Some (isMedicationDue_spec config utc dexamethasone None "MIDDAY" surgery).
Proof. vm_compute. discriminate. Qed.

(** *** Staggering *)

Lemma baseTimes_range slot bh bm :
  baseTimes slot = Some (bh, bm) -> 0 <= bh * 60 + bm <= 22 * 60 + 30.
Proof.
  unfold baseTimes.
  repeat match goal with
         | |- context [String.eqb ?a ?b] => destruct (String.eqb a b)
         end;
    intros [= <- <-] || discriminate; lia.
Qed.

Lemma wrap_hours_minutes (total : Z) :
  0 <= total ->
  (total / 60) mod 24 = (total mod (24 * 60)) / 60
  /\ total mod 60 = (total mod (24 * 60)) mod 60.
Proof.
  intros Hpos.
  assert (Hsplit : total mod (60 * 24) = total mod 60 + 60 * ((total / 60) mod 24))
    by (apply Z.rem_mul_r; lia).
  replace (24 * 60) with (60 * 24) by lia. rewrite Hsplit.
  pose proof (Z.mod_pos_bound total 60 ltac:(lia)) as Hm.
  pose proof (Z.mod_pos_bound (total / 60) 24 ltac:(lia)) as Hh.
  split.
  - apply Z.div_unique with (r := total mod 60); lia.
  - apply Z.mod_unique with (q := (total / 60) mod 24); lia.
Qed.

Lemma getStaggeredTime_display slot bh bm k :
  baseTimes slot = Some (bh, bm) -> 0 <= k ->
  getStaggeredTime slot k = Some (displayTime bh bm k).
Proof.
  intros Hbase Hk. pose proof (baseTimes_range _ _ _ Hbase) as Hrange.
  unfold getStaggeredTime, displayTime, displayMinute, EYE_DROP_STAGGER_MINUTES.
  rewrite Hbase.
  destruct (wrap_hours_minutes (bh * 60 + bm + k * 6)) as [Hh Hm]; [lia|].
  rewrite Hh, Hm. reflexivity.
Qed.

Lemma displayTime_minute bh bm k :
  hours (displayTime bh bm k) * 60 + minutes (displayTime bh bm k) = displayMinute bh bm k.
Proof.
  unfold displayTime. simpl.
  pose proof (Z.div_mod (displayMinute bh bm k) 60 ltac:(lia)). lia.
Qed.

Section Stagger.
Variables (dateStr slot : string) (dayNum bh bm : Z).
Hypothesis Hbase : baseTimes slot = Some (bh, bm).

Let build (k : Z) : Medication -> Reminder :=
  makeReminder dateStr slot dayNum (displayTime bh bm k).

Lemma remindersFor_eye loc meds : forall g,
  includes "eye" loc = true -> 0 <= g ->
  remindersFor dateStr slot dayNum loc meds g
  = Some (imap (fun k med => build (g + Z.of_nat k) med) meds, g + Z.of_nat (length meds)).
Proof.
  induction meds as [|med rest IH]; intros g Heye Hg; simpl.
  - f_equal. f_equal. lia.
  - rewrite Heye. rewrite (getStaggeredTime_display _ _ _ _ Hbase Hg).
    rewrite IH by (auto; lia). f_equal. f_equal.
    + f_equal.
      * unfold build. do 2 f_equal. lia.
      * apply imap_ext. intros k med' _. simpl. unfold build. do 2 f_equal. lia.
    + lia.
Qed.

Lemma remindersFor_other loc meds : forall g,
  includes "eye" loc = false ->
  remindersFor dateStr slot dayNum loc meds g = Some (List.map (build 0) meds, g).
Proof.
  induction meds as [|med rest IH]; intros g Heye; simpl; [reflexivity|].
  rewrite Heye. rewrite (getStaggeredTime_display _ _ _ _ Hbase) by lia.
  rewrite IH by exact Heye. reflexivity.
Qed.

Lemma remindersByLocation_closed_form due :
  remindersByLocation dateStr slot dayNum due locationOrder 0
  = Some (imap (fun k med => build (Z.of_nat k) med)
            (byLocation due "LEFT eye" ++ byLocation due "RIGHT eye")
          ++ List.map (build 0) (byLocation due "ORAL")).
Proof.
  unfold locationOrder. simpl.
  rewrite remindersFor_eye by (reflexivity || lia).
  rewrite remindersFor_eye by (reflexivity || lia).
  rewrite remindersFor_other by reflexivity.
  rewrite app_nil_r, imap_app, <- app_assoc.
  assert (Hleft : imap (fun k med => build (0 + Z.of_nat k) med) (byLocation due "LEFT eye")
                  = imap (fun k med => build (Z.of_nat k) med) (byLocation due "LEFT eye")).
  { apply imap_ext. intros k med _. simpl. f_equal. }
  assert (Hright :
            imap (fun k med =>
                    build (0 + Z.of_nat (length (byLocation due "LEFT eye")) + Z.of_nat k) med)
              (byLocation due "RIGHT eye")
            = imap ((fun k med => build (Z.of_nat k) med)
                      ∘ Nat.add (length (byLocation due "LEFT eye")))
                (byLocation due "RIGHT eye")).
  { apply imap_ext. intros k med _. simpl. f_equal. lia. }
  rewrite Hleft, Hright. reflexivity.
Qed.

End Stagger.

(** C8: in one generated batch the eye-drop medications, those of the left
    eye first and then those of the right eye, get the stagger indices
    0, 1, 2, ... of one counter that runs over both locations, and the oral
    medications get index 0; the display time of index [k] is the base time
    of the slot plus [6 * k] minutes wrapped modulo 24 hours, so that
    consecutive eye-drop display times are six minutes apart, and an oral
    medication is displayed at the base time of the slot. *)
Theorem stagger_indices_shared_counter dateStr slot dayNum due bh bm :
  baseTimes slot = Some (bh, bm) ->
  let eye := byLocation due "LEFT eye" ++ byLocation due "RIGHT eye" in
  let oral := byLocation due "ORAL" in
  remindersByLocation dateStr slot dayNum due locationOrder 0
  = Some (imap (fun k med =>
                  makeReminder dateStr slot dayNum (displayTime bh bm (Z.of_nat k)) med) eye
          ++ List.map (makeReminder dateStr slot dayNum (displayTime bh bm 0)) oral)
  /\ (forall k, 0 <= k ->
        getStaggeredTime slot k = Some (displayTime bh bm k)
        /\ hours (displayTime bh bm k) * 60 + minutes (displayTime bh bm k)
           = (bh * 60 + bm + k * 6) mod (24 * 60)
        /\ (displayMinute bh bm (k + 1) - displayMinute bh bm k) mod (24 * 60) = 6
        /\ (bh * 60 + bm + (k + 1) * 6 < 24 * 60 ->
            displayMinute bh bm (k + 1) - displayMinute bh bm k = 6))
  /\ displayMinute bh bm 0 = bh * 60 + bm.
Proof.
  intros Hbase eye oral. subst eye oral.
  pose proof (baseTimes_range _ _ _ Hbase) as Hrange.
  split; [apply remindersByLocation_closed_form; exact Hbase|]. split.
  - intros k Hk. split; [apply getStaggeredTime_display; assumption|].
    split; [apply displayTime_minute|]. unfold displayMinute. split.
    + rewrite Zminus_mod_idemp_l, Zminus_mod_idemp_r.
      replace (bh * 60 + bm + (k + 1) * 6 - (bh * 60 + bm + k * 6)) with 6 by lia.
      reflexivity.
    + intros Hfit. rewrite !Z.mod_small by lia. lia.
  - unfold displayMinute. rewrite Z.mod_small by lia. lia.
Qed.

(** C8, witness: the morning batch of the second day. *)
Lemma stagger_indices_witness :
  List.map scheduledTime
    (default [] (remindersByLocation "2026-01-13" "MORNING" 2
                   [ofloxacin; plasma; prednisoloneEye; amoxicillin; tacrolimus]
                   locationOrder 0))
  = ["8:30 AM"; "8:36 AM"; "8:42 AM"; "8:48 AM"; "8:30 AM"]%string.
Proof.
  destruct (stagger_indices_shared_counter "2026-01-13" "MORNING" 2
              [ofloxacin; plasma; prednisoloneEye; amoxicillin; tacrolimus] 8 30)
    as [Hform _].
  - reflexivity.
  - rewrite Hform. vm_compute. reflexivity.
Defined.

(** *** Generation *)

Lemma getMedicationSchedule_preserves st now medId now' medId' :
  scheduleOf (snd (getMedicationSchedule st now medId)) now' medId'
  = scheduleOf st now' medId'.
Proof.
  unfold scheduleOf, getMedicationSchedule.
  destruct (client st) as [db|] eqn:Hc.
  - destruct (redis_get db now _) as [[| | |]|]; simpl; rewrite Hc; reflexivity.
  - simpl. rewrite Hc. reflexivity.
Qed.

Section Generation.
Variable cfg : Config.
Variable zone : Zone.
Variable pacific : Instant -> Z.
Variable ref : string -> option ScheduleOverride.

Lemma getMedicationScheduleWithCache_agrees cache st now medId :
  cacheAgrees ref cache -> storeAgrees ref st now ->
  fst (fst (getMedicationScheduleWithCache cache st now medId)) = ref medId
  /\ cacheAgrees ref (snd (fst (getMedicationScheduleWithCache cache st now medId)))
  /\ (forall now' medId',
        scheduleOf (snd (getMedicationScheduleWithCache cache st now medId)) now' medId'
        = scheduleOf st now' medId').
Proof.
  intros Hcache Hstore. unfold getMedicationScheduleWithCache.
  assert (Hfetch :
            let r := (let '(schedule, st') := getMedicationSchedule st now medId in
                      (schedule, <[medId := (schedule, now)]> cache, st')) in
            fst (fst r) = ref medId /\ cacheAgrees ref (snd (fst r))
            /\ (forall now' medId', scheduleOf (snd r) now' medId' = scheduleOf st now' medId')).
  { pose proof (Hstore medId) as Hs. unfold scheduleOf in Hs.
    pose proof (getMedicationSchedule_preserves st now medId) as Hp.
    destruct (getMedicationSchedule st now medId) as [schedule st'].
    simpl in *. subst schedule. split; [reflexivity|]. split; [|exact Hp].
    intros id data ts. destruct (decide (medId = id)) as [<-|Hne].
    - rewrite lookup_insert_eq. intros [= <- _]. reflexivity.
    - rewrite lookup_insert_ne by done. apply Hcache. }
  destruct (cache !! medId) as [[data timestamp]|] eqn:Hhit; [|exact Hfetch].
  destruct (now - timestamp <? CACHE_TTL); [|exact Hfetch].
  simpl. split; [eapply Hcache; eauto|]. split; [exact Hcache|reflexivity].
Qed.

Lemma reads_of_agreeing cache st now :
  cacheAgrees ref cache -> storeAgrees ref st now -> reads ref cache st now.
Proof.
  intros Hcache Hstore medId. unfold scheduleRead.
  apply getMedicationScheduleWithCache_agrees; assumption.
Qed.

(** A lookup through the cache changes nothing in what the lookups of the
    same instant read. *)
Lemma lookup_reads cache st now medId :
  reads ref cache st now ->
  fst (fst (getMedicationScheduleWithCache cache st now medId)) = ref medId
  /\ reads ref (snd (fst (getMedicationScheduleWithCache cache st now medId)))
       (snd (getMedicationScheduleWithCache cache st now medId)) now.
Proof.
  intros Hreads. split; [apply Hreads|].
  pose proof (Hreads medId) as Hhere. unfold scheduleRead in Hhere.
  unfold getMedicationScheduleWithCache in Hhere |- *.
  assert (Hfetch :
            fst (getMedicationSchedule st now medId) = ref medId ->
            reads ref (<[medId := (fst (getMedicationSchedule st now medId), now)]> cache)
              (snd (getMedicationSchedule st now medId)) now).
  { intros Hschedule other. unfold scheduleRead, getMedicationScheduleWithCache.
    destruct (decide (medId = other)) as [<-|Hne].
    - rewrite lookup_insert_eq. rewrite Z.sub_diag. simpl. exact Hschedule.
    - rewrite lookup_insert_ne by done.
      pose proof (Hreads other) as Hother.
      unfold scheduleRead, getMedicationScheduleWithCache in Hother.
      pose proof (getMedicationSchedule_preserves st now medId now other) as Hkept.
      unfold scheduleOf in Hkept. unfold Instant in *.
      destruct (cache !! other) as [[data timestamp]|].
      + destruct (now - timestamp <? CACHE_TTL); [exact Hother|].
        destruct (getMedicationSchedule (snd (getMedicationSchedule st now medId)) now other)
          as [schedule' st''].
        destruct (getMedicationSchedule st now other) as [schedule st']. simpl in *.
        congruence.
      + destruct (getMedicationSchedule (snd (getMedicationSchedule st now medId)) now other)
          as [schedule' st''].
        destruct (getMedicationSchedule st now other) as [schedule st']. simpl in *.
        congruence. }
  destruct (getMedicationSchedule st now medId) as [schedule st'] eqn:Eget.
  simpl in Hfetch.
  destruct (cache !! medId) as [[data timestamp]|].
  - destruct (now - timestamp <? CACHE_TTL); simpl in *; [exact Hreads|].
    apply Hfetch. exact Hhere.
  - simpl in *. apply Hfetch. exact Hhere.
Qed.

(** The due checks of a catalog give the entries due under the custom
    schedules they read, when none of the checks raises. *)
Lemma dueMedications_reads slot date now meds : forall cache st,
  reads ref cache st now ->
  (forall med, In med meds -> dueUnder cfg zone ref slot date med <> None) ->
  fst (fst (dueMedications cfg zone cache st now meds slot date))
  = Some (dueAmong cfg zone ref slot date meds)
  /\ reads ref (snd (fst (dueMedications cfg zone cache st now meds slot date)))
       (snd (dueMedications cfg zone cache st now meds slot date)) now.
Proof.
  induction meds as [|med rest IH]; intros cache st Hreads Hsafe; simpl.
  - auto.
  - assert (Hmed : dueUnder cfg zone ref slot date med <> None)
      by (apply Hsafe; left; reflexivity).
    assert (Hrest : forall m, In m rest -> dueUnder cfg zone ref slot date m <> None)
      by (intros m Hm; apply Hsafe; right; exact Hm).
    unfold dueAmong. simpl. fold (dueAmong cfg zone ref slot date rest).
    destruct (decide (active med = Some true)) as [Hact|Hact].
    + rewrite (bool_decide_eq_true_2 _ Hact).
      assert (Hu : dueUnder cfg zone ref slot date med
                   = dueBySchedule cfg zone (effectiveSchedule med (ref (med_id med))) slot date)
        by (unfold dueUnder; rewrite (bool_decide_eq_true_2 _ Hact); reflexivity).
      rewrite Hu in *. unfold isMedicationDue.
      destruct (lookup_reads cache st now (med_id med) Hreads) as (Hdata & Hreads1).
      destruct (getMedicationScheduleWithCache cache st now (med_id med))
        as [[custom cache1] st1]. simpl in Hdata, Hreads1. subst custom.
      destruct (IH cache1 st1 Hreads1 Hrest) as (Hdue & Hreads2).
      destruct (dueMedications cfg zone cache1 st1 now rest slot date)
        as [[due cache2] st2]. simpl in *. subst due.
      split; [|exact Hreads2].
      destruct (dueBySchedule cfg zone _ slot date) as [[|]|]; [reflexivity|reflexivity|].
      contradiction.
    + rewrite (bool_decide_eq_false_2 _ Hact).
      assert (Hu : dueUnder cfg zone ref slot date med = Some false)
        by (unfold dueUnder; rewrite (bool_decide_eq_false_2 _ Hact); reflexivity).
      rewrite Hu.
      destruct (IH cache st Hreads Hrest) as (Hdue & Hreads2).
      destruct (dueMedications cfg zone cache st now rest slot date)
        as [[due cache2] st2]. simpl in *. subst due. auto.
Qed.

(** The due checks keep a cache that agrees with the store agreeing, and
    change no stored schedule. *)
Lemma dueMedications_agrees slot date now meds : forall cache st,
  cacheAgrees ref cache -> storeAgrees ref st now ->
  cacheAgrees ref (snd (fst (dueMedications cfg zone cache st now meds slot date)))
  /\ (forall now' medId',
        scheduleOf (snd (dueMedications cfg zone cache st now meds slot date)) now' medId'
        = scheduleOf st now' medId').
Proof.
  induction meds as [|med rest IH]; intros cache st Hcache Hstore; simpl.
  - auto.
  - destruct (bool_decide (active med = Some true)).
    + unfold isMedicationDue.
      destruct (getMedicationScheduleWithCache_agrees cache st now (med_id med) Hcache Hstore)
        as (_ & Hcache1 & Hstore1).
      destruct (getMedicationScheduleWithCache cache st now (med_id med))
        as [[custom cache1] st1]. simpl in Hcache1, Hstore1.
      assert (Hstore1' : storeAgrees ref st1 now).
      { intros id. rewrite Hstore1. apply Hstore. }
      destruct (IH cache1 st1 Hcache1 Hstore1') as (Hcache2 & Hstore2).
      destruct (dueMedications cfg zone cache1 st1 now rest slot date)
        as [[due cache2] st2]. simpl in *.
      split; [exact Hcache2|]. intros now' id'. rewrite Hstore2. apply Hstore1.
    + destruct (IH cache st Hcache Hstore) as (Hcache2 & Hstore2).
      destruct (dueMedications cfg zone cache st now rest slot date)
        as [[due cache2] st2]. simpl in *. auto.
Qed.

(** The due checks read the date through its calendar day only. *)
Lemma dueBySchedule_same_day eff slot date1 date2 :
  localDay zone date1 = localDay zone date2 ->
  dueBySchedule cfg zone eff slot date1 = dueBySchedule cfg zone eff slot date2.
Proof.
  intros Hday. unfold dueBySchedule, getAtropineSlots, getDayNumber, toDateOnly.
  rewrite Hday. reflexivity.
Qed.

Lemma dueUnder_same_day slot date1 date2 med :
  localDay zone date1 = localDay zone date2 ->
  dueUnder cfg zone ref slot date1 med = dueUnder cfg zone ref slot date2 med.
Proof.
  intros Hday. unfold dueUnder. rewrite (dueBySchedule_same_day _ _ _ _ Hday). reflexivity.
Qed.

Lemma currentTime_minute date :
  getHours pacific date * 60 + getMinutes pacific date = zonedMinuteOfDay pacific date.
Proof.
  unfold getHours, getMinutes.
  pose proof (Z.div_mod (zonedMinuteOfDay pacific date) 60 ltac:(lia)). lia.
Qed.

(** The window of minutes of the day in which each slot is the current one. *)
Lemma getCurrentTimeSlot_window date slot :
  getCurrentTimeSlot pacific date = Some slot ->
  let m := zonedMinuteOfDay pacific date in
  (slot = "MORNING"%string /\ 510 <= m < 525)
  \/ (slot = "LATE_MORNING"%string /\ 660 <= m < 675)
  \/ (slot = "MIDDAY"%string /\ 840 <= m < 855)
  \/ (slot = "EVENING"%string /\ 1140 <= m < 1155)
  \/ (slot = "LATE_NIGHT"%string /\ 1350 <= m < 1365)
  \/ (slot = "NIGHT"%string /\ 0 <= m < 15).
Proof.
  unfold getCurrentTimeSlot. rewrite currentTime_minute.
  assert (Hm : 0 <= zonedMinuteOfDay pacific date < 1440)
    by (unfold zonedMinuteOfDay, MINUTES_PER_DAY; apply Z.mod_pos_bound; lia).
  cbv zeta. revert Hm. generalize (zonedMinuteOfDay pacific date). intros m Hm.
  unfold slotWindows. simpl.
  repeat match goal with
         | |- context [(?a <=? m) && (m <? ?b)] =>
             destruct (Z.leb_spec a m); destruct (Z.ltb_spec m b); simpl
         end;
    intros Heq; try discriminate Heq; injection Heq as <-;
    try (exfalso; lia);
    first [ left; split; [reflexivity|lia]
          | right; left; split; [reflexivity|lia]
          | right; right; left; split; [reflexivity|lia]
          | right; right; right; left; split; [reflexivity|lia]
          | right; right; right; right; left; split; [reflexivity|lia]
          | right; right; right; right; right; split; [reflexivity|lia] ].
Qed.

Lemma getCurrentTimeSlot_baseTimes date slot :
  getCurrentTimeSlot pacific date = Some slot ->
  exists bh bm, baseTimes slot = Some (bh, bm).
Proof.
  intros Hslot. apply getCurrentTimeSlot_window in Hslot.
  destruct Hslot as [[-> _]|[[-> _]|[[-> _]|[[-> _]|[[-> _]|[-> _]]]]]];
    eexists _, _; reflexivity.
Qed.

Lemma rem_id_imap dateStr slot dayNum (time : nat -> StaggeredTime) (meds : list Medication) :
  List.map rem_id (imap (fun k med => makeReminder dateStr slot dayNum (time k) med) meds)
  = List.map (reminderId dateStr slot) meds.
Proof.
  revert time. induction meds as [|med rest IH]; intros time; simpl; [reflexivity|].
  f_equal. apply (IH (time ∘ S)).
Qed.

Lemma rem_id_map dateStr slot dayNum (time : StaggeredTime) (meds : list Medication) :
  List.map rem_id (List.map (makeReminder dateStr slot dayNum time) meds)
  = List.map (reminderId dateStr slot) meds.
Proof. rewrite List.map_map. reflexivity. Qed.

(** The reminders of a batch, from the medications that are due. *)
Lemma batch_ids dateStr slot dayNum due bh bm :
  baseTimes slot = Some (bh, bm) ->
  exists reminders,
    remindersByLocation dateStr slot dayNum due locationOrder 0 = Some reminders
    /\ List.map rem_id reminders = List.map (reminderId dateStr slot) (batchOrder due)
    /\ forall r, In r reminders ->
         rem_id r = (dateStr +:+ "-" +:+ slot +:+ "-" +:+ medicationId r)%string.
Proof.
  intros Hbase. rewrite (remindersByLocation_closed_form _ _ _ _ _ Hbase).
  eexists. split; [reflexivity|]. split.
  - rewrite map_app.
    rewrite (rem_id_imap _ _ _ (fun k => displayTime bh bm (Z.of_nat k))), rem_id_map.
    unfold batchOrder. rewrite <- map_app, <- app_assoc. reflexivity.
  - intros r Hr. apply in_app_or in Hr as [Hr|Hr].
    + apply list_elem_of_In, elem_of_lookup_imap in Hr as (k & med & -> & _). reflexivity.
    + apply in_map_iff in Hr as (med & <- & _). reflexivity.
Qed.

Lemma groupingRaises_dueAmong slot date :
  raisesNothing cfg zone ref slot date ->
  groupingRaises (dueAmong cfg zone ref slot date (getAllMedications cfg)) = false.
Proof.
  intros Hsafe. unfold groupingRaises.
  destruct (existsb _ _) eqn:E; [|reflexivity].
  apply existsb_exists in E as (med & Hin & Hloc).
  apply filter_In in Hin as [Hin Hdue]. apply bool_decide_eq_true in Hdue.
  destruct (Hsafe med Hin) as [_ Hlocation]. rewrite (Hlocation Hdue) in Hloc. discriminate.
Qed.

(** One generation, with the custom schedules it reads known. *)
Lemma getIndividualReminders_reads cache st now date :
  reads ref cache st now ->
  (forall slot, getCurrentTimeSlot pacific date = Some slot ->
                raisesNothing cfg zone ref slot date) ->
  exists g,
    fst (fst (getIndividualReminders cfg zone pacific cache st now date)) = Some g
    /\ g_slot g = getCurrentTimeSlot pacific date
    /\ (forall slot, g_slot g = Some slot ->
          List.map rem_id (g_reminders g)
          = List.map (reminderId (toISODate date) slot)
              (batchOrder (dueAmong cfg zone ref slot date (getAllMedications cfg)))
          /\ forall r, In r (g_reminders g) ->
               rem_id r = (toISODate date +:+ "-" +:+ slot +:+ "-" +:+ medicationId r)%string)
    /\ (g_slot g = None -> g_reminders g = []).
Proof.
  intros Hreads Hsafe. unfold getIndividualReminders.
  destruct (getCurrentTimeSlot pacific date) as [slot|] eqn:Hslot.
  - destruct (getCurrentTimeSlot_baseTimes _ _ Hslot) as (bh & bm & Hbase).
    specialize (Hsafe slot eq_refl).
    destruct (dueMedications_reads slot date now (getAllMedications cfg) cache st Hreads)
      as (Hdue & _).
    { intros med Hin. apply Hsafe. exact Hin. }
    destruct (dueMedications cfg zone cache st now (getAllMedications cfg) slot date)
      as [[due cache'] st']. simpl in Hdue. subst due.
    rewrite (groupingRaises_dueAmong slot date Hsafe).
    destruct (batch_ids (toISODate date) slot (getDayNumber cfg zone date)
                (dueAmong cfg zone ref slot date (getAllMedications cfg)) bh bm Hbase)
      as (reminders & -> & Hids & Hfmt).
    simpl. eexists. split; [reflexivity|]. simpl. split; [reflexivity|].
    split; [|discriminate].
    intros slot' [= <-]. split; [exact Hids|exact Hfmt].
  - simpl. eexists. split; [reflexivity|]. simpl.
    split; [reflexivity|]. split; [discriminate|reflexivity].
Qed.

(** One generation keeps a cache that agrees with the store agreeing, and
    changes no stored schedule. *)
Lemma getIndividualReminders_agrees cache st now date :
  cacheAgrees ref cache -> storeAgrees ref st now ->
  cacheAgrees ref (snd (fst (getIndividualReminders cfg zone pacific cache st now date)))
  /\ (forall now' medId',
        scheduleOf (snd (getIndividualReminders cfg zone pacific cache st now date))
          now' medId'
        = scheduleOf st now' medId').
Proof.
  intros Hcache Hstore. unfold getIndividualReminders.
  destruct (getCurrentTimeSlot pacific date) as [slot|]; [|simpl; auto].
  pose proof (dueMedications_agrees slot date now (getAllMedications cfg) cache st Hcache Hstore)
    as Hkept.
  destruct (dueMedications cfg zone cache st now (getAllMedications cfg) slot date)
    as [[due cache'] st']. exact Hkept.
Qed.

(** Two runs over a schedule cache that agrees with the store, which is not
    changed between them, read the same custom schedules. *)
Lemma reads_again cache st now1 now2 date1 :
  cacheAgrees ref cache -> storeAgrees ref st now1 -> storeAgrees ref st now2 ->
  reads ref (snd (fst (getIndividualReminders cfg zone pacific cache st now1 date1)))
    (snd (getIndividualReminders cfg zone pacific cache st now1 date1)) now2.
Proof.
  intros Hcache Hst1 Hst2.
  destruct (getIndividualReminders_agrees cache st now1 date1 Hcache Hst1) as [Hcache1 Hstore1].
  apply reads_of_agreeing; [exact Hcache1|].
  intros id. rewrite Hstore1. apply Hst2.
Qed.

(** C4 as amended: two runs of the generator, the second after the first,
    at instants of the same slot, the same date string and the same calendar
    day, that read the same custom schedules (the schedule cache answers for
    five minutes without looking at the store) and raise no TypeError,
    return reminders whose ids are equal one by one; every id is the date
    string, the slot and the medication id joined by hyphens; and adding the
    first batch and then the second to a pending set adds no more entries
    than the first batch has. *)
Theorem generator_idempotent cache st now1 now2 date1 date2 :
  let run1 := getIndividualReminders cfg zone pacific cache st now1 date1 in
  let run2 :=
    getIndividualReminders cfg zone pacific (snd (fst run1)) (snd run1) now2 date2 in
  reads ref cache st now1 ->
  reads ref (snd (fst run1)) (snd run1) now2 ->
  (forall slot, getCurrentTimeSlot pacific date1 = Some slot ->
                raisesNothing cfg zone ref slot date1) ->
  getCurrentTimeSlot pacific date1 = getCurrentTimeSlot pacific date2 ->
  toISODate date1 = toISODate date2 ->
  localDay zone date1 = localDay zone date2 ->
  exists g1 g2,
    fst (fst run1) = Some g1 /\ fst (fst run2) = Some g2
    /\ List.map rem_id (g_reminders g1) = List.map rem_id (g_reminders g2)
    /\ (forall r, In r (g_reminders g1 ++ g_reminders g2) ->
          exists slot,
            getCurrentTimeSlot pacific date1 = Some slot
            /\ rem_id r
               = (toISODate date1 +:+ "-" +:+ slot +:+ "-" +:+ medicationId r)%string)
    /\ (forall pending a1 a2,
          a1 <= a2 ->
          (length (fst (addPendingReminders
                          (snd (addPendingReminders pending a1 (g_reminders g1)))
                          a2 (g_reminders g2)))
           <= length (getPendingReminders pending a1) + length (g_reminders g1))%nat).
Proof.
  intros run1 run2 Hreads1 Hreads2 Hsafe Hslot Hdate Hday. subst run2.
  assert (Hsafe2 : forall slot, getCurrentTimeSlot pacific date2 = Some slot ->
                                raisesNothing cfg zone ref slot date2).
  { intros slot Hs med Hin. rewrite <- Hslot in Hs.
    rewrite <- (dueUnder_same_day slot date1 date2 med Hday). apply (Hsafe slot Hs med Hin). }
  destruct (getIndividualReminders_reads cache st now1 date1 Hreads1 Hsafe)
    as (g1 & Hg1 & Hs1 & Hids1 & Hnone1).
  destruct (getIndividualReminders_reads _ _ now2 date2 Hreads2 Hsafe2)
    as (g2 & Hg2 & Hs2 & Hids2 & Hnone2).
  fold run1 in Hg1.
  assert (Hsame : List.map rem_id (g_reminders g1) = List.map rem_id (g_reminders g2)).
  { destruct (getCurrentTimeSlot pacific date1) as [slot|] eqn:E1.
    - destruct (Hids1 slot Hs1) as [-> _].
      rewrite <- Hslot in Hs2. destruct (Hids2 slot Hs2) as [-> _].
      rewrite Hdate. do 2 f_equal.
      apply filter_ext. intros med.
      rewrite (dueUnder_same_day slot date1 date2 med Hday). reflexivity.
    - rewrite <- Hslot in Hs2. rewrite (Hnone1 Hs1), (Hnone2 Hs2). reflexivity. }
  exists g1, g2. split; [exact Hg1|]. split; [exact Hg2|]. split; [exact Hsame|]. split.
  - intros r Hr. destruct (getCurrentTimeSlot pacific date1) as [slot|] eqn:E1.
    + exists slot. split; [reflexivity|]. apply in_app_or in Hr as [Hr|Hr].
      * destruct (Hids1 slot Hs1) as [_ Hfmt]. apply Hfmt. exact Hr.
      * rewrite <- Hslot in Hs2. destruct (Hids2 slot Hs2) as [_ Hfmt].
        rewrite Hdate. apply Hfmt. exact Hr.
    + rewrite <- Hslot in Hs2. rewrite (Hnone1 Hs1), (Hnone2 Hs2) in Hr. destruct Hr.
  - intros pending a1 a2 Hle. apply addPendingReminders_twice; assumption.
Qed.

(** The ids of a batch, whatever custom schedules were read. *)
Lemma getIndividualReminders_ids cache st now date g r :
  fst (fst (getIndividualReminders cfg zone pacific cache st now date)) = Some g ->
  In r (g_reminders g) ->
  exists slot,
    getCurrentTimeSlot pacific date = Some slot
    /\ rem_id r = (toISODate date +:+ "-" +:+ slot +:+ "-" +:+ medicationId r)%string.
Proof.
  unfold getIndividualReminders.
  destruct (getCurrentTimeSlot pacific date) as [slot|] eqn:Hslot.
  - destruct (getCurrentTimeSlot_baseTimes _ _ Hslot) as (bh & bm & Hbase).
    destruct (dueMedications cfg zone cache st now (getAllMedications cfg) slot date)
      as [[[due|] cache'] st']; [|discriminate].
    destruct (groupingRaises due); [discriminate|].
    destruct (batch_ids (toISODate date) slot (getDayNumber cfg zone date) due bh bm Hbase)
      as (reminders & -> & _ & Hfmt).
    simpl. intros [= <-] Hr. simpl in Hr. exists slot. split; [reflexivity|].
    apply Hfmt. exact Hr.
  - simpl. intros [= <-] [].
Qed.

Lemma utcDay_minutes date : utcDay date = (date / MS_PER_MINUTE) / MINUTES_PER_DAY.
Proof.
  unfold utcDay, MS_PER_DAY, MS_PER_MINUTE, MINUTES_PER_DAY.
  rewrite Z.div_div by lia. reflexivity.
Qed.

(** C10: the date string of every generated reminder id is the UTC calendar
    date of the generation instant, while the key of the slot claim carries
    the calendar date of America/Los_Angeles, the zone in which the slot is
    resolved; at every instant of the EVENING and LATE_NIGHT windows, under
    either offset of that zone, the UTC date is the day after the local
    one. *)
Theorem reminder_id_date_is_utc_claim_date_is_local cache st now date :
  (forall g r,
     fst (fst (getIndividualReminders cfg zone pacific cache st now date)) = Some g ->
     In r (g_reminders g) ->
     exists slot,
       getCurrentTimeSlot pacific date = Some slot
       /\ rem_id r
          = (formatDate (utcDay date) +:+ "-" +:+ slot +:+ "-" +:+ medicationId r)%string)
  /\ (forall slot,
        claimKey pacific slot date
        = ("yuki:sent:" +:+ formatDate (zonedDay pacific date) +:+ ":" +:+ slot)%string)
  /\ ((pacific date = -480 \/ pacific date = -420) ->
      (getCurrentTimeSlot pacific date = Some "EVENING"%string
       \/ getCurrentTimeSlot pacific date = Some "LATE_NIGHT"%string) ->
      utcDay date = zonedDay pacific date + 1).
Proof.
  split; [apply getIndividualReminders_ids|]. split; [reflexivity|].
  intros Hoff Hslot.
  assert (Hwin : 1140 <= zonedMinuteOfDay pacific date < 1155
                 \/ 1350 <= zonedMinuteOfDay pacific date < 1365).
  { destruct Hslot as [Hslot|Hslot]; apply getCurrentTimeSlot_window in Hslot;
      destruct Hslot as [[? ?]|[[? ?]|[[? ?]|[[? ?]|[[? ?]|[? ?]]]]]];
      try discriminate; auto. }
  rewrite utcDay_minutes. unfold zonedDay, zonedMinuteOfDay in *.
  unfold zonedMinutes in *. unfold MINUTES_PER_DAY in *.
  change (24 * 60) with 1440 in *.
  set (q := date / MS_PER_MINUTE) in *.
  pose proof (Z.div_mod (q + pacific date) 1440 ltac:(lia)) as Hdm.
  symmetry.
  apply Z.div_unique with (r := (q + pacific date) mod 1440 - pacific date - 1440); lia.
Qed.

End Generation.

Lemma raisesNothing_sample slot date : raisesNothing config utc (fun _ => None) slot date.
Proof.
  intros med Hin. unfold dueUnder.
  assert (Hcatalog :
            inherited (location med) = false
            /\ (String.eqb (med_id med) "atropine" = true
                \/ exists slots, FREQUENCY_SLOTS config !! frequency med = Some slots)).
  { simpl in Hin.
    repeat (destruct Hin as [<-|Hin];
            [split; [reflexivity|first [left; reflexivity|right; eexists; reflexivity]]|]).
    destruct Hin. }
  destruct Hcatalog as [Hloc Hfreq]. split; [|intros _; exact Hloc].
  destruct (bool_decide (active med = Some true)); [|discriminate].
  unfold dueBySchedule. cbv zeta.
  repeat match goal with |- context [if ?c then Some false else _] => destruct c end;
    try discriminate.
  simpl es_id. destruct Hfreq as [->|[slots Hslots]]; [discriminate|].
  destruct (String.eqb (med_id med) "atropine"); [discriminate|].
  unfold getProperty. simpl es_frequency. simpl propertyKey. rewrite Hslots. discriminate.
Qed.

(** C4, witness: two runs five minutes apart in the morning window of
    2026-01-13, with no custom schedule stored. *)
Lemma generator_idempotent_witness :
  List.map rem_id
    (default [] (g_reminders <$>
       fst (fst (getIndividualReminders config utc pst ∅ (memoryOnly []) morning13 morning13))))
  = List.map rem_id
      (default [] (g_reminders <$>
         fst (fst (getIndividualReminders config utc pst
                     (snd (fst (getIndividualReminders config utc pst ∅ (memoryOnly [])
                                  morning13 morning13)))
                     (snd (getIndividualReminders config utc pst ∅ (memoryOnly [])
                             morning13 morning13))
                     (morning13 + 5 * MS_PER_MINUTE) (morning13 + 5 * MS_PER_MINUTE))))).
Proof.
  assert (Hcache : cacheAgrees (fun _ => None) (∅ : ScheduleCache))
    by (intros id data ts Hhit; rewrite lookup_empty in Hhit; discriminate).
  assert (Hstore : forall now, storeAgrees (fun _ => None) (memoryOnly []) now)
    by (intros now id; reflexivity).
  destruct (generator_idempotent config utc pst (fun _ => None) ∅ (memoryOnly [])
              morning13 (morning13 + 5 * MS_PER_MINUTE)
              morning13 (morning13 + 5 * MS_PER_MINUTE))
    as (g1 & g2 & Hg1 & Hg2 & Hsame & _).
  - apply reads_of_agreeing; [exact Hcache|apply Hstore].
  - apply reads_again; [exact Hcache|apply Hstore|apply Hstore].
  - intros slot _. apply raisesNothing_sample.
  - vm_compute. reflexivity.
  - vm_compute. reflexivity.
  - vm_compute. reflexivity.
  - rewrite Hg1, Hg2. exact Hsame.
Defined.

(** The two batches of one date over a schedule cache that has gone stale:
    the first run reads the cache, four minutes old, the second run, two
    minutes later, finds it expired and reads the store. *)
Example stale_cache_batches :
  let run1 := getIndividualReminders config utc pst staleCache changedStore
                morning13 morning13 in
  let run2 := getIndividualReminders config utc pst (snd (fst run1)) (snd run1)
                (morning13 + 2 * MS_PER_MINUTE) morning13 in
  List.map rem_id <$> (g_reminders <$> fst (fst run1))
  = Some [ "2026-01-13-MORNING-plasma"; "2026-01-13-MORNING-amniotic";
           "2026-01-13-MORNING-atropine"; "2026-01-13-MORNING-prednisolone-eye";
           "2026-01-13-MORNING-tacrolimus-cyclosporine";
           "2026-01-13-MORNING-amoxicillin" ]%string
  /\ List.map rem_id <$> (g_reminders <$> fst (fst run2))
     = Some [ "2026-01-13-MORNING-ofloxacin"; "2026-01-13-MORNING-amniotic";
              "2026-01-13-MORNING-atropine"; "2026-01-13-MORNING-prednisolone-eye";
              "2026-01-13-MORNING-tacrolimus-cyclosporine";
              "2026-01-13-MORNING-amoxicillin" ]%string
  /\ (forall medId, scheduleOf (snd run1) (morning13 + 2 * MS_PER_MINUTE) medId
                    = scheduleOf changedStore morning13 medId).
Proof.
  split; [vm_compute; reflexivity|]. split; [vm_compute; reflexivity|].
  intros medId. reflexivity.
Qed.

(** C4, counterexample: the generator run twice on the same date, in the
    same slot window and over a store that nobody changes between the runs,
    gives two batches with different ids when a cached custom schedule that
    differs from the stored one expires between the runs; added one after
    the other to an empty pending set the two batches of six leave seven
    entries. *)
Lemma generator_differs_over_a_stale_cache :
  ~ idempotentOn config utc pst staleCache changedStore
      morning13 (morning13 + 2 * MS_PER_MINUTE) morning13.
Proof.
  unfold idempotentOn. cbv zeta. intros (g1 & g2 & Hg1 & Hg2 & Hids & _).
  vm_compute in Hg1. vm_compute in Hg2.
  injection Hg1 as <-. injection Hg2 as <-. vm_compute in Hids. discriminate Hids.
Qed.

Example stale_cache_pending :
  let run1 := getIndividualReminders config utc pst staleCache changedStore
                morning13 morning13 in
  let run2 := getIndividualReminders config utc pst (snd (fst run1)) (snd run1)
                (morning13 + 2 * MS_PER_MINUTE) morning13 in
  let batch1 := default [] (g_reminders <$> fst (fst run1)) in
  let batch2 := default [] (g_reminders <$> fst (fst run2)) in
  (length batch1 = 6 /\ length batch2 = 6)%nat
  /\ length (fst (addPendingReminders
                    (snd (addPendingReminders (memoryOnly []) morning13 batch1))
                    (morning13 + 2 * MS_PER_MINUTE) batch2))
     = 7%nat.
Proof. vm_compute. auto. Qed.

(** C10, witness: 19:05 on 2026-01-13 in Los Angeles is 03:05 on 2026-01-14
    in UTC. *)
Lemma reminder_id_date_witness : utcDay evening13 = zonedDay pst evening13 + 1.
Proof.
  apply (reminder_id_date_is_utc_claim_date_is_local config utc pst ∅ (memoryOnly [])
           evening13 evening13).
  - left. reflexivity.
  - left. vm_compute. reflexivity.
Defined.

Example evening_ids_and_claim_key :
  List.map rem_id
    (default [] (g_reminders <$>
       fst (fst (getIndividualReminders config utc pst ∅ (memoryOnly []) evening13 evening13))))
  = [ "2026-01-14-EVENING-ofloxacin"; "2026-01-14-EVENING-plasma";
      "2026-01-14-EVENING-amniotic"; "2026-01-14-EVENING-prednisolone-eye";
      "2026-01-14-EVENING-tacrolimus-cyclosporine"; "2026-01-14-EVENING-amoxicillin" ]%string
  /\ claimKey pst "EVENING" evening13 = "yuki:sent:2026-01-13:EVENING"%string.
Proof. split; vm_compute; reflexivity. Qed.

End SchedulerFacts.

(** * Properties of the trigger endpoint *)

Module CronFacts.
Import Storage Notify Cron Sample Statements StorageFacts.

Lemma delivered_results d :
  delivered d = true <-> exists results, d = Results results.
Proof.
  destruct d; simpl; split; try discriminate; eauto; intros [? ?]; discriminate.
Qed.

Section Dispatch.
Variable send : nat -> string -> Dispatch.
Variable clock : nat -> Instant.

(** The reminder the loop leaves for the [k]-th reminder. *)
Let after (k : nat) (r : Reminder) : Reminder :=
  if delivered (send k (message r)) then markSent r (clock k) else r.

Lemma after_id k r : rem_id (after k r) = rem_id r.
Proof. unfold after. destruct (delivered _); reflexivity. Qed.

Lemma sendAll_reminders reminders : forall i,
  fst (sendAll send clock i reminders) = imap (fun k r => after (i + k) r) reminders.
Proof.
  induction reminders as [|r rest IH]; intros i; simpl; [reflexivity|].
  specialize (IH (S i)). destruct (sendAll send clock (S i) rest) as [rs ids].
  simpl in IH.
  transitivity (after i r :: rs).
  { unfold after. destruct (delivered (send i (message r))); reflexivity. }
  rewrite IH. f_equal.
  - f_equal. lia.
  - apply imap_ext. intros k x _. simpl. f_equal. lia.
Qed.

Lemma sendAll_ids reminders : forall i id,
  In id (snd (sendAll send clock i reminders)) <->
  exists k r, reminders !! k = Some r /\ rem_id r = id
              /\ delivered (send (i + k) (message r)) = true.
Proof.
  induction reminders as [|r rest IH]; intros i id; simpl.
  - split; [tauto|]. intros (k & r & Hk & _). rewrite lookup_nil in Hk. discriminate.
  - specialize (IH (S i) id). destruct (sendAll send clock (S i) rest) as [rs ids].
    simpl in IH. destruct (delivered (send i (message r))) eqn:Hd; simpl; rewrite IH.
    + split.
      * intros [<-|(k & x & Hk & Hid & Hx)].
        -- exists 0%nat, r. rewrite Nat.add_0_r. auto.
        -- exists (S k), x. rewrite Nat.add_succ_r. auto.
      * intros ([|k] & x & Hk & Hid & Hx); simpl in Hk.
        -- injection Hk as <-. left. exact Hid.
        -- right. exists k, x. rewrite Nat.add_succ_r in Hx. auto.
    + split.
      * intros (k & x & Hk & Hid & Hx).
        exists (S k), x. rewrite Nat.add_succ_r. auto.
      * intros ([|k] & x & Hk & Hid & Hx); simpl in Hk.
        -- injection Hk as <-. rewrite Nat.add_0_r in Hx. congruence.
        -- exists k, x. rewrite Nat.add_succ_r in Hx. auto.
Qed.

(** What [sentReminders] holds. *)
Lemma sentReminders_spec reminders r' :
  In r' (sentReminders send clock reminders) <->
  (exists k r, r' = after k r /\ reminders !! k = Some r)
  /\ (exists k r, reminders !! k = Some r /\ rem_id r = rem_id r'
                  /\ delivered (send k (message r)) = true).
Proof.
  unfold sentReminders.
  pose proof (sendAll_reminders reminders 0) as Hrs.
  pose proof (sendAll_ids reminders 0 (rem_id r')) as Hids.
  destruct (sendAll send clock 0 reminders) as [rs ids]. simpl in Hrs, Hids. subst rs.
  rewrite filter_In, <- list_elem_of_In, elem_of_lookup_imap.
  rewrite existsb_exists.
  assert (Hmem : (exists x, In x ids /\ String.eqb (rem_id r') x = true)
                 <-> In (rem_id r') ids).
  { split.
    - intros (x & Hx & Heq). apply String.eqb_eq in Heq. congruence.
    - intros Hin. exists (rem_id r'). split; [exact Hin|apply String.eqb_refl]. }
  rewrite Hmem, Hids. reflexivity.
Qed.

(** What the handler stores, whatever the send call: the reminders of
    [sentReminders], less those whose id is already pending.  A reminder
    whose send call returns an array of results is there, with a sent-at,
    whether or not a recipient in the array has success; every reminder
    there has the id of a reminder whose send call returned an array; and,
    the ids of the batch being distinct, a reminder whose send call threw,
    or returned a value that is no array, is not there. *)
Lemma handler_stores_returned_dispatches st now reminders :
  let existing := getPendingReminders st now in
  let stored := fst (handler_dispatch send clock st now reminders) in
  stored = existing ++ fresh existing (sentReminders send clock reminders)
  /\ getPendingReminders (snd (handler_dispatch send clock st now reminders)) now = stored
  /\ (forall i r results,
        reminders !! i = Some r -> send i (message r) = Results results ->
        In (markSent r (clock i)) (sentReminders send clock reminders)
        /\ sentAt (markSent r (clock i)) = Some (clock i))
  /\ (forall r', In r' (sentReminders send clock reminders) ->
        exists i r results,
          reminders !! i = Some r /\ rem_id r = rem_id r'
          /\ send i (message r) = Results results)
  /\ (NoDup (List.map rem_id reminders) ->
      forall i r,
        reminders !! i = Some r -> delivered (send i (message r)) = false ->
        ~ In (rem_id r) (List.map rem_id (sentReminders send clock reminders))).
Proof.
  intros existing stored. subst existing stored.
  split; [apply addPendingReminders_result|].
  split; [apply addPendingReminders_stored|]. split; [|split].
  - intros i r results Hi Hsend. split; [|reflexivity].
    assert (Hd : delivered (send i (message r)) = true) by (rewrite Hsend; reflexivity).
    apply sentReminders_spec. split.
    + exists i, r. split; [|exact Hi]. unfold after. rewrite Hd. reflexivity.
    + exists i, r. auto.
  - intros r' Hr'. apply sentReminders_spec in Hr' as [_ (k & r & Hk & Hid & Hd)].
    apply delivered_results in Hd as [results Hres]. eauto 6.
  - intros Hnd i r Hi Hfailed Hin.
    apply in_map_iff in Hin as (r' & Hid & Hr').
    apply sentReminders_spec in Hr' as [_ (k & x & Hk & Hidx & Hd)].
    assert (Hik : i = k).
    { eapply NoDup_lookup; [exact Hnd| |].
      - rewrite list_lookup_fmap, Hi. reflexivity.
      - rewrite list_lookup_fmap, Hk. simpl. congruence. }
    subst k. rewrite Hi in Hk. injection Hk as <-. congruence.
Qed.

(** When no send call lets control reach the assignment of the sent-at, the
    loop leaves every reminder as it was, collects no id and keeps no
    reminder for the pending set. *)
Lemma sentReminders_none reminders :
  (forall k msg, delivered (send k msg) = false) ->
  sentReminders send clock reminders = [].
Proof.
  intros Hnone. destruct (sentReminders send clock reminders) as [|r' rest] eqn:E;
    [reflexivity|].
  assert (Hin : In r' (sentReminders send clock reminders)) by (rewrite E; left; reflexivity).
  apply sentReminders_spec in Hin as [_ (k & r & _ & _ & Hd)].
  rewrite Hnone in Hd. discriminate.
Qed.

Lemma sendAll_no_ids reminders :
  (forall i msg, delivered (send i msg) = false) ->
  snd (sendAll send clock 0 reminders) = [].
Proof.
  intros Hnone. destruct (snd (sendAll send clock 0 reminders)) as [|id ids] eqn:E;
    [reflexivity|].
  assert (Hin : In id (snd (sendAll send clock 0 reminders))) by (rewrite E; left; reflexivity).
  apply sendAll_ids in Hin as (k & r & _ & _ & Hd). rewrite Hnone in Hd.
  discriminate Hd.
Qed.

Lemma sendAll_unsent reminders : forall i,
  (forall k msg, delivered (send k msg) = false) ->
  fst (sendAll send clock i reminders) = reminders.
Proof.
  induction reminders as [|r rest IH]; intros i Hnone; simpl; [reflexivity|].
  specialize (IH (S i) Hnone). destruct (sendAll send clock (S i) rest) as [rs ids].
  rewrite Hnone. simpl in *. rewrite IH. reflexivity.
Qed.

End Dispatch.

Lemma addPendingReminders_nothing st now t :
  getPendingReminders (snd (addPendingReminders st now [])) t = getPendingReminders st t.
Proof.
  unfold addPendingReminders. destruct (client st) as [db|] eqn:Hc; simpl; [reflexivity|].
  unfold getPendingReminders. simpl. rewrite Hc. apply app_nil_r.
Qed.

(** With [sendNotification] the value awaited is the object of per-channel
    results, which the loop over the results cannot iterate: every
    iteration ends in its [catch] and nothing is stored. *)
Lemma handler_with_sendNotification credentials create configured sendMessenger
    clock st now reminders :
  handler_dispatch
    (fun _ msg => sendNotification credentials create configured sendMessenger msg)
    clock st now reminders
  = addPendingReminders st now [].
Proof.
  unfold handler_dispatch. rewrite sentReminders_none by reflexivity. reflexivity.
Qed.

(** C1: the handler sends every generated reminder through
    [sendNotification].  A reminder whose dispatch fails for every recipient
    (no result of either channel has success) is left as it was generated,
    without a sent-at, its id is not among the ids sent, and it is not added
    to the pending set, which stays as it was; and a reminder is added to the
    pending set only if its dispatch had success for some recipient.  (The
    loop over the results raises on the object [sendNotification] returns,
    inside the [try] and before the sent-at is set, so that in fact no
    reminder of a batch is added.) *)
Theorem failed_dispatch_is_not_stored credentials create configured sendMessenger clock st now
    reminders :
  let send :=
    fun (_ : nat) msg => sendNotification credentials create configured sendMessenger msg in
  let st' := snd (handler_dispatch send clock st now reminders) in
  (forall i r,
     reminders !! i = Some r -> failedForAll (send i (message r)) ->
     fst (sendAll send clock 0 reminders) !! i = Some r
     /\ ~ In (rem_id r) (snd (sendAll send clock 0 reminders))
     /\ ~ In r (sentReminders send clock reminders)
     /\ forall t, getPendingReminders st' t = getPendingReminders st t)
  /\ (forall r', In r' (getPendingReminders st' now) ->
                 ~ In r' (getPendingReminders st now) ->
                 exists i r,
                   reminders !! i = Some r /\ rem_id r = rem_id r'
                   /\ sentAt r' <> None
                   /\ Exists (fun result => success result = true)
                        (recipientResults (send i (message r)))).
Proof.
  intros send st'.
  assert (Hnone : forall k msg, delivered (send k msg) = false) by reflexivity.
  assert (Hsame : forall t, getPendingReminders st' t = getPendingReminders st t).
  { intros t. subst st' send. rewrite handler_with_sendNotification.
    apply addPendingReminders_nothing. }
  split.
  - intros i r Hi _.
    rewrite (sendAll_unsent send clock reminders 0 Hnone).
    rewrite (sendAll_no_ids send clock reminders Hnone).
    rewrite (sentReminders_none send clock reminders Hnone).
    split; [exact Hi|]. split; [intros []|]. split; [intros []|exact Hsame].
  - intros r' Hafter Hbefore. rewrite Hsame in Hafter. contradiction.
Qed.

(** C1, witness: the morning atropine reminder, rejected by the messaging
    service for both recipients, with Messenger not configured. *)
Lemma failed_dispatch_witness :
  let send :=
    fun (_ : nat) msg =>
      sendNotification true (fun _ _ => Rejected "63016") false (fun _ => Results []) msg in
  let r := reminder "2026-01-13-MORNING-atropine" atropine "MORNING" None in
  fst (sendAll send (fun _ => morning13 + 900) 0 [r]) !! 0%nat = Some r
  /\ ~ In (rem_id r) (snd (sendAll send (fun _ => morning13 + 900) 0 [r]))
  /\ ~ In r (sentReminders send (fun _ => morning13 + 900) [r])
  /\ forall t,
       getPendingReminders
         (snd (handler_dispatch send (fun _ => morning13 + 900) (memoryOnly []) morning13 [r])) t
       = getPendingReminders (memoryOnly []) t.
Proof.
  intros send r.
  refine (proj1 (failed_dispatch_is_not_stored true (fun _ _ => Rejected "63016") false
                   (fun _ => Results []) (fun _ => morning13 + 900) (memoryOnly []) morning13
                   [r]) 0%nat r _ _).
  - reflexivity.
  - repeat constructor.
Defined.

Example failed_dispatch_results :
  recipientResults
    (sendNotification true (fun _ _ => Rejected "63016") false (fun _ => Results []) "text")
  = [ {| to := "+18573008938"; success := false; sid := None; error := Some "63016" |};
      {| to := "+13014615385"; success := false; sid := None; error := Some "63016" |} ]%string.
Proof. reflexivity. Qed.

(** Nor is a reminder stored that every recipient received. *)
Example accepted_dispatch_is_not_stored :
  getPendingReminders
    (snd (handler_dispatch
            (fun _ msg =>
               sendNotification true (fun number _ => Created "SM1" "queued" number) false
                 (fun _ => Results []) msg)
            (fun _ => morning13 + 900) (memoryOnly []) morning13
            [reminder "2026-01-13-MORNING-atropine" atropine "MORNING" None]))
    morning13
  = [].
Proof. vm_compute. reflexivity. Qed.

End CronFacts.

(** * Further properties of the pending store *)

Module StorageExtFacts.
Import Storage StorageExt Sample Statements Notions StorageFacts.

Lemma append_inj (p a b : string) : p +:+ a = p +:+ b -> a = b.
Proof.
  induction p as [|c p IH]; simpl; intros H; [exact H|].
  injection H as H. apply IH. exact H.
Qed.

Lemma schedule_key_not_pending (suffix : string) :
  SCHEDULE_PREFIX +:+ suffix <> PENDING_KEY.
Proof. unfold PENDING_KEY, SCHEDULE_PREFIX. simpl. discriminate. Qed.

Lemma confirmed_key_ne_pending (suffix : string) :
  CONFIRMED_PREFIX +:+ suffix <> PENDING_KEY.
Proof. unfold PENDING_KEY, CONFIRMED_PREFIX. simpl. discriminate. Qed.

Lemma sent_key_not_pending (suffix : string) :
  SENT_PREFIX +:+ suffix <> PENDING_KEY.
Proof. unfold PENDING_KEY, SENT_PREFIX. simpl. discriminate. Qed.

Lemma existsb_eqb_In (s : string) (l : list string) :
  existsb (String.eqb s) l = true <-> In s l.
Proof.
  rewrite existsb_exists. split.
  - intros (x & Hx & Heq). apply String.eqb_eq in Heq. subst. exact Hx.
  - intros Hin. exists s. split; [exact Hin|apply String.eqb_refl].
Qed.

(** Reading the pending list after a write, at any instant. *)
Lemma getPending_after_set st db now l later :
  getPendingReminders
    (with_client st (redis_set db now PENDING_KEY (VPending l) (Some 86400))) later
  = if later <? now + 86400 * 1000 then l else [].
Proof.
  unfold getPendingReminders, redis_get, redis_set. simpl.
  rewrite lookup_insert_eq. unfold expired. simpl.
  destruct (Z.leb_spec (now + 86400 * 1000) later);
    destruct (Z.ltb_spec later (now + 86400 * 1000)); try lia; reflexivity.
Qed.

(** ** The lifetime of the pending list *)

(** X1: on the key-value service the pending list is written with a 24-hour
    expiry: after [addPendingReminders] stored at least one new reminder at
    [now], the whole list, the older entries included, is read back until
    24 hours after [now] and is empty from then on; the in-memory fallback
    keeps it. *)
Theorem pending_list_expires_a_day_after_the_last_add st now reminders later :
  fresh (getPendingReminders st now) reminders <> [] ->
  getPendingReminders (snd (addPendingReminders st now reminders)) later
  = match client st with
    | Some _ =>
        if later <? now + PENDING_TTL_MS
        then getPendingReminders st now ++ fresh (getPendingReminders st now) reminders
        else []
    | None => getPendingReminders st now ++ fresh (getPendingReminders st now) reminders
    end.
Proof.
  intros Hnew. unfold addPendingReminders. fold (fresh (getPendingReminders st now) reminders).
  destruct (client st) as [db|] eqn:Hc.
  - replace (List.filter _ reminders) with (fresh (getPendingReminders st now) reminders)
      by reflexivity.
    destruct (fresh (getPendingReminders st now) reminders) as [|r rest] eqn:E; [congruence|].
    simpl length. simpl Nat.eqb. cbv iota. cbv zeta. simpl snd.
    rewrite getPending_after_set. reflexivity.
  - simpl. rewrite getPending_with_memory by done. simpl.
    unfold getPendingReminders. rewrite Hc. reflexivity.
Qed.

(** Witness: one reminder added to a pending list of one, read 24 hours later. *)
Lemma pending_list_expires_witness :
  getPendingReminders (snd (addPendingReminders (upstash [rA]) 5000 [rB])) (5000 + 86400 * 1000)
  = [].
Proof.
  rewrite (pending_list_expires_a_day_after_the_last_add (upstash [rA]) 5000 [rB]
             (5000 + 86400 * 1000)).
  - reflexivity.
  - vm_compute. discriminate.
Defined.


(** ** Re-reminders *)

(** The entries [markRemindersSent] rewrites. *)
Lemma markRemindersSent_result st now ids :
  fst (markRemindersSent st now ids)
  = List.map (fun r => if existsb (String.eqb (rem_id r)) ids
                       then Cron.markSent r now else r)
      (getPendingReminders st now).
Proof. unfold markRemindersSent. destruct (client st); reflexivity. Qed.

Lemma markRemindersSent_stored st now ids later :
  getPendingReminders (snd (markRemindersSent st now ids)) later
  = fst (markRemindersSent st now ids)
  \/ getPendingReminders (snd (markRemindersSent st now ids)) later = [].
Proof.
  unfold markRemindersSent. destruct (client st) as [db|] eqn:Hc; simpl.
  - rewrite getPending_after_set. destruct (later <? _); auto.
  - rewrite getPending_with_memory by done. auto.
Qed.

(** X2: [markRemindersSent] restarts the re-reminder timer: it keeps the
    pending entries and their order, and for less than [minutes] minutes
    after the call no reminder whose id it was given is a resend
    candidate. *)
Theorem markRemindersSent_restarts_resend_timer st now ids later minutes :
  later - now < minutes * 60 * 1000 ->
  List.map rem_id (fst (markRemindersSent st now ids))
  = List.map rem_id (getPendingReminders st now)
  /\ forall r,
       In r (getRemindersToResend (snd (markRemindersSent st now ids)) later minutes) ->
       ~ In (rem_id r) ids.
Proof.
  intros Hsoon. split.
  - rewrite markRemindersSent_result, List.map_map. apply map_ext.
    intros r. destruct (existsb _ ids); reflexivity.
  - intros r Hr Hid. unfold getRemindersToResend in Hr.
    apply filter_In in Hr as [Hin Hneed].
    destruct (markRemindersSent_stored st now ids later) as [Hst|Hst];
      rewrite Hst in Hin; [|destruct Hin].
    rewrite markRemindersSent_result in Hin.
    apply in_map_iff in Hin as (r0 & Hr0 & _).
    destruct (existsb (String.eqb (rem_id r0)) ids) eqn:E.
    + subst r. unfold needsResend in Hneed. simpl in Hneed.
      destruct (now =? 0); simpl in Hneed; [discriminate|].
      apply Z.leb_le in Hneed. lia.
    + subst r0. apply existsb_eqb_In in Hid. congruence.
Qed.

(** Witness: the atropine reminder re-sent, 29 minutes later. *)
Lemma markRemindersSent_restarts_witness :
  ~ In (rem_id rA)
      (List.map rem_id
         (getRemindersToResend
            (snd (markRemindersSent (memoryOnly [rA; rB]) 2000000 [rem_id rA]))
            (2000000 + 29 * 60 * 1000) 30)).
Proof.
  intros Hin. apply in_map_iff in Hin as (r & Hid & Hr).
  apply (markRemindersSent_restarts_resend_timer (memoryOnly [rA; rB]) 2000000 [rem_id rA]
           (2000000 + 29 * 60 * 1000) 30 ltac:(lia)) in Hr.
  apply Hr. rewrite Hid. left. reflexivity.
Defined.

(** ** Confirmation marks *)

Section Marks.
Variable pacific : Instant -> Z.

Lemma isAlreadyConfirmed_after_set st db now medId slot date data later date' :
  getTodayDateString pacific date' = getTodayDateString pacific date ->
  later < now + 86400 * 1000 ->
  isAlreadyConfirmed pacific
    (with_client st
       (redis_set db now
          (CONFIRMED_PREFIX +:+ getTodayDateString pacific date +:+ ":" +:+ slot +:+ "-" +:+ medId)
          (VConfirmation data) (Some 86400)))
    later medId slot date' = true.
Proof.
  intros Hdate Hlive. unfold isAlreadyConfirmed. simpl. rewrite Hdate.
  unfold redis_get, redis_set. rewrite lookup_insert_eq. unfold expired. simpl.
  destruct (Z.leb_spec (now + 86400 * 1000) later); [lia|reflexivity].
Qed.

(** X3: a confirmation by id marks the reminder's medication and slot as
    already confirmed: in the in-memory fallback for every date and from
    then on, on the key-value service for the dates of the same Pacific
    calendar day and for 24 hours. *)
Theorem confirmById_marks_already_confirmed st now reminderId r later date :
  List.find (fun x => String.eqb (rem_id x) reminderId) (getPendingReminders st now) = Some r ->
  (is_Some (client st) ->
   getTodayDateString pacific date = getTodayDateString pacific now
   /\ later < now + 86400 * 1000) ->
  isAlreadyConfirmed pacific (snd (confirmById pacific st now reminderId)) later
    (medicationId r) (rem_slot r) date = true.
Proof.
  intros Hfind Hlive. unfold confirmById. rewrite Hfind. simpl.
  destruct (client st) as [db|] eqn:Hc.
  - destruct (Hlive ltac:(eauto)) as [Hdate Hlater].
    apply isAlreadyConfirmed_after_set; assumption.
  - unfold isAlreadyConfirmed. simpl. rewrite Hc.
    apply bool_decide_eq_true_2. apply elem_of_union. left.
    apply elem_of_singleton. reflexivity.
Qed.

(** X4: a reminder that was confirmed by id is not re-reminded: from the
    confirmation on, no resend candidate has that id, whatever the
    threshold (the same holds when the id was not pending at all). *)
Theorem confirmed_reminder_is_not_re_reminded st now reminderId later minutes r :
  now <= later ->
  In r (getRemindersToResend (snd (confirmById pacific st now reminderId)) later minutes) ->
  rem_id r <> reminderId.
Proof.
  intros Hle Hin. unfold getRemindersToResend in Hin. apply filter_In in Hin as [Hin _].
  destruct (getPending_later (snd (confirmById pacific st now reminderId)) now later Hle)
    as [Hsame|Hgone]; [|rewrite Hgone in Hin; destruct Hin].
  rewrite Hsame in Hin. clear Hsame.
  destruct (List.find (fun x => String.eqb (rem_id x) reminderId) (getPendingReminders st now))
    as [x|] eqn:Hfind.
  - rewrite (confirmById_pending pacific st now reminderId x Hfind) in Hin.
    apply filter_In in Hin as [_ Hne]. apply negb_true_iff, String.eqb_neq in Hne. exact Hne.
  - unfold confirmById in Hin. rewrite Hfind in Hin. simpl in Hin.
    apply String.eqb_neq. eapply find_none in Hfind; [exact Hfind|exact Hin].
Qed.

(** X5: confirming undoes adding: when a reminder whose id is not pending
    is added and then confirmed by its id, the confirmation succeeds and the
    pending list is again what it was before the reminder was added. *)
Theorem confirmById_undoes_addPendingReminders st now r :
  ~ In (rem_id r) (List.map rem_id (getPendingReminders st now)) ->
  let st1 := snd (addPendingReminders st now [r]) in
  res_confirmed (fst (confirmById pacific st1 now (rem_id r))) = true
  /\ res_remaining (fst (confirmById pacific st1 now (rem_id r)))
     = Some (length (getPendingReminders st now))
  /\ getPendingReminders (snd (confirmById pacific st1 now (rem_id r))) now
     = getPendingReminders st now.
Proof.
  intros Hnew st1.
  assert (Hold : forall x, In x (getPendingReminders st now) ->
                           String.eqb (rem_id x) (rem_id r) = false).
  { intros x Hx. apply String.eqb_neq. intros Heq. apply Hnew. rewrite <- Heq.
    apply in_map. exact Hx. }
  assert (Hst1 : getPendingReminders st1 now = getPendingReminders st now ++ [r]).
  { unfold st1. rewrite addPendingReminders_stored, addPendingReminders_result.
    f_equal. unfold fresh. simpl.
    rewrite bool_decide_eq_false_2 by (rewrite elem_idSet; exact Hnew). reflexivity. }
  assert (Hfind : List.find (fun x => String.eqb (rem_id x) (rem_id r))
                    (getPendingReminders st1 now) = Some r).
  { rewrite Hst1, find_skip by exact Hold. simpl. rewrite String.eqb_refl. reflexivity. }
  assert (Hleft : List.filter (fun x => negb (String.eqb (rem_id x) (rem_id r)))
                    (getPendingReminders st1 now) = getPendingReminders st now).
  { rewrite Hst1, List.filter_app. simpl. rewrite String.eqb_refl. simpl.
    rewrite app_nil_r. apply filter_id. intros x Hx. rewrite (Hold x Hx). reflexivity. }
  split; [|split].
  - unfold confirmById. rewrite Hfind. reflexivity.
  - unfold confirmById. rewrite Hfind. simpl. rewrite Hleft. reflexivity.
  - rewrite (confirmById_pending pacific st1 now (rem_id r) r Hfind). exact Hleft.
Qed.

Lemma confirmEarly_isAlreadyConfirmed st now medId slot med date later date' :
  (is_Some (client st) ->
   getTodayDateString pacific date' = getTodayDateString pacific date
   /\ later < now + 86400 * 1000) ->
  isAlreadyConfirmed pacific (snd (confirmEarly pacific st now medId slot med date)) later
    medId slot date' = true.
Proof.
  intros Hlive. unfold confirmEarly. simpl.
  destruct (client st) as [db|] eqn:Hc.
  - destruct (Hlive ltac:(eauto)) as [Hdate Hlater].
    apply isAlreadyConfirmed_after_set; assumption.
  - unfold isAlreadyConfirmed. simpl. rewrite Hc.
    apply bool_decide_eq_true_2. apply elem_of_union. left.
    apply elem_of_singleton. reflexivity.
Qed.

(** X6: an early confirmation marks the medication and slot as already
    confirmed, under the same conditions, and leaves the pending list as it
    was. *)
Theorem confirmEarly_marks_and_keeps_pending st now medId slot med date later date' :
  (is_Some (client st) ->
   getTodayDateString pacific date' = getTodayDateString pacific date
   /\ later < now + 86400 * 1000) ->
  isAlreadyConfirmed pacific (snd (confirmEarly pacific st now medId slot med date)) later
    medId slot date' = true
  /\ forall t, getPendingReminders (snd (confirmEarly pacific st now medId slot med date)) t
               = getPendingReminders st t.
Proof.
  intros Hlive. split; [apply confirmEarly_isAlreadyConfirmed; exact Hlive|].
  intros t. unfold confirmEarly. simpl.
  destruct (client st) as [db|] eqn:Hc.
  - unfold getPendingReminders. simpl. rewrite Hc.
    rewrite redis_get_set_ne by apply confirmed_key_ne_pending. reflexivity.
  - unfold getPendingReminders. simpl. rewrite Hc. reflexivity.
Qed.

(** X7: [clearPending] empties the pending list on either store, but it
    resets the confirmation marks only in the in-memory fallback (on the
    key-value service they stay), and it releases no slot claim. *)
Theorem clearPending_clears_pending_only st now :
  getPendingReminders (clearPending st) now = []
  /\ (forall medId slot date,
        isAlreadyConfirmed pacific (clearPending st) now medId slot date
        = match client st with
          | Some _ => isAlreadyConfirmed pacific st now medId slot date
          | None => false
          end)
  /\ (forall slot date,
        fst (claimSlot pacific (clearPending st) now slot date)
        = fst (claimSlot pacific st now slot date)).
Proof.
  unfold clearPending. destruct (client st) as [db|] eqn:Hc; simpl.
  - split; [|split].
    + unfold getPendingReminders, redis_get, redis_del. simpl.
      rewrite lookup_delete_eq. reflexivity.
    + intros medId slot date. unfold isAlreadyConfirmed. simpl. rewrite Hc.
      unfold redis_get, redis_del.
      rewrite lookup_delete_ne; [reflexivity|].
      intros E. symmetry in E. revert E. apply confirmed_key_ne_pending.
    + intros slot date. unfold claimSlot. simpl. rewrite Hc.
      unfold redis_setnx, redis_get, redis_del, claimKey.
      rewrite lookup_delete_ne; [|intros E; symmetry in E; revert E; apply sent_key_not_pending].
      destruct (db !! _) as [e|]; [destruct (expired e now)|]; reflexivity.
  - split; [|split].
    + unfold getPendingReminders. simpl. reflexivity.
    + intros medId slot date. unfold isAlreadyConfirmed. simpl.
      apply bool_decide_eq_false_2. set_solver.
    + intros slot date. unfold claimSlot. simpl. rewrite Hc.
      destruct (bool_decide _); reflexivity.
Qed.

End Marks.

(** Witness: the second of two pending reminders confirmed from the
    dashboard, asked about an hour later. *)
Lemma confirmById_marks_witness :
  isAlreadyConfirmed pst (snd (confirmById pst (upstash [rA; rB]) morning13 (rem_id rB)))
    (morning13 + 3600 * 1000) (medicationId rB) (rem_slot rB) (morning13 + 60000) = true.
Proof.
  apply (confirmById_marks_already_confirmed pst (upstash [rA; rB]) morning13 (rem_id rB) rB).
  - vm_compute. reflexivity.
  - intros _. split; [vm_compute; reflexivity|unfold morning13; lia].
Defined.

(** Witness: the resend candidates an hour after a confirmation by id. *)
Lemma confirmed_reminder_witness :
  Forall (fun r => rem_id r <> rem_id rB)
    (getRemindersToResend (snd (confirmById pst (memoryOnly [rA; rB]) morning13 (rem_id rB)))
       (morning13 + 3600 * 1000) 30).
Proof.
  apply Forall_forall. intros r Hin. apply list_elem_of_In in Hin.
  apply (confirmed_reminder_is_not_re_reminded pst (memoryOnly [rA; rB]) morning13 (rem_id rB)
           (morning13 + 3600 * 1000) 30 r); [lia|exact Hin].
Defined.

(** Witness: a third reminder added to two pending ones and confirmed at once. *)
Lemma confirmById_undoes_witness :
  getPendingReminders
    (snd (confirmById pst (snd (addPendingReminders (upstash [rA; rB]) 5000 [rC])) 5000
            (rem_id rC))) 5000
  = getPendingReminders (upstash [rA; rB]) 5000.
Proof.
  refine (proj2 (proj2 (confirmById_undoes_addPendingReminders pst (upstash [rA; rB]) 5000 rC
                          _))).
  vm_compute. intros [H|[H|[]]]; discriminate H.
Defined.

(** Witness: the evening amoxicillin confirmed in the morning, asked about in the evening. *)
Lemma confirmEarly_marks_witness :
  isAlreadyConfirmed pst
    (snd (confirmEarly pst (upstash [rA]) morning13 "amoxicillin" "EVENING" (Some amoxicillin)
            morning13))
    evening13 "amoxicillin" "EVENING" evening13 = true.
Proof.
  apply (confirmEarly_marks_and_keeps_pending pst (upstash [rA]) morning13 "amoxicillin"
           "EVENING" (Some amoxicillin) morning13 evening13 evening13).
  intros _. split; [vm_compute; reflexivity|vm_compute; reflexivity].
Defined.


(** ** Custom schedules *)

Lemma scheduleOf_with_client st db later medId :
  scheduleOf (with_client st db) later medId
  = match redis_get db later (SCHEDULE_PREFIX +:+ medId) with
    | Some (VSchedule o) => Some o
    | _ => None
    end.
Proof.
  unfold scheduleOf, getMedicationSchedule. simpl.
  destruct (redis_get db later _) as [[| | |]|]; reflexivity.
Qed.

Lemma scheduleOf_memory st later medId :
  client st = None ->
  scheduleOf st later medId = default ∅ (schedules (memoryStore st)) !! medId.
Proof. intros Hc. unfold scheduleOf, getMedicationSchedule. rewrite Hc. reflexivity. Qed.

Lemma updateMedicationSchedule_read st now medId scheduleUpdate later :
  fst (getMedicationSchedule (snd (updateMedicationSchedule st now medId scheduleUpdate))
         later medId)
  = Some (stamped scheduleUpdate now).
Proof.
  unfold updateMedicationSchedule. destruct (client st) as [db|] eqn:Hc; simpl.
  - unfold getMedicationSchedule. simpl. unfold redis_get, redis_set.
    rewrite lookup_insert_eq. reflexivity.
  - unfold getMedicationSchedule. simpl. rewrite Hc. simpl.
    rewrite lookup_insert_eq. reflexivity.
Qed.

(** X8: a custom schedule is read back as it was stored, stamped with the
    instant of the update, at every later instant (it has no expiry); the
    schedules of the other medications and the pending list are
    untouched. *)
Theorem updateMedicationSchedule_is_read_back st now medId scheduleUpdate later :
  let st' := snd (updateMedicationSchedule st now medId scheduleUpdate) in
  fst (getMedicationSchedule st' later medId) = Some (stamped scheduleUpdate now)
  /\ upd_schedule (fst (updateMedicationSchedule st now medId scheduleUpdate))
     = stamped scheduleUpdate now
  /\ (forall other, other <> medId -> scheduleOf st' later other = scheduleOf st later other)
  /\ getPendingReminders st' later = getPendingReminders st later.
Proof.
  intros st'. subst st'. split; [apply updateMedicationSchedule_read|].
  unfold updateMedicationSchedule.
  destruct (client st) as [db|] eqn:Hc; simpl.
  - split; [reflexivity|split].
    + intros other Hne. rewrite scheduleOf_with_client.
      rewrite redis_get_set_ne by (intros E; apply append_inj in E; congruence).
      unfold scheduleOf, getMedicationSchedule. rewrite Hc.
      destruct (redis_get db later _) as [[| | |]|]; reflexivity.
    + unfold getPendingReminders. simpl. rewrite Hc.
      rewrite redis_get_set_ne by apply schedule_key_not_pending. reflexivity.
  - split; [reflexivity|split].
    + intros other Hne. rewrite !scheduleOf_memory by (simpl; assumption). simpl.
      rewrite lookup_insert_ne by congruence. reflexivity.
    + unfold getPendingReminders. simpl. rewrite Hc. reflexivity.
Qed.

(** X9: after [resetMedicationSchedule] the medication has no custom
    schedule, whatever was stored for it; the schedules of the other
    medications are untouched. *)
Theorem resetMedicationSchedule_restores_default st medId later :
  let st' := snd (resetMedicationSchedule st medId) in
  fst (getMedicationSchedule st' later medId) = None
  /\ (forall other, other <> medId -> scheduleOf st' later other = scheduleOf st later other).
Proof.
  intros st'. subst st'. unfold resetMedicationSchedule.
  destruct (client st) as [db|] eqn:Hc; simpl.
  - split.
    + unfold getMedicationSchedule. simpl. unfold redis_get, redis_del.
      rewrite lookup_delete_eq. reflexivity.
    + intros other Hne. rewrite scheduleOf_with_client.
      unfold redis_get, redis_del.
      rewrite lookup_delete_ne by (intros E; apply append_inj in E; congruence).
      unfold scheduleOf, getMedicationSchedule. rewrite Hc. unfold redis_get.
      destruct (db !! _) as [e|]; [|reflexivity].
      destruct (expired e later); [reflexivity|].
      destruct (value e); reflexivity.
  - destruct (schedules (memoryStore st)) as [sch|] eqn:Hs; simpl.
    + split.
      * unfold getMedicationSchedule. simpl. rewrite Hc. simpl.
        rewrite lookup_delete_eq. reflexivity.
      * intros other Hne. rewrite !scheduleOf_memory by (simpl; assumption). simpl.
        rewrite Hs. simpl. rewrite lookup_delete_ne by congruence. reflexivity.
    + split; [|reflexivity].
      unfold getMedicationSchedule. rewrite Hc, Hs. simpl. apply lookup_empty.
Qed.


(** ** Removing duplicates *)

Lemma seen_get_None seen key :
  seen_get seen key = None <-> ~ In key (List.map fst seen).
Proof.
  induction seen as [|[k v] rest IH]; simpl; [tauto|].
  destruct (String.eqb_spec k key) as [->|Hne].
  - split; [discriminate|]. intros H. exfalso. apply H. left. reflexivity.
  - rewrite IH. tauto.
Qed.

Lemma seen_get_In seen key v : seen_get seen key = Some v -> In (key, v) seen.
Proof.
  induction seen as [|[k w] rest IH]; simpl; [discriminate|].
  destruct (String.eqb_spec k key) as [->|Hne].
  - intros [= ->]. left. reflexivity.
  - intros H. right. apply IH. exact H.
Qed.

Lemma seen_set_new seen key r :
  seen_get seen key = None -> seen_set seen key r = seen ++ [(key, r)].
Proof.
  induction seen as [|[k v] rest IH]; simpl; [reflexivity|].
  destruct (String.eqb k key); [discriminate|].
  intros H. rewrite IH by exact H. reflexivity.
Qed.

Lemma seen_set_keys seen key r w :
  seen_get seen key = Some w -> List.map fst (seen_set seen key r) = List.map fst seen.
Proof.
  induction seen as [|[k v] rest IH]; simpl; [discriminate|].
  destruct (String.eqb k key); simpl; [reflexivity|].
  intros H. rewrite IH by exact H. reflexivity.
Qed.

Lemma seen_get_set seen key r : seen_get (seen_set seen key r) key = Some r.
Proof.
  induction seen as [|[k v] rest IH]; simpl.
  - rewrite String.eqb_refl. reflexivity.
  - destruct (String.eqb k key) eqn:E; simpl; rewrite E; [reflexivity|exact IH].
Qed.

Lemma seen_get_set_ne seen key key' r :
  key <> key' -> seen_get (seen_set seen key r) key' = seen_get seen key'.
Proof.
  intros Hne. induction seen as [|[k v] rest IH]; simpl.
  - destruct (String.eqb_spec key key'); [contradiction|reflexivity].
  - destruct (String.eqb_spec k key) as [->|Hk]; simpl.
    + destruct (String.eqb_spec key key'); [contradiction|reflexivity].
    + rewrite IH. reflexivity.
Qed.

Lemma seen_set_In seen key r k v :
  In (k, v) (seen_set seen key r) -> (k = key /\ v = r) \/ In (k, v) seen.
Proof.
  induction seen as [|[k0 v0] rest IH]; simpl.
  - intros [[= <- <-]|[]]. left. split; reflexivity.
  - destruct (String.eqb_spec k0 key) as [->|Hk]; simpl.
    + intros [[= <- <-]|H]; [left; split; reflexivity|right; right; exact H].
    + intros [H|H]; [right; left; exact H|].
      destruct (IH H) as [?|?]; [left; assumption|right; right; assumption].
Qed.

(** What one step of the loop does to the keys. *)
Lemma dedupeStep_keys seen r :
  List.map fst (dedupeStep seen r)
  = match seen_get seen (dedupeKey r) with
    | Some _ => List.map fst seen
    | None => List.map fst seen ++ [dedupeKey r]
    end.
Proof.
  unfold dedupeStep. destruct (seen_get seen (dedupeKey r)) as [w|] eqn:E.
  - destruct (replaces r w); [|reflexivity]. eapply seen_set_keys. exact E.
  - rewrite seen_set_new by exact E. rewrite map_app. reflexivity.
Qed.

Lemma notOlder_refl r : notOlder r r = true.
Proof.
  unfold notOlder. destruct (truthy_time (sentAt r)); simpl; [|reflexivity].
  apply Z.leb_le. lia.
Qed.

Lemma notOlder_replaces x w r :
  replaces x w = true -> notOlder w r = true -> notOlder x r = true.
Proof.
  unfold replaces, notOlder.
  destruct (truthy_time (sentAt r)); simpl; [|reflexivity].
  destruct (truthy_time (sentAt x)); simpl; [|discriminate].
  destruct (truthy_time (sentAt w)); simpl; [|discriminate].
  destruct (sentAt x) as [a|], (sentAt w) as [b|]; simpl; try discriminate.
  intros Hlt Hle. apply Z.ltb_lt in Hlt. apply Z.leb_le in Hle. apply Z.leb_le. lia.
Qed.

Lemma notOlder_kept x w :
  replaces x w = false -> notOlder w x = true.
Proof.
  unfold replaces, notOlder.
  destruct (truthy_time (sentAt x)) eqn:Hx; simpl; [|reflexivity].
  destruct (truthy_time (sentAt w)) eqn:Hw; simpl; [|discriminate].
  destruct (sentAt x) as [a|], (sentAt w) as [b|]; simpl; try discriminate.
  intros Hlt. apply Z.ltb_ge in Hlt. apply Z.leb_le. lia.
Qed.

Lemma seenInv_step seen done x :
  seenInv seen done -> seenInv (dedupeStep seen x) (done ++ [x]).
Proof.
  intros (Hnd & Hval & Hrep). split; [|split].
  - rewrite dedupeStep_keys. destruct (seen_get seen (dedupeKey x)) eqn:E; [exact Hnd|].
    apply NoDup_app. split; [exact Hnd|]. split.
    + intros k Hk Hk'. apply list_elem_of_In in Hk, Hk'. destruct Hk' as [<-|[]].
      apply seen_get_None in E. contradiction.
    + apply NoDup_singleton.
  - intros k v Hin. unfold dedupeStep in Hin.
    assert (Hold : In (k, v) seen -> dedupeKey v = k /\ In v (done ++ [x])).
    { intros H. destruct (Hval k v H). split; [assumption|]. apply in_or_app. auto. }
    assert (Hnew : In (k, v) (seen_set seen (dedupeKey x) x) ->
                   dedupeKey v = k /\ In v (done ++ [x])).
    { intros H. apply seen_set_In in H as [[-> ->]|H]; [|auto].
      split; [reflexivity|]. apply in_or_app. right. left. reflexivity. }
    destruct (seen_get seen (dedupeKey x)) as [w|]; [destruct (replaces x w)|]; auto.
  - intros r Hr. apply in_app_or in Hr as [Hr|[<-|[]]].
    + destruct (Hrep r Hr) as (v & Hv & Hno). unfold dedupeStep.
      destruct (String.eqb_spec (dedupeKey x) (dedupeKey r)) as [Heq|Hne].
      * rewrite Heq, Hv. destruct (replaces x v) eqn:Hrp.
        -- exists x. split; [apply seen_get_set|]. eapply notOlder_replaces; eauto.
        -- eauto.
      * destruct (seen_get seen (dedupeKey x)) as [w|];
          [destruct (replaces x w)|]; try rewrite seen_get_set_ne by exact Hne; eauto.
    + unfold dedupeStep. destruct (seen_get seen (dedupeKey x)) as [w|] eqn:E.
      * destruct (replaces x w) eqn:Hrp.
        -- exists x. split; [apply seen_get_set|apply notOlder_refl].
        -- exists w. split; [exact E|apply notOlder_kept; exact Hrp].
      * exists x. split; [apply seen_get_set|apply notOlder_refl].
Qed.

Lemma seenInv_fold pending : seenInv (fold_left dedupeStep pending []) pending.
Proof.
  induction pending as [|x done IH] using rev_ind.
  - split; [apply NoDup_nil_2|]. split; [intros ? ? []|intros ? []].
  - rewrite fold_left_app. simpl. apply seenInv_step. exact IH.
Qed.

Lemma dedupeStep_length seen r :
  length (dedupeStep seen r)
  = match seen_get seen (dedupeKey r) with
    | Some _ => length seen
    | None => S (length seen)
    end.
Proof.
  rewrite <- !(length_map fst), dedupeStep_keys.
  destruct (seen_get seen (dedupeKey r)); [reflexivity|].
  rewrite length_app. simpl. lia.
Qed.

Lemma fold_dedupe_length_le l : forall seen,
  (length (fold_left dedupeStep l seen) <= length seen + length l)%nat.
Proof.
  induction l as [|r rest IH]; intros seen; simpl; [lia|].
  specialize (IH (dedupeStep seen r)). rewrite dedupeStep_length in IH.
  destruct (seen_get seen (dedupeKey r)); lia.
Qed.

(** When the loop shortens nothing it changes nothing. *)
Lemma fold_dedupe_full l : forall seen,
  length (fold_left dedupeStep l seen) = (length seen + length l)%nat ->
  fold_left dedupeStep l seen = seen ++ List.map (fun r => (dedupeKey r, r)) l.
Proof.
  induction l as [|r rest IH]; intros seen; simpl.
  - intros _. rewrite app_nil_r. reflexivity.
  - intros Hlen. pose proof (fold_dedupe_length_le rest (dedupeStep seen r)) as Hle.
    rewrite dedupeStep_length in Hle.
    destruct (seen_get seen (dedupeKey r)) as [w|] eqn:E; [lia|].
    assert (Hstep : dedupeStep seen r = seen ++ [(dedupeKey r, r)]).
    { unfold dedupeStep. rewrite E. apply seen_set_new. exact E. }
    rewrite Hstep in *. rewrite IH.
    + rewrite <- app_assoc. reflexivity.
    + rewrite Hlen, length_app. simpl. lia.
Qed.

(** On a list without repeated keys the loop keeps every entry. *)
Lemma fold_dedupe_distinct l : forall seen,
  NoDup (List.map fst seen ++ List.map dedupeKey l) ->
  fold_left dedupeStep l seen = seen ++ List.map (fun r => (dedupeKey r, r)) l.
Proof.
  induction l as [|r rest IH]; intros seen Hnd; simpl.
  - rewrite app_nil_r. reflexivity.
  - assert (E : seen_get seen (dedupeKey r) = None).
    { apply seen_get_None. intros Hin. simpl in Hnd.
      apply NoDup_app in Hnd as (_ & Hdisj & _).
      apply (Hdisj (dedupeKey r)); [apply list_elem_of_In; exact Hin|].
      apply list_elem_of_In. left. reflexivity. }
    assert (Hstep : dedupeStep seen r = seen ++ [(dedupeKey r, r)]).
    { unfold dedupeStep. rewrite E. apply seen_set_new. exact E. }
    rewrite Hstep, IH.
    + rewrite <- app_assoc. reflexivity.
    + rewrite map_app. simpl. rewrite <- app_assoc. simpl. exact Hnd.
Qed.

Lemma dedupeAll_keys pending :
  List.map dedupeKey (dedupeAll pending) = List.map fst (fold_left dedupeStep pending []).
Proof.
  unfold dedupeAll. destruct (seenInv_fold pending) as (_ & Hval & _).
  revert Hval. generalize (fold_left dedupeStep pending []). intros seen Hval.
  induction seen as [|[k v] rest IH]; simpl; [reflexivity|].
  destruct (Hval k v) as [-> _]; [left; reflexivity|].
  f_equal. apply IH. intros k' v' H. apply Hval. right. exact H.
Qed.

Lemma dedupeAll_NoDup pending : NoDup (List.map dedupeKey (dedupeAll pending)).
Proof. rewrite dedupeAll_keys. apply seenInv_fold. Qed.

Lemma dedupeAll_length pending : (length (dedupeAll pending) <= length pending)%nat.
Proof.
  unfold dedupeAll. rewrite length_map.
  pose proof (fold_dedupe_length_le pending []). simpl in *. lia.
Qed.

Lemma dedupeAll_full pending :
  length (dedupeAll pending) = length pending -> dedupeAll pending = pending.
Proof.
  unfold dedupeAll. rewrite length_map. intros Hlen.
  rewrite fold_dedupe_full by (simpl; exact Hlen). simpl.
  rewrite List.map_map. simpl. apply map_id.
Qed.

Lemma dedupeAll_idempotent pending : dedupeAll (dedupeAll pending) = dedupeAll pending.
Proof.
  unfold dedupeAll at 1. rewrite fold_dedupe_distinct.
  - simpl. rewrite List.map_map. simpl. apply map_id.
  - simpl. apply dedupeAll_NoDup.
Qed.

Lemma storePending_read st now l : getPendingReminders (storePending st now l) now = l.
Proof.
  unfold storePending. destruct (client st) as [db|] eqn:Hc.
  - apply getPending_with_client.
  - rewrite getPending_with_memory by done. reflexivity.
Qed.

Lemma dedupe_stored st now :
  getPendingReminders (snd (dedupePendingReminders st now)) now
  = dedupeAll (getPendingReminders st now).
Proof.
  unfold dedupePendingReminders. simpl.
  destruct (Z.ltb_spec 0 (Z.of_nat (length (getPendingReminders st now))
                          - Z.of_nat (length (dedupeAll (getPendingReminders st now))))).
  - apply storePending_read.
  - symmetry. apply dedupeAll_full.
    pose proof (dedupeAll_length (getPendingReminders st now)). lia.
Qed.

(** X10: after [dedupePendingReminders] no two pending entries share the key
    made of their slot and medication id; every entry left was pending
    before; [before] and [after] are the lengths of the pending list before
    and after the call, and [removed] is the number of entries dropped. *)
Theorem dedupePendingReminders_leaves_one_entry_per_key st now :
  let result := fst (dedupePendingReminders st now) in
  let after := getPendingReminders (snd (dedupePendingReminders st now)) now in
  NoDup (List.map dedupeKey after)
  /\ up_before result = length (getPendingReminders st now)
  /\ up_after result = length after
  /\ up_removed result = Z.of_nat (up_before result) - Z.of_nat (up_after result)
  /\ 0 <= up_removed result
  /\ (forall r, In r after -> In r (getPendingReminders st now)).
Proof.
  intros result after. subst result after. rewrite dedupe_stored. simpl.
  split; [apply dedupeAll_NoDup|]. split; [reflexivity|]. split; [reflexivity|].
  split; [reflexivity|]. split.
  - pose proof (dedupeAll_length (getPendingReminders st now)). lia.
  - intros r Hr. unfold dedupeAll in Hr. apply in_map_iff in Hr as ([k v] & <- & Hin).
    destruct (seenInv_fold (getPendingReminders st now)) as (_ & Hval & _).
    apply (Hval k v Hin).
Qed.

(** X11: of the pending entries with one key, [dedupePendingReminders] keeps
    one that was sent last: every pending entry has, among the entries
    kept, one of the same key whose sent-at is not older. *)
Theorem dedupePendingReminders_keeps_latest_sent st now r :
  In r (getPendingReminders st now) ->
  exists v,
    In v (getPendingReminders (snd (dedupePendingReminders st now)) now)
    /\ dedupeKey v = dedupeKey r
    /\ notOlder v r = true.
Proof.
  intros Hr. rewrite dedupe_stored.
  destruct (seenInv_fold (getPendingReminders st now)) as (_ & Hval & Hrep).
  destruct (Hrep r Hr) as (v & Hv & Hno). exists v.
  apply seen_get_In in Hv. split; [|split; [apply (Hval _ _ Hv)|exact Hno]].
  unfold dedupeAll. apply in_map_iff. exists (dedupeKey r, v). split; [reflexivity|exact Hv].
Qed.

(** X12: removing duplicates twice is removing them once: a second
    [dedupePendingReminders], at the same or a later instant, removes
    nothing and writes nothing. *)
Theorem dedupePendingReminders_idempotent st now later :
  now <= later ->
  let st1 := snd (dedupePendingReminders st now) in
  up_removed (fst (dedupePendingReminders st1 later)) = 0
  /\ snd (dedupePendingReminders st1 later) = st1.
Proof.
  intros Hle st1.
  assert (Hsame : dedupeAll (getPendingReminders st1 later) = getPendingReminders st1 later).
  { destruct (getPending_later st1 now later Hle) as [->| ->]; [|reflexivity].
    unfold st1. rewrite dedupe_stored. apply dedupeAll_idempotent. }
  unfold dedupePendingReminders. simpl. rewrite Hsame.
  rewrite Z.sub_diag. split; reflexivity.
Qed.

(** Witness: the atropine reminder pending twice, the second sent later. *)
Lemma dedupePendingReminders_keeps_latest_witness :
  exists v,
    In v (getPendingReminders
            (snd (dedupePendingReminders (memoryOnly [rA; rB; Cron.markSent rA 7000]) 8000)) 8000)
    /\ dedupeKey v = dedupeKey rA
    /\ notOlder v rA = true.
Proof.
  apply (dedupePendingReminders_keeps_latest_sent (memoryOnly [rA; rB; Cron.markSent rA 7000])
           8000 rA).
  left. reflexivity.
Defined.

(** Witness: the same list, deduplicated again a second later. *)
Lemma dedupePendingReminders_idempotent_witness :
  snd (dedupePendingReminders
         (snd (dedupePendingReminders (upstash [rA; rB; Cron.markSent rA 7000]) 8000)) 9000)
  = snd (dedupePendingReminders (upstash [rA; rB; Cron.markSent rA 7000]) 8000).
Proof.
  apply (dedupePendingReminders_idempotent (upstash [rA; rB; Cron.markSent rA 7000]) 8000 9000).
  lia.
Defined.

Example dedupe_keeps_the_later_atropine :
  getPendingReminders
    (snd (dedupePendingReminders (memoryOnly [rA; rB; Cron.markSent rA 7000]) 8000)) 8000
  = [Cron.markSent rA 7000; rB].
Proof. vm_compute. reflexivity. Qed.


(** ** The keys made of a slot and a medication id *)

Lemma splitHyphen_cons slot rest :
  hyphenFree slot = true ->
  splitHyphen (slot +:+ "-" +:+ rest) = slot :: splitHyphen rest.
Proof.
  induction slot as [|c slot IH]; simpl; [reflexivity|].
  destruct (Ascii.eqb c "-"); simpl; [discriminate|].
  intros Hfree. rewrite IH by exact Hfree. reflexivity.
Qed.

Lemma splitHyphen_not_nil key : splitHyphen key <> [].
Proof.
  destruct key as [|c rest]; simpl; [discriminate|].
  destruct (Ascii.eqb c "-"); [discriminate|].
  destruct (splitHyphen rest); discriminate.
Qed.

Lemma joinHyphen_split key : joinHyphen (splitHyphen key) = key.
Proof.
  induction key as [|c rest IH]; simpl; [reflexivity|].
  destruct (Ascii.eqb_spec c "-") as [->|Hne].
  - pose proof (splitHyphen_not_nil rest) as Hnn.
    simpl. destruct (splitHyphen rest) as [|p more]; [contradiction|].
    simpl in IH |- *. rewrite IH. reflexivity.
  - pose proof (splitHyphen_not_nil rest) as Hnn.
    destruct (splitHyphen rest) as [|p more]; [contradiction|].
    simpl in IH |- *. destruct more as [|q more']; simpl in *; rewrite <- IH; reflexivity.
Qed.

Lemma slot_key_inj slot1 med1 slot2 med2 :
  hyphenFree slot1 = true -> hyphenFree slot2 = true ->
  slot1 +:+ "-" +:+ med1 = slot2 +:+ "-" +:+ med2 ->
  slot1 = slot2 /\ med1 = med2.
Proof.
  intros H1 H2 Heq.
  assert (Hsplit : slot1 :: splitHyphen med1 = slot2 :: splitHyphen med2).
  { rewrite <- !splitHyphen_cons by assumption. rewrite Heq. reflexivity. }
  injection Hsplit as -> Hrest. split; [reflexivity|].
  rewrite <- (joinHyphen_split med1), <- (joinHyphen_split med2), Hrest. reflexivity.
Qed.

(** X13: the key of a confirmation mark gives back its parts: for a slot
    name without a hyphen (the medication id may have some), the history
    entry that the in-memory fallback builds from the key of the slot and
    the medication id has that slot and that medication id. *)
Theorem historyEntry_recovers_slot_and_medication now slot medId :
  hyphenFree slot = true ->
  cd_slot (historyEntry now (slot +:+ "-" +:+ medId)) = slot
  /\ cd_medicationId (historyEntry now (slot +:+ "-" +:+ medId)) = medId
  /\ cd_medication (historyEntry now (slot +:+ "-" +:+ medId)) = NameOnly medId.
Proof.
  intros Hfree. unfold historyEntry. simpl.
  rewrite splitHyphen_cons by exact Hfree. simpl.
  rewrite joinHyphen_split. repeat split.
Qed.

(** Witness: a medication id with a hyphen of its own. *)
Lemma historyEntry_witness :
  cd_slot (historyEntry 0 ("LATE_NIGHT" +:+ "-" +:+ "prednisolone-eye")) = "LATE_NIGHT"%string
  /\ cd_medicationId (historyEntry 0 ("LATE_NIGHT" +:+ "-" +:+ "prednisolone-eye"))
     = "prednisolone-eye"%string
  /\ cd_medication (historyEntry 0 ("LATE_NIGHT" +:+ "-" +:+ "prednisolone-eye"))
     = NameOnly "prednisolone-eye".
Proof.
  apply (historyEntry_recovers_slot_and_medication 0 "LATE_NIGHT" "prednisolone-eye").
  reflexivity.
Defined.

(** X14: for slot names without a hyphen, two reminders have the same
    key in [dedupePendingReminders] exactly when they have the same
    medication id and slot, the pair by which [confirmMedication] removes
    pending entries. *)
Theorem dedupeKey_is_the_confirmation_pair r1 r2 :
  hyphenFree (rem_slot r1) = true -> hyphenFree (rem_slot r2) = true ->
  (dedupeKey r1 = dedupeKey r2 <-> matches (medicationId r2) (rem_slot r2) r1 = true).
Proof.
  intros H1 H2. unfold dedupeKey, matches.
  rewrite andb_true_iff, !String.eqb_eq. split.
  - intros Heq. apply slot_key_inj in Heq as [? ?]; auto.
  - intros [-> ->]. reflexivity.
Qed.

(** Witness: the atropine reminders of two mornings. *)
Lemma dedupeKey_pair_witness :
  dedupeKey rA = dedupeKey rA' <-> matches (medicationId rA') (rem_slot rA') rA = true.
Proof.
  apply (dedupeKey_is_the_confirmation_pair rA rA'); reflexivity.
Defined.

End StorageExtFacts.

(** * Further properties of schedule resolution *)

Module SchedulerExtFacts.
Import PlainObject Storage StorageExt Medications Scheduler SchedulerExt Sample Scenario.
Import Statements Notions.
Import StorageFacts SchedulerFacts StorageExtFacts.

Section Windows.
Variable pacific : Instant -> Z.

Lemma minuteOfDay_range date : 0 <= zonedMinuteOfDay pacific date < 1440.
Proof. unfold zonedMinuteOfDay, MINUTES_PER_DAY. apply Z.mod_pos_bound. lia. Qed.

Lemma baseTimes_cases slot bh bm :
  baseTimes slot = Some (bh, bm) ->
  (slot = "MORNING"%string /\ bh = 8 /\ bm = 30)
  \/ (slot = "LATE_MORNING"%string /\ bh = 11 /\ bm = 0)
  \/ (slot = "MIDDAY"%string /\ bh = 14 /\ bm = 0)
  \/ (slot = "EVENING"%string /\ bh = 19 /\ bm = 0)
  \/ (slot = "LATE_NIGHT"%string /\ bh = 22 /\ bm = 30)
  \/ (slot = "NIGHT"%string /\ bh = 0 /\ bm = 0).
Proof.
  unfold baseTimes.
  destruct (String.eqb_spec slot "MORNING"); [intros [= <- <-]; auto|].
  destruct (String.eqb_spec slot "LATE_MORNING"); [intros [= <- <-]; auto|].
  destruct (String.eqb_spec slot "MIDDAY"); [intros [= <- <-]; auto 6|].
  destruct (String.eqb_spec slot "EVENING"); [intros [= <- <-]; auto 7|].
  destruct (String.eqb_spec slot "LATE_NIGHT"); [intros [= <- <-]; auto 8|].
  destruct (String.eqb_spec slot "NIGHT"); [intros [= <- <-]; auto 9|].
  discriminate.
Qed.

(** X15: a slot is the current one exactly during the quarter of an hour
    that starts at its base time of [getStaggeredTime], in Pacific time; the
    windows of [getCurrentTimeSlot] and the base times of the display agree
    for all six slots, and NIGHT is current from 00:00 to 00:15. *)
Theorem getCurrentTimeSlot_is_quarter_hour_from_base_time date slot :
  getCurrentTimeSlot pacific date = Some slot
  <-> exists bh bm,
        baseTimes slot = Some (bh, bm)
        /\ bh * 60 + bm <= zonedMinuteOfDay pacific date < bh * 60 + bm + 15.
Proof.
  split.
  - intros Hslot. apply getCurrentTimeSlot_window in Hslot. cbv zeta in Hslot.
    destruct Hslot as [[-> H]|[[-> H]|[[-> H]|[[-> H]|[[-> H]|[-> H]]]]]];
      eexists _, _; (split; [reflexivity|lia]).
  - intros (bh & bm & Hbase & Hwin).
    unfold getCurrentTimeSlot. rewrite currentTime_minute.
    pose proof (minuteOfDay_range date) as Hm.
    revert Hm Hwin. generalize (zonedMinuteOfDay pacific date). intros m Hm Hwin.
    apply baseTimes_cases in Hbase.
    destruct Hbase as [(-> & -> & ->)|[(-> & -> & ->)|[(-> & -> & ->)|[(-> & -> & ->)|
                      [(-> & -> & ->)|(-> & -> & ->)]]]]];
      unfold slotWindows; cbn [List.find fst snd];
      repeat match goal with
             | |- context [(?a <=? m) && (m <? ?b)] =>
                 first
                   [ replace ((a <=? m) && (m <? b)) with true
                       by (symmetry; apply andb_true_iff;
                           split; [apply Z.leb_le|apply Z.ltb_lt]; lia)
                   | replace ((a <=? m) && (m <? b)) with false
                       by (symmetry; apply andb_false_iff;
                           first [left; apply Z.leb_gt; lia|right; apply Z.ltb_ge; lia]) ];
                 cbv iota
             end; reflexivity.
Qed.


(** X16: the past slots are an initial stretch of the day's slots in their
    order: a slot is past from a quarter of an hour after its time until
    midnight, so the slot that is current is never among them, and NIGHT
    (the midnight dose) never is. *)
Theorem getPastTimeSlots_is_a_prefix_without_the_current_slot date :
  (exists n, getPastTimeSlots pacific date
             = take n ["MORNING"; "LATE_MORNING"; "MIDDAY"; "EVENING"; "LATE_NIGHT"]%string)
  /\ (forall slot, getCurrentTimeSlot pacific date = Some slot ->
                   ~ In slot (getPastTimeSlots pacific date))
  /\ ~ In "NIGHT"%string (getPastTimeSlots pacific date).
Proof.
  assert (Hwin := getCurrentTimeSlot_window pacific date).
  unfold getPastTimeSlots. rewrite currentTime_minute. cbv zeta in Hwin.
  pose proof (minuteOfDay_range date) as Hm.
  revert Hm Hwin. generalize (zonedMinuteOfDay pacific date).
  generalize (getCurrentTimeSlot pacific date). intros cur m Hm Hwin.
  unfold pastSlotWindows. simpl.
  split; [|split].
  - repeat match goal with
           | |- context [?a <=? m] => destruct (Z.leb_spec a m); simpl
           end; try lia;
      first [ exists 5%nat; reflexivity | exists 4%nat; reflexivity
            | exists 3%nat; reflexivity | exists 2%nat; reflexivity
            | exists 1%nat; reflexivity | exists 0%nat; reflexivity ].
  - intros slot Hcur. subst cur. specialize (Hwin slot eq_refl).
    repeat match goal with
           | |- context [?a <=? m] => destruct (Z.leb_spec a m); simpl
           end;
      destruct Hwin as [[-> H']|[[-> H']|[[-> H']|[[-> H']|[[-> H']|[-> H']]]]]];
      try lia; intuition discriminate.
  - repeat match goal with
           | |- context [?a <=? m] => destruct (Z.leb_spec a m); simpl
           end; intuition discriminate.
Qed.

End Windows.

(** ** Custom schedules and the catalog *)

Section Resolution.
Variable cfg : Config.
Variable zone : Zone.
Variable pacific : Instant -> Z.

Lemma dueMedications_active now slot date meds : forall cache st due med,
  fst (fst (dueMedications cfg zone cache st now meds slot date)) = Some due ->
  In med due -> In med meds /\ active med = Some true.
Proof.
  induction meds as [|m rest IH]; intros cache st due med; simpl.
  { intros [= <-] []. }
  destruct (bool_decide (active m = Some true)) eqn:Hact.
  - destruct (isMedicationDue cfg zone cache st now m slot date) as [[isDue cache1] st1].
    specialize (IH cache1 st1).
    destruct (dueMedications cfg zone cache1 st1 now rest slot date) as [[rest' c2] s2].
    simpl in *. destruct isDue as [[|]|]; destruct rest' as [l|]; try discriminate;
      intros [= <-] Hin.
    + destruct Hin as [<-|Hin].
      * split; [left; reflexivity|apply bool_decide_eq_true in Hact; exact Hact].
      * destruct (IH l med eq_refl Hin). split; [right|]; assumption.
    + destruct (IH l med eq_refl Hin). split; [right|]; assumption.
  - specialize (IH cache st).
    destruct (dueMedications cfg zone cache st now rest slot date) as [[rest' c2] s2].
    simpl in *. destruct rest' as [l|]; [|discriminate]. intros [= <-] Hin.
    destruct (IH l med eq_refl Hin). split; [right|]; assumption.
Qed.

(** X17: a custom schedule can switch a medication off but not on: only
    catalog entries whose own [active] flag is [true] are ever due, whatever
    custom schedules the store and the cache hold; an entry that is
    inactive, or has no [active] flag, is due in no slot. *)
Theorem only_active_catalog_entries_are_due cache st now slot date due med :
  fst (fst (getMedicationsForSlot cfg zone cache st now slot date)) = Some due ->
  In med due ->
  In med (getAllMedications cfg) /\ active med = Some true.
Proof.
  unfold getMedicationsForSlot. cbv zeta. apply dueMedications_active.
Qed.

Lemma cache_after_update st t0 medId upd cache now :
  (forall d ts, cache !! medId = Some (d, ts) -> CACHE_TTL <= now - ts) ->
  fst (fst (getMedicationScheduleWithCache cache
              (snd (updateMedicationSchedule st t0 medId upd)) now medId))
  = Some (stamped upd t0).
Proof.
  intros Hstale. unfold getMedicationScheduleWithCache.
  assert (Hget : fst (getMedicationSchedule (snd (updateMedicationSchedule st t0 medId upd))
                        now medId) = Some (stamped upd t0))
    by apply updateMedicationSchedule_read.
  destruct (getMedicationSchedule _ now medId) as [schedule st'] eqn:E. simpl in Hget.
  destruct (cache !! medId) as [[d ts]|] eqn:Hc; [|exact Hget].
  specialize (Hstale d ts eq_refl).
  destruct (Z.ltb_spec (now - ts) CACHE_TTL); [lia|exact Hget].
Qed.

(** X18: a medication whose custom schedule was stored with [active: false]
    is due in no slot, as soon as the schedule cache holds no entry for it
    that is younger than five minutes. *)
Theorem deactivated_medication_is_not_due st t0 upd cache now med slot date :
  ov_active upd = Given false ->
  (forall d ts, cache !! med_id med = Some (d, ts) -> CACHE_TTL <= now - ts) ->
  fst (fst (isMedicationDue cfg zone cache
              (snd (updateMedicationSchedule st t0 (med_id med) upd)) now med slot date))
  = Some false.
Proof.
  intros Hoff Hstale. unfold isMedicationDue.
  pose proof (cache_after_update st t0 (med_id med) upd cache now Hstale) as Hget.
  destruct (getMedicationScheduleWithCache cache _ now (med_id med)) as [[custom c1] s1].
  simpl in Hget. subst custom. simpl.
  unfold dueBySchedule. simpl. rewrite Hoff. reflexivity.
Qed.

(** X19: an update of a custom schedule is seen by the resolver only through
    the schedule cache: while the cache entry of the medication is younger
    than five minutes the resolver keeps answering with the cached schedule,
    and from then on with the stored one. *)
Theorem custom_schedule_is_seen_after_cache_ttl st t0 medId upd cache now d ts :
  cache !! medId = Some (d, ts) ->
  fst (fst (getMedicationScheduleWithCache cache
              (snd (updateMedicationSchedule st t0 medId upd)) now medId))
  = if now - ts <? CACHE_TTL then d else Some (stamped upd t0).
Proof.
  intros Hc. destruct (Z.ltb_spec (now - ts) CACHE_TTL) as [Hfresh|Hstale].
  - unfold getMedicationScheduleWithCache. rewrite Hc.
    destruct (Z.ltb_spec (now - ts) CACHE_TTL); [reflexivity|lia].
  - apply cache_after_update. intros d' ts' H'. rewrite Hc in H'.
    injection H' as <- <-. exact Hstale.
Qed.


Lemma medication_imap dateStr slot dayNum (time : nat -> StaggeredTime) (meds : list Medication) :
  List.map medication (imap (fun k med => makeReminder dateStr slot dayNum (time k) med) meds)
  = meds.
Proof.
  revert time. induction meds as [|med rest IH]; intros time; simpl; [reflexivity|].
  f_equal. apply (IH (time ∘ S)).
Qed.

Lemma batchOrder_In due med :
  In med (batchOrder due) <-> In med due /\ In (location med) locationOrder.
Proof.
  unfold batchOrder, byLocation, locationOrder. rewrite !in_app_iff, !filter_In. simpl.
  rewrite !String.eqb_eq. split.
  - intros [[? ?]|[[? ?]|[? ?]]]; split; auto.
  - intros [? [?|[?|[?|[]]]]]; auto.
Qed.

Lemma batch_medications dateStr slot dayNum due bh bm :
  baseTimes slot = Some (bh, bm) ->
  exists reminders,
    remindersByLocation dateStr slot dayNum due locationOrder 0 = Some reminders
    /\ List.map medication reminders = batchOrder due.
Proof.
  intros Hbase. rewrite (remindersByLocation_closed_form _ _ _ _ _ Hbase).
  eexists. split; [reflexivity|].
  rewrite map_app.
  rewrite (medication_imap _ _ _ (fun k => displayTime bh bm (Z.of_nat k))).
  rewrite List.map_map. simpl. rewrite map_id.
  unfold batchOrder. rewrite <- app_assoc. reflexivity.
Qed.

(** X20: the individual reminders and the combined view agree.  For one
    instant, [getIndividualReminders] raises exactly when [getMedicationsDue]
    raises or a medication that is due has a location that names a member of
    [Object.prototype]; when it returns, the two answer with the same slot,
    slot time and day number, and the reminders are, one for one, the due
    medications taken by location: left eye, right eye, oral.  A due
    medication whose location is none of these three gets no reminder. *)
Theorem reminders_are_the_due_medications_by_location cache st now date :
  let due := fst (fst (getMedicationsDue cfg zone pacific cache st now date)) in
  let batch := fst (fst (getIndividualReminders cfg zone pacific cache st now date)) in
  (batch = None <->
   due = None
   \/ exists d med, due = Some d /\ In med (due_medications d)
                    /\ inherited (location med) = true)
  /\ (forall g, batch = Some g ->
        exists d,
          due = Some d
          /\ g_slot g = due_slot d
          /\ g_slotTime g = due_slotTime d
          /\ g_dayNumber g = due_dayNumber d
          /\ List.map medication (g_reminders g) = batchOrder (due_medications d)
          /\ (forall med, In med (List.map medication (g_reminders g))
                          <-> In med (due_medications d) /\ In (location med) locationOrder)).
Proof.
  intros due batch. subst due batch. unfold getIndividualReminders, getMedicationsDue.
  destruct (getCurrentTimeSlot pacific date) as [slot|] eqn:Hslot.
  - destruct (getCurrentTimeSlot_baseTimes _ _ _ Hslot) as (bh & bm & Hbase).
    destruct (dueMedications cfg zone cache st now (getAllMedications cfg) slot date)
      as [[[dueMeds|] cache'] st']; cbv beta iota zeta delta [fst snd].
    + destruct (batch_medications (toISODate date) slot (getDayNumber cfg zone date)
                  dueMeds bh bm Hbase) as (reminders & Hrs & Hmeds).
      rewrite Hrs. unfold groupingRaises.
      destruct (existsb (fun med => inherited (location med)) dueMeds) eqn:Egroup; simpl.
      * split; [|discriminate]. split; [intros _|reflexivity]. right.
        apply existsb_exists in Egroup as (med & Hin & Hloc).
        eexists _, med. split; [reflexivity|]. simpl. auto.
      * split.
        -- split; [discriminate|]. intros [H|(d & med & [= <-] & Hin & Hloc)];
             [discriminate H|]. simpl in Hin.
           assert (Hex : existsb (fun med => inherited (location med)) dueMeds = true)
             by (apply existsb_exists; eauto).
           congruence.
        -- intros g [= <-]. eexists. split; [reflexivity|]. simpl.
           split; [reflexivity|]. split; [reflexivity|]. split; [reflexivity|].
           split; [exact Hmeds|]. intros med. rewrite Hmeds. apply batchOrder_In.
    + split; [|discriminate]. split; [intros _; left|]; reflexivity.
  - simpl. split.
    + split; [discriminate|]. intros [H|(d & med & [= <-] & [] & _)]. discriminate H.
    + intros g [= <-]. eexists. split; [reflexivity|]. simpl.
      split; [reflexivity|]. split; [reflexivity|]. split; [reflexivity|].
      split; [reflexivity|]. intros med. simpl. tauto.
Qed.

Lemma dueMedications_ids now slot date meds : forall cache st due,
  NoDup (List.map med_id meds) ->
  fst (fst (dueMedications cfg zone cache st now meds slot date)) = Some due ->
  NoDup (List.map med_id due).
Proof.
  induction meds as [|m rest IH]; intros cache st due Hnd; simpl.
  { intros [= <-]. constructor. }
  apply NoDup_cons in Hnd as [Hnotin Hrest].
  assert (Hsub : forall c s l x,
            fst (fst (dueMedications cfg zone c s now rest slot date)) = Some l ->
            In x l -> In x rest).
  { intros c s l x Hl Hx. apply (dueMedications_active now slot date rest c s l x Hl Hx). }
  assert (Hcons : forall l, (forall x, In x l -> In x rest) -> NoDup (List.map med_id l) ->
                            NoDup (List.map med_id (m :: l))).
  { intros l Hl Hndl. simpl. apply NoDup_cons. split; [|exact Hndl].
    intros Hin. apply Hnotin. apply list_elem_of_In in Hin. apply list_elem_of_In.
    apply in_map_iff in Hin as (x & Hid & Hx). apply in_map_iff. exists x.
    split; [exact Hid|apply Hl; exact Hx]. }
  destruct (bool_decide (active m = Some true)).
  - destruct (isMedicationDue cfg zone cache st now m slot date) as [[isDue c1] s1].
    specialize (IH c1 s1). specialize (Hsub c1 s1).
    destruct (dueMedications cfg zone c1 s1 now rest slot date) as [[rest' c2] s2].
    simpl in *. destruct isDue as [[|]|]; destruct rest' as [l|]; try discriminate;
      intros [= <-].
    + apply Hcons; [intros x Hx; apply (Hsub l x eq_refl Hx)|apply (IH l Hrest eq_refl)].
    + apply (IH l Hrest eq_refl).
  - specialize (IH cache st).
    destruct (dueMedications cfg zone cache st now rest slot date) as [[rest' c2] s2].
    simpl in *. destruct rest' as [l|]; [|discriminate]. intros [= <-].
    apply (IH l Hrest eq_refl).
Qed.

Lemma NoDup_map_inj {A B : Type} (f : A -> B) (l : list A) a b :
  NoDup (List.map f l) -> In a l -> In b l -> f a = f b -> a = b.
Proof.
  induction l as [|x l IH]; simpl; [intros _ []|].
  intros Hnd Ha Hb Heq. apply NoDup_cons in Hnd as [Hnotin Hrest].
  destruct Ha as [->|Ha], Hb as [->|Hb]; auto.
  - exfalso. apply Hnotin. apply list_elem_of_In. rewrite Heq. apply in_map. exact Hb.
  - exfalso. apply Hnotin. apply list_elem_of_In. rewrite <- Heq. apply in_map. exact Ha.
Qed.

Lemma batchOrder_ids due :
  NoDup (List.map med_id due) -> NoDup (List.map med_id (batchOrder due)).
Proof.
  intros Hnd. unfold batchOrder, byLocation. rewrite !map_app.
  assert (Hdisj : forall loc1 loc2 i, loc1 <> loc2 ->
            i ∈ List.map med_id (List.filter (fun m => String.eqb (location m) loc1) due) ->
            i ∈ List.map med_id (List.filter (fun m => String.eqb (location m) loc2) due) ->
            False).
  { intros loc1 loc2 i Hne H1 H2. apply list_elem_of_In in H1, H2.
    apply in_map_iff in H1 as (a & <- & Ha). apply in_map_iff in H2 as (b & Hid & Hb).
    apply filter_In in Ha as [Ha Hla]. apply filter_In in Hb as [Hb Hlb].
    assert (a = b) by (eapply NoDup_map_inj; eauto). subst b.
    apply String.eqb_eq in Hla, Hlb. congruence. }
  apply NoDup_app. split; [apply NoDup_map_filter; exact Hnd|]. split.
  - intros i H1 H2. apply elem_of_app in H2 as [H2|H2].
    + apply (Hdisj "LEFT eye"%string "RIGHT eye"%string i); [discriminate|exact H1|exact H2].
    + apply (Hdisj "LEFT eye"%string "ORAL"%string i); [discriminate|exact H1|exact H2].
  - apply NoDup_app. split; [apply NoDup_map_filter; exact Hnd|]. split.
    + intros i H1 H2.
      apply (Hdisj "RIGHT eye"%string "ORAL"%string i); [discriminate|exact H1|exact H2].
    + apply NoDup_map_filter. exact Hnd.
Qed.

Lemma reminderId_ids dateStr slot (meds : list Medication) :
  NoDup (List.map med_id meds) -> NoDup (List.map (reminderId dateStr slot) meds).
Proof.
  induction meds as [|m rest IH]; simpl; intros Hnd; [constructor|].
  apply NoDup_cons in Hnd as [Hnotin Hrest]. apply NoDup_cons. split; [|auto].
  intros Hin. apply Hnotin. apply list_elem_of_In in Hin. apply list_elem_of_In.
  apply in_map_iff in Hin as (x & Hid & Hx). apply in_map_iff. exists x. split; [|exact Hx].
  unfold reminderId in Hid.
  apply append_inj in Hid. apply (append_inj "-") in Hid.
  apply append_inj in Hid. apply (append_inj "-") in Hid. exact Hid.
Qed.

(** X21: a generated batch repeats no id: when the medication ids of the
    catalog are distinct, the reminders [getIndividualReminders] returns
    have distinct ids, so that [addPendingReminders], which compares a batch
    with the pending list only, drops none of them for a twin in the
    batch. *)
Theorem generated_batch_has_distinct_ids cache st now date g :
  NoDup (List.map med_id (getAllMedications cfg)) ->
  fst (fst (getIndividualReminders cfg zone pacific cache st now date)) = Some g ->
  NoDup (List.map rem_id (g_reminders g)).
Proof.
  intros Hnd. unfold getIndividualReminders.
  destruct (getCurrentTimeSlot pacific date) as [slot|] eqn:Hslot.
  - destruct (getCurrentTimeSlot_baseTimes _ _ _ Hslot) as (bh & bm & Hbase).
    pose proof (dueMedications_ids now slot date (getAllMedications cfg) cache st) as Hdue.
    destruct (dueMedications cfg zone cache st now (getAllMedications cfg) slot date)
      as [[[due|] cache'] st']; [|discriminate].
    specialize (Hdue due Hnd eq_refl).
    destruct (groupingRaises due); [discriminate|].
    destruct (batch_ids (toISODate date) slot (getDayNumber cfg zone date) due bh bm Hbase)
      as (reminders & -> & Hids & _).
    simpl. intros [= <-]. simpl. rewrite Hids.
    apply reminderId_ids. apply batchOrder_ids. exact Hdue.
  - simpl. intros [= <-]. constructor.
Qed.

(** ** The past-due view *)

Lemma sameButSchedules_refl st : sameButSchedules st st.
Proof. repeat split. Qed.

Lemma sameButSchedules_trans a b c :
  sameButSchedules a b -> sameButSchedules b c -> sameButSchedules a c.
Proof.
  intros (H1 & H2 & H3 & H4) (G1 & G2 & G3 & G4).
  repeat split; congruence.
Qed.

Lemma getMedicationSchedule_same st now medId :
  sameButSchedules st (snd (getMedicationSchedule st now medId)).
Proof.
  unfold getMedicationSchedule. destruct (client st) as [db|] eqn:Hc.
  - destruct (redis_get db now _) as [[| | |]|]; apply sameButSchedules_refl.
  - repeat split.
Qed.

Lemma getMedicationScheduleWithCache_same cache st now medId :
  sameButSchedules st (snd (getMedicationScheduleWithCache cache st now medId)).
Proof.
  unfold getMedicationScheduleWithCache.
  pose proof (getMedicationSchedule_same st now medId) as Hs.
  destruct (getMedicationSchedule st now medId) as [schedule st'].
  destruct (cache !! medId) as [[d ts]|]; [destruct (_ <? _)|]; simpl;
    auto using sameButSchedules_refl.
Qed.

Lemma dueMedications_same now slot date meds : forall cache st,
  sameButSchedules st (snd (dueMedications cfg zone cache st now meds slot date)).
Proof.
  induction meds as [|m rest IH]; intros cache st; simpl; [apply sameButSchedules_refl|].
  destruct (bool_decide (active m = Some true)).
  - unfold isMedicationDue.
    pose proof (getMedicationScheduleWithCache_same cache st now (med_id m)) as H1.
    destruct (getMedicationScheduleWithCache cache st now (med_id m)) as [[custom c1] s1].
    specialize (IH c1 s1).
    destruct (dueMedications cfg zone c1 s1 now rest slot date) as [[due c2] s2].
    simpl in *. eapply sameButSchedules_trans; eauto.
  - specialize (IH cache st).
    destruct (dueMedications cfg zone cache st now rest slot date) as [[due c2] s2].
    exact IH.
Qed.

Lemma pastDueOf_same now dateStr dayNum date slots : forall cache st,
  sameButSchedules st
    (snd (pastDueOf cfg zone cache st now slots dateStr dayNum date)).
Proof.
  induction slots as [|slot rest IH]; intros cache st; simpl; [apply sameButSchedules_refl|].
  pose proof (dueMedications_same now slot date (getAllMedications cfg) cache st) as H1.
  destruct (dueMedications cfg zone cache st now (getAllMedications cfg) slot date)
    as [[[due|] c1] s1]; [|exact H1].
  specialize (IH c1 s1).
  destruct (pastDueOf cfg zone c1 s1 now rest dateStr dayNum date) as [[more c2] s2].
  simpl in *. eapply sameButSchedules_trans; eauto.
Qed.

Lemma getIndividualReminders_same cache st now date :
  sameButSchedules st (snd (getIndividualReminders cfg zone pacific cache st now date)).
Proof.
  unfold getIndividualReminders.
  destruct (getCurrentTimeSlot pacific date) as [slot|]; [|apply sameButSchedules_refl].
  pose proof (dueMedications_same now slot date (getAllMedications cfg) cache st) as H1.
  destruct (dueMedications cfg zone cache st now (getAllMedications cfg) slot date)
    as [[due c1] s1]. exact H1.
Qed.

Lemma isAlreadyConfirmed_same st st' now medId slot date :
  sameButSchedules st st' ->
  isAlreadyConfirmed pacific st' now medId slot date
  = isAlreadyConfirmed pacific st now medId slot date.
Proof.
  intros (Hc & _ & Hm & _). unfold isAlreadyConfirmed. rewrite Hc, Hm. reflexivity.
Qed.

(** X22: an early confirmation takes the medication and slot out of the
    past-due view: after [confirmEarly], no entry of [getPastDueUnconfirmed]
    has that medication id and slot (on the key-value service: for dates of
    the Pacific calendar day it was confirmed for, and for 24 hours). *)
Theorem early_confirmation_hides_the_past_due_entry cache st t0 medId slot med date0 now date
    items item :
  (is_Some (client st) ->
   getTodayDateString pacific date = getTodayDateString pacific date0
   /\ now < t0 + 86400 * 1000) ->
  fst (fst (getPastDueUnconfirmed cfg zone pacific cache
              (snd (confirmEarly pacific st t0 medId slot med date0)) now date))
  = Some items ->
  In item items ->
  ~ (pd_medicationId item = medId /\ pd_slot item = slot).
Proof.
  intros Hlive Hitems Hin [Hmed Hslot].
  pose proof (confirmEarly_isAlreadyConfirmed pacific st t0 medId slot med date0 now date Hlive)
    as Hmark.
  set (st1 := snd (confirmEarly pacific st t0 medId slot med date0)) in *.
  unfold getPastDueUnconfirmed, getPastDueMedications in Hitems. cbv zeta in Hitems.
  pose proof (pastDueOf_same now (toISODate date) (getDayNumber cfg zone date) date
                (getPastTimeSlots pacific date) cache st1) as Hsame.
  destruct (pastDueOf cfg zone cache st1 now (getPastTimeSlots pacific date)
              (toISODate date) (getDayNumber cfg zone date) date) as [[[pastDue|] c'] st'];
    [|discriminate].
  simpl in Hitems, Hsame. injection Hitems as <-. apply filter_In in Hin as [_ Hun].
  rewrite Hmed, Hslot, (isAlreadyConfirmed_same st1 st') in Hun by exact Hsame.
  rewrite Hmark in Hun. discriminate.
Qed.

(** ** Day numbers *)

(** X23: the day number counts calendar days of the process time zone from
    the surgery date, also across a change to or from daylight time, when
    the two noons it takes are not a whole number of days apart: it is 1
    at the surgery instant, and the day numbers of two instants differ by as
    many days as their calendar days do, at whatever time of the day the
    instants lie (and so it is 0 or negative before the surgery date).  The
    offsets of the zone must differ by less than twelve hours, and the
    dates be ones that [new Date(year, month, day, 12)] builds as they are
    given: of years other than 0 to 99 and in the range of [Date]. *)
Theorem getDayNumber_counts_calendar_days date date' :
  steady zone ->
  plain zone (SURGERY_DATE cfg) -> plain zone date -> plain zone date' ->
  getDayNumber cfg zone (SURGERY_DATE cfg) = 1
  /\ getDayNumber cfg zone date' - getDayNumber cfg zone date
     = localDay zone date' - localDay zone date.
Proof.
  intros Hsteady _ _ _. rewrite !getDayNumber_days by exact Hsteady.
  unfold dayNumberSince, SURGERY_DATE. split; lia.
Qed.

End Resolution.

(** Witness: amoxicillin in the morning batch of the second day. *)
Lemma only_active_witness :
  In amoxicillin (getAllMedications config) /\ active amoxicillin = Some true.
Proof.
  apply (only_active_catalog_entries_are_due config utc ∅ (memoryOnly []) morning13
           "MORNING" morning13
           [ofloxacin; plasma; amniotic; atropine; prednisoloneEye; tacrolimus; amoxicillin]
           amoxicillin).
  - vm_compute. reflexivity.
  - repeat (first [left; reflexivity | right]).
Defined.

(** Witness: the morning batch of the second day and the combined view of
    the same instant. *)
Lemma reminders_by_location_witness :
  exists d,
    fst (fst (getMedicationsDue config utc pst ∅ (memoryOnly []) morning13 morning13)) = Some d
    /\ g_slot (generated morning13) = due_slot d
    /\ g_slotTime (generated morning13) = due_slotTime d
    /\ g_dayNumber (generated morning13) = due_dayNumber d
    /\ List.map medication (g_reminders (generated morning13))
       = batchOrder (due_medications d)
    /\ (forall med, In med (List.map medication (g_reminders (generated morning13)))
                    <-> In med (due_medications d) /\ In (location med) locationOrder).
Proof.
  refine (proj2 (reminders_are_the_due_medications_by_location config utc pst ∅
                   (memoryOnly []) morning13 morning13) (generated morning13) _).
  vm_compute. reflexivity.
Defined.

(** Witness: the morning batch of the second day. *)
Lemma generated_batch_witness :
  NoDup (List.map rem_id (g_reminders (generated morning13))).
Proof.
  apply (generated_batch_has_distinct_ids config utc pst ∅ (memoryOnly []) morning13 morning13).
  - vm_compute. nodup_strings.
  - vm_compute. reflexivity.
Defined.

(** Witness: ofloxacin switched off, with an empty schedule cache. *)
Lemma deactivated_medication_witness :
  fst (fst (isMedicationDue config utc ∅
              (snd (updateMedicationSchedule (memoryOnly []) 1000 (med_id ofloxacin) switchOff))
              morning13 ofloxacin "MORNING" morning13))
  = Some false.
Proof.
  apply (deactivated_medication_is_not_due config utc (memoryOnly []) 1000 switchOff ∅
           morning13 ofloxacin "MORNING" morning13).
  - reflexivity.
  - intros d ts H. rewrite lookup_empty in H. discriminate H.
Defined.

(** Witness: a cache entry four minutes old. *)
Lemma custom_schedule_cache_witness :
  fst (fst (getMedicationScheduleWithCache {[ "ofloxacin"%string := (None, 1000) ]}
              (snd (updateMedicationSchedule (memoryOnly []) 2000 "ofloxacin" switchOff))
              (1000 + 4 * 60 * 1000) "ofloxacin"))
  = if 1000 + 4 * 60 * 1000 - 1000 <? CACHE_TTL then None else Some (stamped switchOff 2000).
Proof.
  apply (custom_schedule_is_seen_after_cache_ttl (memoryOnly []) 2000 "ofloxacin" switchOff
           {[ "ofloxacin"%string := (None, 1000) ]} (1000 + 4 * 60 * 1000) None 1000).
  apply lookup_singleton_eq.
Defined.

(** Witness: ofloxacin confirmed at 08:30, the past-due view at 10:00. *)
Lemma early_confirmation_witness :
  Forall (fun item => ~ (pd_medicationId item = "ofloxacin"%string
                         /\ pd_slot item = "MORNING"%string))
    (default []
       (fst (fst (getPastDueUnconfirmed config utc pst ∅
                    (snd (confirmEarly pst (memoryOnly []) morning13 "ofloxacin" "MORNING" None
                            morning13))
                    midMorning13 midMorning13)))).
Proof.
  apply Forall_forall. intros item Hin. apply list_elem_of_In in Hin.
  apply (early_confirmation_hides_the_past_due_entry config utc pst ∅ (memoryOnly []) morning13
           "ofloxacin" "MORNING" None morning13 midMorning13 midMorning13
           (default []
              (fst (fst (getPastDueUnconfirmed config utc pst ∅
                           (snd (confirmEarly pst (memoryOnly []) morning13 "ofloxacin"
                                   "MORNING" None morning13))
                           midMorning13 midMorning13))))
           item).
  - intros [db Hdb]. discriminate Hdb.
  - vm_compute. reflexivity.
  - exact Hin.
Defined.

Example past_due_after_an_early_confirmation :
  List.map pd_id <$>
    fst (fst (getPastDueUnconfirmed config utc pst ∅
                (snd (confirmEarly pst (memoryOnly []) morning13 "ofloxacin" "MORNING" None
                        morning13))
                midMorning13 midMorning13))
  = Some [ "2026-01-13-MORNING-plasma"; "2026-01-13-MORNING-amniotic";
           "2026-01-13-MORNING-atropine"; "2026-01-13-MORNING-prednisolone-eye";
           "2026-01-13-MORNING-tacrolimus-cyclosporine";
           "2026-01-13-MORNING-amoxicillin" ]%string.
Proof. vm_compute. reflexivity. Qed.

(** Witness: a process in Los Angeles, from the surgery date (standard time)
    to noon of 2026-03-10 (daylight time), 57 calendar days on. *)
Lemma getDayNumber_witness :
  getDayNumber config losAngeles (SURGERY_DATE config) = 1
  /\ getDayNumber config losAngeles (ofCivil 20522 19 0)
     - getDayNumber config losAngeles surgery
     = localDay losAngeles (ofCivil 20522 19 0) - localDay losAngeles surgery.
Proof.
  apply (getDayNumber_counts_calendar_days config losAngeles surgery (ofCivil 20522 19 0)).
  - apply steady_losAngeles.
  - plain_at.
  - plain_at.
  - plain_at.
Defined.

(** The two noons of that witness are an hour short of 57 days apart. *)
Example noons_across_daylight_time :
  localDate losAngeles (localDay losAngeles (ofCivil 20522 19 0)) 12
  - localDate losAngeles (localDay losAngeles surgery) 12
  = 57 * MS_PER_DAY - 60 * MS_PER_MINUTE
  /\ getDayNumber config losAngeles (ofCivil 20522 19 0) = 58.
Proof. split; vm_compute; reflexivity. Qed.

End SchedulerExtFacts.

(** * Properties of the trigger endpoint as a whole *)

Module TriggerFacts.
Import Storage Scheduler Notify Cron Trigger Sample Scenario Statements Notions.
Import StorageFacts StorageExtFacts SchedulerExtFacts.

Section Runs.
Variable cfg : Medications.Config.
Variable zone : Zone.
Variable pacific : Instant -> Z.

Lemma claimKey_not_pending slot date : claimKey pacific slot date <> PENDING_KEY.
Proof. unfold claimKey. apply sent_key_not_pending. Qed.

(** A write of the pending list changes the outcome of no claim. *)
Lemma claimSlot_after_pending_write st db c l slot date t :
  client st = Some db ->
  fst (claimSlot pacific
         (with_client st (redis_set db c PENDING_KEY (VPending l) (Some 86400))) t slot date)
  = fst (claimSlot pacific st t slot date).
Proof.
  intros Hc. unfold claimSlot. simpl. rewrite Hc. unfold redis_setnx.
  rewrite redis_get_set_ne by (intros E; symmetry in E; revert E; apply claimKey_not_pending).
  destruct (redis_get db t _); reflexivity.
Qed.

Lemma markRemindersSent_claims st c ids slot date t :
  fst (claimSlot pacific (snd (markRemindersSent st c ids)) t slot date)
  = fst (claimSlot pacific st t slot date).
Proof.
  unfold markRemindersSent. destruct (client st) as [db|] eqn:Hc; simpl.
  - apply claimSlot_after_pending_write. exact Hc.
  - unfold claimSlot. simpl. rewrite Hc. destruct (bool_decide _); reflexivity.
Qed.

Lemma markRemindersSent_ids st c ids t r :
  In r (getPendingReminders (snd (markRemindersSent st c ids)) t) ->
  In (rem_id r) (List.map rem_id (getPendingReminders st c)).
Proof.
  intros Hin. destruct (markRemindersSent_stored st c ids t) as [H|H]; rewrite H in Hin;
    [|destruct Hin].
  rewrite markRemindersSent_result in Hin. apply in_map_iff in Hin as (r0 & <- & Hr0).
  apply in_map_iff. exists r0. split; [|exact Hr0].
  destruct (existsb _ ids); reflexivity.
Qed.

Lemma claimSlot_keeps_pending st now slot date t :
  getPendingReminders (snd (claimSlot pacific st now slot date)) t = getPendingReminders st t.
Proof.
  unfold claimSlot. destruct (client st) as [db|] eqn:Hc.
  - unfold redis_setnx. destruct (redis_get db now _) as [v|] eqn:Hget; simpl.
    + unfold getPendingReminders. simpl. rewrite Hc. reflexivity.
    + unfold getPendingReminders. simpl. rewrite Hc.
      unfold redis_expire, redis_get. rewrite lookup_insert_eq. simpl.
      rewrite !lookup_insert_ne by apply claimKey_not_pending. reflexivity.
  - destruct (bool_decide _); simpl; unfold getPendingReminders; simpl; rewrite Hc; reflexivity.
Qed.

(** The generator touches neither the pending list nor the claims. *)
Lemma getPendingReminders_same st st' t :
  sameButSchedules st st' -> getPendingReminders st' t = getPendingReminders st t.
Proof.
  intros (Hc & Hp & _ & _). unfold getPendingReminders. rewrite Hc, Hp. reflexivity.
Qed.

Lemma held_same key t st st' : sameButSchedules st st' -> held key t st -> held key t st'.
Proof. intros (Hc & _ & _ & Hs). unfold held. rewrite Hc, Hs. auto. Qed.

Section OneRun.
Variable send : nat -> string -> Dispatch.
Variable clock : nat -> Instant.

Lemma reRemind_sent toResend : forall i st,
  snd (reRemind send clock i st toResend) = List.map reRemindMsg toResend.
Proof.
  induction toResend as [|r rest IH]; intros i st; simpl; [reflexivity|].
  specialize (IH (S i)
                (if delivered (send i (reRemindMsg r))
                 then snd (markRemindersSent st (clock i) [rem_id r]) else st)).
  destruct (reRemind send clock (S i) _ rest) as [st2 sent]. simpl in *. rewrite IH.
  reflexivity.
Qed.

Lemma reRemind_claims toResend slot date t : forall i st,
  fst (claimSlot pacific (fst (reRemind send clock i st toResend)) t slot date)
  = fst (claimSlot pacific st t slot date).
Proof.
  induction toResend as [|r rest IH]; intros i st; simpl; [reflexivity|].
  specialize (IH (S i)
                (if delivered (send i (reRemindMsg r))
                 then snd (markRemindersSent st (clock i) [rem_id r]) else st)).
  destruct (reRemind send clock (S i) _ rest) as [st2 sent]. simpl in *. rewrite IH.
  destruct (delivered _); [apply markRemindersSent_claims|reflexivity].
Qed.

Lemma reRemind_ids (ids : list string) toResend : forall i st,
  (forall t r, In r (getPendingReminders st t) -> In (rem_id r) ids) ->
  forall t r, In r (getPendingReminders (fst (reRemind send clock i st toResend)) t) ->
              In (rem_id r) ids.
Proof.
  induction toResend as [|x rest IH]; intros i st Hst; simpl; [exact Hst|].
  set (st1 := if delivered (send i (reRemindMsg x))
              then snd (markRemindersSent st (clock i) [rem_id x]) else st).
  assert (Hst1 : forall t r, In r (getPendingReminders st1 t) -> In (rem_id r) ids).
  { unfold st1. destruct (delivered _); [|exact Hst].
    intros t r Hin. apply markRemindersSent_ids in Hin.
    apply in_map_iff in Hin as (r0 & <- & Hr0). eapply Hst. exact Hr0. }
  specialize (IH (S i) st1 Hst1).
  destruct (reRemind send clock (S i) st1 rest) as [st2 sent]. exact IH.
Qed.

(** When no send call lets control reach [markRemindersSent], the loop
    leaves the store as it is. *)
Lemma reRemind_unsent toResend : forall i st,
  (forall k msg, delivered (send k msg) = false) ->
  fst (reRemind send clock i st toResend) = st.
Proof.
  induction toResend as [|x rest IH]; intros i st Hnone; simpl; [reflexivity|].
  rewrite Hnone. specialize (IH (S i) st Hnone).
  destruct (reRemind send clock (S i) st rest) as [st2 sent]. exact IH.
Qed.

(** X24: re-reminders come first.  When some pending reminder has been
    waiting for 30 minutes, the handler sends one re-reminder for each such
    reminder and answers; in that invocation it claims no slot, sends no
    new batch and adds no pending entry, also inside a slot window. *)
Theorem handler_re_reminds_before_it_looks_at_the_slot cronSecret authHeader cache st now :
  authorized cronSecret authHeader = true ->
  getRemindersToResend st now 30 <> [] ->
  let run := handler cfg zone pacific send clock cronSecret authHeader cache st now in
  fst (fst run) = ReRemind (length (getRemindersToResend st now 30))
  /\ snd run = List.map reRemindMsg (getRemindersToResend st now 30)
  /\ (forall slot date t,
        fst (claimSlot pacific (snd (fst run)) t slot date)
        = fst (claimSlot pacific st t slot date))
  /\ (forall t r, In r (getPendingReminders (snd (fst run)) t) ->
                  In (rem_id r) (List.map rem_id (getPendingReminders st now))).
Proof.
  intros Hauth Hsome run. subst run. unfold handler. rewrite Hauth. simpl negb. cbv iota.
  cbv zeta.
  destruct (getRemindersToResend st now 30) as [|x rest] eqn:E; [congruence|].
  change (0 <? length (x :: rest))%nat with true. cbv iota.
  pose proof (reRemind_sent (x :: rest) 0 st) as Hsent.
  pose proof (fun slot date t => reRemind_claims (x :: rest) slot date t 0 st) as Hclaims.
  assert (Hids : forall t r, In r (getPendingReminders
                                     (fst (reRemind send clock 0 st (x :: rest))) t) ->
                             In (rem_id r) (List.map rem_id (getPendingReminders st now))).
  { apply reRemind_ids. intros t r Hin.
    assert (Hnow : getPendingReminders st now <> []).
    { intros Hnil. unfold getRemindersToResend in E. rewrite Hnil in E. discriminate. }
    assert (Hsame : getPendingReminders st t = getPendingReminders st now \/
                    getPendingReminders st t = []).
    { unfold getPendingReminders in *. destruct (client st) as [db|]; [|left; reflexivity].
      unfold redis_get in *. destruct (db !! PENDING_KEY) as [e|]; [|left; reflexivity].
      destruct (expired e now); [congruence|].
      destruct (expired e t); [right|left]; reflexivity. }
    destruct Hsame as [H|H]; rewrite H in Hin; [|destruct Hin].
    apply in_map. exact Hin. }
  destruct (reRemind send clock 0 st (x :: rest)) as [st' sent]. simpl in *.
  split; [reflexivity|]. split; [exact Hsent|]. split; [exact Hclaims|exact Hids].
Qed.

(** X27: an invocation that wins the claim of a slot ends with a TypeError
    and sends nothing.  Line 95 reads [reminders] off the promise that
    [getIndividualReminders] returns, without awaiting it, and the length of
    the undefined value is read next; by then the slot is claimed.  The
    pending list is as before, so nothing will be confirmed or re-reminded,
    and the claim stays. *)
Theorem handler_raises_after_winning_the_claim cronSecret authHeader cache st now slot :
  authorized cronSecret authHeader = true ->
  getRemindersToResend st now 30 = [] ->
  getCurrentTimeSlot pacific now = Some slot ->
  fst (claimSlot pacific st now slot now) = true ->
  let run := handler cfg zone pacific send clock cronSecret authHeader cache st now in
  (exists error, fst (fst run) = Raised error)
  /\ snd run = []
  /\ (forall t, getPendingReminders (snd (fst run)) t = getPendingReminders st t)
  /\ held (claimKey pacific slot now) now (snd (fst run)).
Proof.
  intros Hauth Hnone Hslot Hwon run. subst run. unfold handler.
  rewrite Hauth, Hnone, Hslot. simpl negb. cbv iota. cbv zeta.
  change (0 <? length (@nil Reminder))%nat with false. cbv iota.
  pose proof (claimSlot_win_held pacific st now slot now Hwon) as Hheld.
  pose proof (claimSlot_keeps_pending st now slot now) as Hpending.
  destruct (claimSlot pacific st now slot now) as [claimed st1]. simpl in Hwon. subst claimed.
  simpl negb. cbv iota. simpl in Hheld, Hpending.
  pose proof (getIndividualReminders_same cfg zone pacific cache st1 now now) as Hsame.
  unfold sendBatch. simpl.
  split; [eexists; reflexivity|]. split; [reflexivity|]. split.
  - intros t. rewrite (getPendingReminders_same _ _ t Hsame). apply Hpending.
  - apply (held_same _ _ _ _ Hsame). exact Hheld.
Qed.

End OneRun.

(** X25: with the send call of the handler, [sendNotification], a
    re-reminder does not restart the resend timer.  The loop over the
    results raises on the object [sendNotification] returns, inside the
    [try], so [markRemindersSent] is not reached and the invocation leaves
    the store as it found it; every reminder it re-reminded is a resend
    candidate again at every later instant at which it is still pending,
    however soon the next invocation comes. *)
Theorem handler_re_remind_does_not_restart_the_timer credentials create configured
    sendMessenger clock cronSecret authHeader cache st now later r :
  let send :=
    fun (_ : nat) msg => sendNotification credentials create configured sendMessenger msg in
  let run := handler cfg zone pacific send clock cronSecret authHeader cache st now in
  authorized cronSecret authHeader = true ->
  In r (getRemindersToResend st now 30) ->
  snd (fst run) = st
  /\ snd run = List.map reRemindMsg (getRemindersToResend st now 30)
  /\ (now <= later -> In r (getPendingReminders st later) ->
      In r (getRemindersToResend (snd (fst run)) later 30)).
Proof.
  intros send run Hauth Hin.
  assert (Hst : snd (fst run) = st /\ snd run = List.map reRemindMsg (getRemindersToResend st now 30)).
  { subst run. unfold handler. rewrite Hauth. simpl negb. cbv iota. cbv zeta.
    destruct (getRemindersToResend st now 30) as [|x rest] eqn:E; [destruct Hin|].
    change (0 <? length (x :: rest))%nat with true. cbv iota.
    pose proof (reRemind_unsent send clock (x :: rest) 0 st ltac:(reflexivity)) as Hsame.
    pose proof (reRemind_sent send clock (x :: rest) 0 st) as Hsent.
    destruct (reRemind send clock 0 st (x :: rest)) as [st' sent]. simpl in *. auto. }
  destruct Hst as [Hst Hsent]. split; [exact Hst|]. split; [exact Hsent|].
  intros Hlater Hpending. rewrite Hst.
  unfold getRemindersToResend in *. apply filter_In in Hin as [_ Hneed].
  apply filter_In. split; [exact Hpending|].
  apply needsResend_spec in Hneed as (t & Ht & Hne & Hage).
  apply needsResend_spec. exists t. split; [exact Ht|]. split; [exact Hne|]. lia.
Qed.

(** X26: a slot is claimed once.  After an invocation that won the claim of
    a slot, and so ended with a TypeError, every invocation for the same
    slot and Pacific date made before the claim is two hours old either
    re-reminds or answers that the slot is already claimed, and then sends
    nothing and leaves the pending list as it is: the batch of the slot is
    not sent by a later invocation either. *)
Theorem handler_claims_a_slot_once send1 clock1 send2 clock2 cronSecret authHeader
    cache1 cache2 st now1 now2 slot error :
  let run1 := handler cfg zone pacific send1 clock1 cronSecret authHeader cache1 st now1 in
  fst (fst run1) = Raised error ->
  getCurrentTimeSlot pacific now1 = Some slot ->
  now2 < now1 + 7200 * 1000 ->
  getCurrentTimeSlot pacific now2 = Some slot ->
  getTodayDateString pacific now2 = getTodayDateString pacific now1 ->
  let run2 :=
    handler cfg zone pacific send2 clock2 cronSecret authHeader cache2 (snd (fst run1)) now2 in
  (exists count, fst (fst run2) = ReRemind count)
  \/ (fst (fst run2) = AlreadyClaimed slot
      /\ snd run2 = []
      /\ forall t, getPendingReminders (snd (fst run2)) t
                   = getPendingReminders (snd (fst run1)) t).
Proof.
  intros run1 Hraised Hslot1 Hsoon Hslot2 Hdate run2.
  assert (Hfirst : authorized cronSecret authHeader = true
                   /\ held (claimKey pacific slot now1) now1 (snd (fst run1))).
  { subst run1. clear run2. unfold handler in *.
    destruct (authorized cronSecret authHeader); simpl negb in *; cbv iota in *;
      [|discriminate Hraised].
    split; [reflexivity|]. cbv zeta in *.
    destruct (0 <? length (getRemindersToResend st now1 30))%nat.
    { destruct (reRemind send1 clock1 0 st _) as [st' sent]. discriminate Hraised. }
    rewrite Hslot1 in *.
    pose proof (claimSlot_win_held pacific st now1 slot now1) as Hheld.
    destruct (claimSlot pacific st now1 slot now1) as [claimed st1].
    destruct claimed; simpl negb in *; cbv iota in *; [|discriminate Hraised].
    specialize (Hheld eq_refl). simpl in Hheld. unfold sendBatch. simpl.
    apply (held_same _ _ st1); [|exact Hheld].
    apply getIndividualReminders_same. }
  destruct Hfirst as [Hauth Hheld].
  subst run2. clear Hraised. generalize dependent (snd (fst run1)). clear run1.
  intros st1 Hheld.
  unfold handler. rewrite Hauth. simpl negb. cbv iota. cbv zeta.
  destruct (0 <? length (getRemindersToResend st1 now2 30))%nat.
  { destruct (reRemind send2 clock2 0 st1 _) as [st' sent]. left. eexists. reflexivity. }
  rewrite Hslot2. right.
  assert (Hkey : claimKey pacific slot now2 = claimKey pacific slot now1)
    by (unfold claimKey; rewrite Hdate; reflexivity).
  pose proof (claimSlot_blocked pacific _ now1 st1 now2 slot now2 Hheld Hkey) as Hblocked.
  pose proof (claimSlot_keeps_pending st1 now2 slot now2) as Hpending.
  destruct (claimSlot pacific st1 now2 slot now2) as [claimed st2].
  destruct claimed; simpl in *.
  - destruct (Hblocked eq_refl) as [_ Hlate]. lia.
  - split; [reflexivity|]. split; [reflexivity|]. exact Hpending.
Qed.

End Runs.


(** Witness: two reminders pending since the morning, a trigger in the evening window. *)
Lemma handler_re_reminds_witness :
  fst (fst (handler config utc pst notifying (fun _ => evening13) None None ∅
              (memoryOnly [rA; rB]) evening13))
  = ReRemind 2.
Proof.
  destruct (handler_re_reminds_before_it_looks_at_the_slot config utc pst notifying
              (fun _ => evening13) None None ∅ (memoryOnly [rA; rB]) evening13) as [Hresp _].
  - reflexivity.
  - vm_compute. discriminate.
  - rewrite Hresp. vm_compute. reflexivity.
Defined.

(** Witness: the same trigger, and the candidates one minute after it. *)
Lemma handler_re_remind_timer_witness :
  In rA (getRemindersToResend
           (snd (fst (handler config utc pst notifying (fun _ => evening13) None None ∅
                        (memoryOnly [rA; rB]) evening13)))
           (evening13 + 60000) 30).
Proof.
  refine (proj2 (proj2 (handler_re_remind_does_not_restart_the_timer config utc pst true
                          (fun number _ => Created "SM1" "queued" number) false
                          (fun _ => Results []) (fun _ => evening13) None None ∅
                          (memoryOnly [rA; rB]) evening13 (evening13 + 60000) rA _ _)) _ _).
  - reflexivity.
  - vm_compute. left. reflexivity.
  - lia.
  - left. reflexivity.
Defined.

(** Witness: two triggers of the evening slot, one minute apart. *)
Lemma handler_claims_once_witness :
  let run1 := handler config utc pst notifying (fun _ => evening13) None None ∅ (upstash [])
                evening13 in
  let run2 := handler config utc pst notifying (fun _ => evening13 + 60000) None None ∅
                (snd (fst run1)) (evening13 + 60000) in
  (exists count, fst (fst run2) = ReRemind count)
  \/ (fst (fst run2) = AlreadyClaimed "EVENING"
      /\ snd run2 = []
      /\ forall t, getPendingReminders (snd (fst run2)) t
                   = getPendingReminders (snd (fst run1)) t).
Proof.
  apply (handler_claims_a_slot_once config utc pst notifying (fun _ => evening13) notifying
           (fun _ => evening13 + 60000) None None ∅ ∅ (upstash [])
           evening13 (evening13 + 60000) "EVENING"
           "TypeError: Cannot read properties of undefined (reading 'length')").
  - vm_compute. reflexivity.
  - vm_compute. reflexivity.
  - lia.
  - vm_compute. reflexivity.
  - vm_compute. reflexivity.
Defined.

(** Witness: the first trigger of the evening window of 2026-01-13. *)
Lemma handler_raises_witness :
  exists error,
    fst (fst (handler config utc pst notifying (fun _ => evening13) None None ∅ (upstash [])
                evening13))
    = Raised error.
Proof.
  refine (proj1 (handler_raises_after_winning_the_claim config utc pst notifying
                   (fun _ => evening13) None None ∅ (upstash []) evening13 "EVENING"
                   _ _ _ _)).
  - reflexivity.
  - vm_compute. reflexivity.
  - vm_compute. reflexivity.
  - vm_compute. reflexivity.
Defined.

Example second_trigger_of_the_evening :
  fst (fst (handler config utc pst notifying (fun _ => evening13 + 60000) None None ∅
              (snd (fst (handler config utc pst notifying (fun _ => evening13) None None ∅
                           (upstash []) evening13)))
              (evening13 + 60000)))
  = AlreadyClaimed "EVENING".
Proof. vm_compute. reflexivity. Qed.

End TriggerFacts.

(** * Properties of the notification summary, the conflict groups and the
    schedule endpoint *)

Module FurtherFacts.
Import Storage Medications MedicationsExt Scheduler Notify Api Sample Scenario Statements Notions.
Import StorageFacts SchedulerFacts SchedulerExtFacts.

Lemma successCount_le rs : (successCount rs <= length rs)%nat.
Proof. unfold successCount. apply filter_length_le. Qed.

(** X28: [sendNotification] never throws, and its summary counts the
    per-recipient results: [sent] is the number of results with success,
    and [sent + failed] is the number of results of both channels.  A
    channel that throws as a whole (WhatsApp without credentials) or is not
    configured contributes no result: it counts neither as sent nor as
    failed. *)
Theorem sendNotification_summary_counts_the_results credentials create configured
    sendMessenger message :
  exists r,
    sendNotification credentials create configured sendMessenger message = Channels r
    /\ (summary_sent r + summary_failed r = length (whatsapp r) + length (messenger r))%nat
    /\ summary_sent r = (successCount (whatsapp r) + successCount (messenger r))%nat
    /\ length (whatsapp r) = (if credentials then length RECIPIENT_NUMBERS else 0%nat)
    /\ (configured = false -> messenger r = []).
Proof.
  unfold sendNotification. eexists. split; [reflexivity|]. simpl.
  split; [|split; [reflexivity|split]].
  - match goal with
    | |- context [(successCount ?a + successCount ?b)%nat] =>
        pose proof (successCount_le a); pose proof (successCount_le b)
    end. lia.
  - unfold sendWhatsApp. destruct credentials; simpl; reflexivity.
  - intros ->. reflexivity.
Qed.

(** ** Conflict groups *)

Lemma disjointGroups_find groups m : forall group,
  disjointGroups groups = true ->
  In group groups -> In m (snd group) ->
  List.find (fun entry => arrayIncludes (snd entry) m) groups = Some group.
Proof.
  induction groups as [|g rest IH]; intros group Hdis Hin Hm; [destruct Hin|].
  simpl in Hdis. apply andb_true_iff in Hdis as [Hhead Hrest]. simpl.
  destruct (arrayIncludes (snd g) m) eqn:Hg.
  - destruct Hin as [->|Hin]; [reflexivity|]. exfalso.
    rewrite forallb_forall in Hhead. specialize (Hhead group Hin).
    rewrite forallb_forall in Hhead. apply arrayIncludes_In in Hg.
    specialize (Hhead m Hg). apply negb_true_iff in Hhead.
    apply arrayIncludes_In in Hm. congruence.
  - destruct Hin as [->|Hin].
    + apply arrayIncludes_In in Hm. congruence.
    + apply IH; assumption.
Qed.

Lemma getConflictingMeds_In groups a b :
  In b (getConflictingMeds groups a)
  <-> exists group,
        List.find (fun entry => arrayIncludes (snd entry) a) groups = Some group
        /\ In b (snd group) /\ b <> a.
Proof.
  unfold getConflictingMeds.
  destruct (List.find _ groups) as [[name meds]|]; simpl.
  - rewrite filter_In, negb_true_iff, String.eqb_neq. split.
    + intros [? ?]. eexists. split; [reflexivity|]. simpl. auto.
    + intros (group & [= <-] & ? & ?). simpl in *. auto.
  - split; [intros []|intros (group & H & _); discriminate H].
Qed.

(** X29: [getConflictingMeds] never lists the medication itself, and when no
    medication id is in two conflict groups, conflicts are mutual: [b] is
    among the conflicts of [a] exactly when [a] is among those of [b]. *)
Theorem getConflictingMeds_is_mutual groups a b :
  disjointGroups groups = true ->
  ~ In a (getConflictingMeds groups a)
  /\ (In b (getConflictingMeds groups a) <-> In a (getConflictingMeds groups b)).
Proof.
  intros Hdis. split.
  - rewrite getConflictingMeds_In. intros (group & _ & _ & Hne). congruence.
  - assert (Hhalf : forall x y, In y (getConflictingMeds groups x) ->
                                In x (getConflictingMeds groups y)).
    { intros x y. rewrite !getConflictingMeds_In. intros (group & Hfind & Hy & Hne).
      exists group. apply find_some in Hfind as [Hin Hx]. apply arrayIncludes_In in Hx.
      split; [|split; [exact Hx|congruence]].
      apply disjointGroups_find; assumption. }
    split; apply Hhalf.
Qed.

(** Witness: plasma and atropine, both of the left eye. *)
Lemma getConflictingMeds_witness :
  ~ In "plasma"%string (getConflictingMeds conflictGroups "plasma")
  /\ (In "atropine"%string (getConflictingMeds conflictGroups "plasma")
      <-> In "plasma"%string (getConflictingMeds conflictGroups "atropine")).
Proof.
  apply (getConflictingMeds_is_mutual conflictGroups "plasma" "atropine").
  vm_compute. reflexivity.
Defined.

Example conflicts_of_plasma :
  getConflictingMeds conflictGroups "plasma" = ["ofloxacin"; "amniotic"; "atropine"]%string.
Proof. vm_compute. reflexivity. Qed.

(** ** The schedule endpoint *)

(** X30: the schedule endpoint answers [?day=N] with day number [N], for
    every [N] but 0 whose date lies in the range of [Date]: with the surgery
    date on the calendar day of the endpoint's anchor date (2026-01-12, noon
    PST), offsets of the process zone that differ by less than twelve hours,
    and the time of day of the anchor not skipped on the day asked for, the
    date it computes has day number [N], provided the noon of its day is in
    the range of [Date] as well and its year is not one of 0 to 99, which
    [getDayNumber] would read as 1900 to 1999.  A date out of the range is
    invalid and its day number is [NaN]; for 0 and for no number the
    endpoint answers for the current date. *)
Theorem schedule_endpoint_answers_for_the_requested_day cfg zone day now date :
  steady zone ->
  localDay zone (surgeryDate cfg) = localDay zone ANCHOR ->
  day <> 0 ->
  requestedDate zone (Some day) now = Some date ->
  plain zone (surgeryDate cfg) -> plain zone date ->
  readsBack zone ((localDay zone ANCHOR + (day - 1)) * MINUTES_PER_DAY
                  + zonedMinuteOfDay (offsetAt zone) ANCHOR) ->
  answeredDayNumber cfg zone (Some day) now = Some day
  /\ (forall far, requestedDate zone (Some far) now = None ->
                  answeredDayNumber cfg zone (Some far) now = None)
  /\ requestedDate zone (Some 0) now = Some now
  /\ requestedDate zone None now = Some now.
Proof.
  intros Hsteady Hanchor Hday Hdate _ _ Hreads.
  split; [|split; [|split; reflexivity]].
  - unfold answeredDayNumber. rewrite Hdate. simpl. f_equal.
    rewrite getDayNumber_days by exact Hsteady. unfold dayNumberSince. rewrite Hanchor.
    unfold requestedDate in Hdate. destruct (Z.eqb_spec day 0); [contradiction|].
    unfold setDateBy in Hdate. cbv zeta in Hdate.
    change (ANCHOR mod MS_PER_MINUTE) with 0 in Hdate. rewrite Z.add_0_r in Hdate.
    destruct (Z.abs _ <=? MAX_TIME); [|discriminate Hdate]. injection Hdate as <-.
    unfold readsBack in Hreads. unfold localDay at 1, zonedDay, zonedMinutes.
    rewrite Hreads.
    pose proof (Z.mod_pos_bound (zonedMinutes (offsetAt zone) ANCHOR) MINUTES_PER_DAY
                  ltac:(unfold MINUTES_PER_DAY; lia)) as Hm.
    fold (zonedMinuteOfDay (offsetAt zone) ANCHOR) in Hm.
    revert Hm. generalize (zonedMinuteOfDay (offsetAt zone) ANCHOR). intros m Hm.
    set (D := localDay zone ANCHOR).
    generalize (offsetOfWall zone ((D + (day - 1)) * MINUTES_PER_DAY + m)). intros o.
    unfold MS_PER_MINUTE. rewrite Z.div_mul by lia.
    replace ((D + (day - 1)) * MINUTES_PER_DAY + m - o + o)
      with (m + (D + (day - 1)) * MINUTES_PER_DAY) by lia.
    rewrite Z.div_add by (unfold MINUTES_PER_DAY; lia).
    rewrite Z.div_small by exact Hm. lia.
  - intros far Hfar. unfold answeredDayNumber. rewrite Hfar. reflexivity.
Qed.

(** Witness: day 60, 2026-03-12, with the catalog's surgery date and a
    process in Los Angeles, which is on daylight time by then. *)
Lemma schedule_endpoint_witness :
  answeredDayNumber config losAngeles (Some 60) morning13 = Some 60
  /\ (forall far, requestedDate losAngeles (Some far) morning13 = None ->
                  answeredDayNumber config losAngeles (Some far) morning13 = None)
  /\ requestedDate losAngeles (Some 0) morning13 = Some morning13
  /\ requestedDate losAngeles None morning13 = Some morning13.
Proof.
  apply (schedule_endpoint_answers_for_the_requested_day config losAngeles 60 morning13
           (ofCivil 20524 19 0)).
  - apply steady_losAngeles.
  - vm_compute. reflexivity.
  - lia.
  - vm_compute. reflexivity.
  - plain_at.
  - plain_at.
  - vm_compute. reflexivity.
Defined.

(** A day number that leads out of the range of [Date]. *)
Example schedule_endpoint_out_of_range :
  requestedDate utc (Some 100000000) morning13 = None
  /\ answeredDayNumber config utc (Some 100000000) morning13 = None
  /\ answeredDayNumber config utc (Some 99979535) morning13 = Some 99979535
  /\ answeredDayNumber config utc (Some 99979536) morning13 = None.
Proof. vm_compute. auto. Qed.

End FurtherFacts.
